(** * AsterDEX trading bot: indicator, strategy, reconciliation and
      admission logic, embedded from the TypeScript sources.

    Conventions of the embedding.
    - A JavaScript [number] that carries a price, a size, a percentage or
      an indicator value is an IEEE-754 binary64 value: Rocq's primitive
      [float], whose operations round to nearest-even exactly like the
      JavaScript ones.  [NaN], the infinities and signed zeros are
      therefore the real ones.
    - A [number] that carries a timestamp in milliseconds, a counter or a
      configured length is an integer [Z] (such values are exact in
      binary64 far beyond the range in use).
    - [number | null] and optional fields are [option]; JavaScript's
      coercions of [null]/[undefined] are written out where the code
      relies on them.
    - Methods that mutate [this] become functions returning the new
      object state; methods of [BotRunner], which also call fallible
      collaborators, live in a small state-and-exception monad. *)

From Stdlib Require Import Floats ZArith List Bool String Lia.
Import ListNotations.

Set Warnings "-inexact-float".

Local Open Scope Z_scope.

(* ===================================================================== *)
(** ** JavaScript numbers *)
(* ===================================================================== *)

Module JS.

Definition number := float.

Local Open Scope float_scope.

(** [a > b], [a >= b]: the relational operators with the operands swapped. *)
Definition gt (a b : number) : bool := b <? a.
Definition ge (a b : number) : bool := b <=? a.
Definition lt (a b : number) : bool := a <? b.
Definition le (a b : number) : bool := a <=? b.

(** [a === b] on numbers ([NaN] differs from itself, [+0 === -0]). *)
Definition seq (a b : number) : bool := a =? b.

(** ToBoolean on a number: false for [+0], [-0] and [NaN]. *)
Definition truthy (x : number) : bool := negb (x =? 0) && negb (is_nan x).

(** ToBoolean on [number | undefined | null]. *)
Definition truthy_opt (o : option number) : bool :=
  match o with Some x => truthy x | None => false end.

(** [o || d] for [o : number | undefined]. *)
Definition or_default (o : option number) (d : number) : number :=
  match o with
  | Some x => if truthy x then x else d
  | None => d
  end.

(** ToNumber on [number | null]: [null] is [+0]. *)
Definition of_null (o : option number) : number :=
  match o with Some x => x | None => 0 end.

(** [Math.max(a, b)]: [NaN] if an argument is [NaN]; [+0] is larger than [-0]. *)
Definition Math_max (a b : number) : number :=
  if is_nan a || is_nan b then nan
  else if a <? b then b
  else if b <? a then a
  else if get_sign a then b else a.

(** [Math.min(a, b)]: [NaN] if an argument is [NaN]; [-0] is smaller than [+0]. *)
Definition Math_min (a b : number) : number :=
  if is_nan a || is_nan b then nan
  else if a <? b then a
  else if b <? a then b
  else if get_sign a then a else b.

Definition Math_max3 (a b c : number) : number := Math_max (Math_max a b) c.

Definition Math_abs (a : number) : number := abs a.

(** An integer count or length used as a number. *)
Definition of_Z (z : Z) : number := of_uint63 (Uint63.of_Z z).

(** [xs.reduce((sum, v) => sum + v, 0)] *)
Definition sum (xs : list number) : number := fold_left add xs 0.

(** [Math.max(...xs)] and [Math.min(...xs)] *)
Definition max_list (xs : list number) : number := fold_left Math_max xs neg_infinity.
Definition min_list (xs : list number) : number := fold_left Math_min xs infinity.

(** [xs.push(x)] followed by [if (xs.length > cap) xs.shift()] *)
Definition push_capped (cap : Z) (xs : list number) (x : number) : list number :=
  let ys := xs ++ [x] in
  if (cap <? Z.of_nat (List.length ys))%Z then tl ys else ys.

(** [xs.slice(start)] for an integer [start]: a negative [start] counts
    from the end, and both ends are clamped to the array. *)
Definition slice {A : Type} (start : Z) (xs : list A) : list A :=
  let len := Z.of_nat (List.length xs) in
  let k := if (start <? 0)%Z then Z.max (len + start) 0 else Z.min start len in
  skipn (Z.to_nat k) xs.

End JS.

(* ===================================================================== *)
(** ** Shared data types (types.ts) *)
(* ===================================================================== *)

Record SyntheticBar := mkBar {
  startTime : Z;
  endTime : Z;
  open : JS.number;
  high : JS.number;
  low : JS.number;
  close : JS.number;
  volume : JS.number
}.

(** ["long" | "short" | "flat"] *)
Inductive PositionSide := long | short | flat.

Definition PositionSide_eqb (a b : PositionSide) : bool :=
  match a, b with
  | long, long | short, short | flat, flat => true
  | _, _ => false
  end.

(** [Exclude<PositionSide, "flat">], the type of a signal and of an order side. *)
Inductive TradeSide := Long | Short.

Definition sideOf (d : TradeSide) : PositionSide :=
  match d with Long => long | Short => short end.

Record TrendSnapshot := mkTrend {
  bullStack : bool;
  bearStack : bool;
  longLook : bool;
  shortLook : bool;
  longTrig : bool;
  shortTrig : bool
}.

Record IndicatorSnapshot := mkIndicators {
  emaFast : JS.number;
  emaMid : JS.number;
  emaSlow : JS.number;
  rsi : option JS.number;
  adx : option JS.number
}.

(** A non-null [StrategySignal]; [null] is [None] of [option StrategySignal]. *)
Record StrategySignal := mkSignal {
  type : TradeSide;
  reason : string;
  indicators : IndicatorSnapshot;
  trend : TrendSnapshot;
  system : option string
}.

Definition is_signal_of (d : TradeSide) (s : option StrategySignal) : bool :=
  match s with
  | Some sg => match type sg, d with
               | Long, Long | Short, Short => true
               | _, _ => false
               end
  | None => false
  end.

(** The ADX value that a signal carries in its indicator snapshot. *)
Definition adxOf (s : StrategySignal) : option JS.number := adx (indicators s).

(** How many of the returned values are signals of side [d]. *)
Definition count_signals (d : TradeSide) (out : list (option StrategySignal)) : nat :=
  List.length (filter (is_signal_of d) out).

(* ===================================================================== *)
(** ** ADX (indicators/adx.ts) *)
(* ===================================================================== *)

Module ADX.

Import JS.
Local Open Scope float_scope.

Record t := mk {
  length : Z;
  trValues : list number;
  plusDMValues : list number;
  minusDMValues : list number;
  dxValues : list number;
  prevHigh : option number;
  prevLow : option number;
  prevClose : option number;
  prevATR : option number;
  prevPlusDI : option number;
  prevMinusDI : option number;
  adxValue : option number;
  updateCount : Z
}.

(** [new ADX(length)]: throws when [length < 2]. *)
Definition create (len : Z) : string + t :=
  if (len <? 2)%Z then inl "ADX length must be at least 2"%string
  else inr (mk len [] [] [] [] None None None None None None None 0%Z).

(** The directional movements of [update], lines 39-45. *)
Definition plusDM (prevHigh prevLow high low : number) : number :=
  if gt high prevHigh && gt low prevLow then Math_max (high - prevHigh) 0 else 0.

Definition minusDM (prevHigh prevLow high low : number) : number :=
  if gt prevHigh high && gt prevLow low then Math_max (prevLow - low) 0 else 0.

Definition trueRange (prevClose high low : number) : number :=
  Math_max3 (high - low) (Math_abs (high - prevClose)) (Math_abs (low - prevClose)).

(** The three assignments [prevHigh = high; prevLow = low; prevClose = close]
    on an object whose windows and counter are already updated. *)
Definition remember (a : t) (trs pdms mdms : list number) (uc : Z)
    (h l c : number) : t :=
  mk (length a) trs pdms mdms (dxValues a) (Some h) (Some l) (Some c)
     (prevATR a) (prevPlusDI a) (prevMinusDI a) (adxValue a) uc.

(** [atr], [plusDI], [minusDI] of lines 64-83. *)
Definition directional (a : t) (trs pdms mdms : list number) (uc : Z)
    (tr pdm mdm : number) : number * number * number :=
  let len := of_Z (length a) in
  if (uc =? length a + 1)%Z then
    let atr := sum trs / len in
    let avgPlusDM := sum pdms / len in
    let avgMinusDM := sum mdms / len in
    (atr, avgPlusDM / atr * 100, avgMinusDM / atr * 100)
  else
    let alpha := 1 / len in
    let atr := of_null (prevATR a) * (1 - alpha) + tr * alpha in
    let plusDM_smooth :=
      of_null (prevPlusDI a) / 100 * of_null (prevATR a) * (1 - alpha) + pdm * alpha in
    let minusDM_smooth :=
      of_null (prevMinusDI a) / 100 * of_null (prevATR a) * (1 - alpha) + mdm * alpha in
    (atr, plusDM_smooth / atr * 100, minusDM_smooth / atr * 100).

(** Lines 94-106: what happens to [dxValues] and [adxValue] once [dx] is known. *)
Definition absorb_dx (a : t) (uc : Z) (dx : number) : list number * option number :=
  if (uc =? length a + 1)%Z then (dxValues a ++ [dx], adxValue a)
  else if (length a + 1 <? uc)%Z then
    match adxValue a with
    | None =>
        let dxs := dxValues a ++ [dx] in
        if (length a <=? Z.of_nat (List.length dxs))%Z
        then (dxs, Some (sum dxs / of_Z (Z.of_nat (List.length dxs))))
        else (dxs, None)
    | Some v =>
        let alpha := 1 / of_Z (length a) in
        (dxValues a, Some (v * (1 - alpha) + dx * alpha))
    end
  else (dxValues a, adxValue a).

(** [update(high, low, close)]: the new object and the returned value. *)
Definition update (a : t) (high low close : number) : t * option number :=
  match prevHigh a, prevLow a, prevClose a with
  | Some pH, Some pL, Some pC =>
      let uc := (updateCount a + 1)%Z in
      let tr := trueRange pC high low in
      let pdm := plusDM pH pL high low in
      let mdm := minusDM pH pL high low in
      let trs := push_capped (length a) (trValues a) tr in
      let pdms :=
        if (length a <? Z.of_nat (List.length (trValues a ++ [tr])))%Z
        then tl (plusDMValues a ++ [pdm]) else plusDMValues a ++ [pdm] in
      let mdms :=
        if (length a <? Z.of_nat (List.length (trValues a ++ [tr])))%Z
        then tl (minusDMValues a ++ [mdm]) else minusDMValues a ++ [mdm] in
      if (uc <? length a + 1)%Z then
        (remember a trs pdms mdms uc high low close, None)
      else
        let '(atr, plusDI, minusDI) := directional a trs pdms mdms uc tr pdm mdm in
        let diSum := plusDI + minusDI in
        if seq diSum 0 then
          (remember a trs pdms mdms uc high low close, adxValue a)
        else
          let dx := Math_abs (plusDI - minusDI) / diSum * 100 in
          let '(dxs, adx) := absorb_dx a uc dx in
          (mk (length a) trs pdms mdms dxs (Some high) (Some low) (Some close)
              (Some atr) (Some plusDI) (Some minusDI) adx uc,
           adx)
  | _, _, _ =>
      (mk (length a) (trValues a) (plusDMValues a) (minusDMValues a) (dxValues a)
          (Some high) (Some low) (Some close)
          (prevATR a) (prevPlusDI a) (prevMinusDI a) (adxValue a) (updateCount a),
       None)
  end.

(** [get value], [get isReady], [isTrending(threshold = 25)] *)
Definition value (a : t) : option number := adxValue a.

Definition isReady (a : t) : bool :=
  match adxValue a with Some _ => true | None => false end.

Definition isTrending (a : t) (threshold : option number) : bool :=
  match adxValue a with
  | Some v => gt v (match threshold with Some th => th | None => 25 end)
  | None => false
  end.

(** [get warmupProgress] *)
Definition warmupProgress (a : t) : number :=
  match adxValue a with
  | Some _ => 1
  | None =>
      let totalNeeded := of_Z (2 * length a + 2) in
      Math_min (of_Z (updateCount a) / totalNeeded) 0.99
  end.

(** Feeding a sequence of bars, one [update] call per bar. *)
Definition feed (a : t) (bars : list (number * number * number)) : t :=
  fold_left (fun acc b => let '(h, l, c) := b in fst (update acc h l c)) bars a.

(** Whether the call [update(high, low, close)] on [a] leaves through the
    [diSum === 0] return of line 86. *)
Definition zero_di_exit (a : t) (high low close : number) : bool :=
  match prevHigh a, prevLow a, prevClose a with
  | Some pH, Some pL, Some pC =>
      let uc := (updateCount a + 1)%Z in
      let tr := trueRange pC high low in
      let pdm := plusDM pH pL high low in
      let mdm := minusDM pH pL high low in
      let trs := push_capped (length a) (trValues a) tr in
      let pdms :=
        if (length a <? Z.of_nat (List.length (trValues a ++ [tr])))%Z
        then tl (plusDMValues a ++ [pdm]) else plusDMValues a ++ [pdm] in
      let mdms :=
        if (length a <? Z.of_nat (List.length (trValues a ++ [tr])))%Z
        then tl (minusDMValues a ++ [mdm]) else minusDMValues a ++ [mdm] in
      if (uc <? length a + 1)%Z then false
      else
        let '(atr, plusDI, minusDI) := directional a trs pdms mdms uc tr pdm mdm in
        seq (plusDI + minusDI) 0
  | _, _, _ => false
  end.

(** No call of the run leaves through the [diSum === 0] return. *)
Fixpoint zero_di_free (a : t) (bars : list (number * number * number)) : bool :=
  match bars with
  | [] => true
  | (h, l, c) :: rest =>
      negb (zero_di_exit a h l c) && zero_di_free (fst (update a h l c)) rest
  end.

(** Whether the next call of [update] on [a] gets as far as the DI sum of
    line 85: it is not the first call, and the warm-up return of lines
    57-62 does not take it. *)
Definition reaches_di_sum (a : t) : bool :=
  match prevHigh a, prevLow a, prevClose a with
  | Some _, Some _, Some _ => negb (updateCount a + 1 <? length a + 1)%Z
  | _, _, _ => false
  end.

(** Every call of the run that gets as far as the DI sum leaves through
    the [diSum === 0] return. *)
Fixpoint zero_di_only (a : t) (bars : list (number * number * number)) : bool :=
  match bars with
  | [] => true
  | (h, l, c) :: rest =>
      (negb (reaches_di_sum a) || zero_di_exit a h l c)
      && zero_di_only (fst (update a h l c)) rest
  end.

(** What holds of an [ADX] object after [n] calls of [update]. *)
Record inv (L : Z) (n : Z) (a : t) : Prop := {
  inv_len : length a = L;
  inv_fresh : n = 0%Z -> prevHigh a = None /\ updateCount a = 0%Z;
  inv_prev : (0 < n)%Z ->
    prevHigh a <> None /\ prevLow a <> None /\ prevClose a <> None /\
    updateCount a = (n - 1)%Z;
  inv_dx : (Z.of_nat (List.length (dxValues a)) <= Z.max 0 (updateCount a - L))%Z;
  inv_null : adxValue a = None -> (Z.of_nat (List.length (dxValues a)) < L)%Z;
  inv_ready : adxValue a <> None -> (2 * L <= updateCount a)%Z
}.

(** While no call has left through the zero-DI return, every call past
    the warm-up has contributed one DX value. *)
Definition counted (L : Z) (a : t) : Prop :=
  adxValue a = None ->
  Z.of_nat (List.length (dxValues a)) = Z.max 0 (updateCount a - L)%Z.

(** The three windows move together. *)
Definition aligned (a : t) : Prop :=
  Z.of_nat (List.length (trValues a)) = Z.min (updateCount a) (length a)
  /\ List.length (plusDMValues a) = List.length (trValues a)
  /\ List.length (minusDMValues a) = List.length (trValues a).

End ADX.


(* ===================================================================== *)
(** ** ATR (indicators/atr.ts) *)
(* ===================================================================== *)

Module ATR.

Import JS.
Local Open Scope float_scope.

Record t := mk {
  length : Z;
  trValues : list number;
  prevHigh : option number;
  prevLow : option number;
  prevClose : option number;
  atrValue : option number;
  updateCount : Z
}.

Definition create (len : Z) : string + t :=
  if (len <? 2)%Z then inl "ATR length must be at least 2"%string
  else inr (mk len [] None None None None 0%Z).

Definition update (a : t) (high low close : number) : t * option number :=
  match prevHigh a, prevLow a, prevClose a with
  | Some pH, Some pL, Some pC =>
      let uc := (updateCount a + 1)%Z in
      let tr := Math_max3 (high - low) (Math_abs (high - pC)) (Math_abs (low - pC)) in
      let trs := push_capped (length a) (trValues a) tr in
      if (uc <? length a)%Z then
        (mk (length a) trs (Some high) (Some low) (Some close) (atrValue a) uc, None)
      else
        let v :=
          if (uc =? length a)%Z
          then sum trs / of_Z (Z.of_nat (List.length trs))
          else
            let alpha := 1 / of_Z (length a) in
            of_null (atrValue a) * (1 - alpha) + tr * alpha in
        (mk (length a) trs (Some high) (Some low) (Some close) (Some v) uc, Some v)
  | _, _, _ =>
      (mk (length a) (trValues a) (Some high) (Some low) (Some close)
          (atrValue a) (updateCount a),
       None)
  end.

Definition value (a : t) : option number := atrValue a.

Definition isReady (a : t) : bool :=
  match atrValue a with Some _ => true | None => false end.

(** Feeding a sequence of bars, one [update] call per bar. *)
Definition feed (a : t) (bars : list (number * number * number)) : t :=
  fold_left (fun acc b => let '(h, l, c) := b in fst (update acc h l c)) bars a.

(** What holds of an [ATR] object after [n] calls of [update]. *)
Record warm (L n : Z) (a : t) : Prop := {
  w_len : length a = L;
  w_fresh : n = 0%Z -> prevHigh a = None /\ updateCount a = 0%Z;
  w_prev : (0 < n)%Z ->
    prevHigh a <> None /\ prevLow a <> None /\ prevClose a <> None /\
    updateCount a = (n - 1)%Z;
  w_null : (updateCount a < L)%Z -> atrValue a = None;
  w_ready : (L <= updateCount a)%Z -> atrValue a <> None;
  w_window : Z.of_nat (List.length (trValues a)) = Z.min (updateCount a) L
}.

End ATR.

(* ===================================================================== *)
(** ** Strategy engines *)
(* ===================================================================== *)

(** The classes [EMA] and [RSI] (indicators/ema.ts, indicators/rsi.ts) are
    not among the sources.  The engines below therefore take, next to the
    bar, the values that the [update] calls of their [EMA] and [RSI]
    objects return for that bar: a number for an EMA, a number or [null]
    for an RSI.  [ADX] and [ATR] objects are part of the engine state. *)

Module WatermellonEngine.

Import JS.
Local Open Scope float_scope.
Local Open Scope string_scope.

Record WatermellonConfig := mkConfig {
  timeframeMs : Z;
  emaFastLen : Z;
  emaMidLen : Z;
  emaSlowLen : Z;
  rsiLength : Z;
  rsiMinLong : number;
  rsiMaxShort : number;
  adxLength : Z;
  adxThreshold : number
}.

Definition DEFAULT_CONFIG : WatermellonConfig :=
  mkConfig 30000 8 21 48 14 42 58 14 25.

(** What [emaFast.update], [emaMid.update], [emaSlow.update] and
    [rsi.update] return on [bar.close]. *)
Record Readings := mkReadings {
  emaFastValue : number;
  emaMidValue : number;
  emaSlowValue : number;
  rsiValue : option number
}.

Record t := mk {
  config : WatermellonConfig;
  adx : ADX.t;
  lastLongLook : bool;
  lastShortLook : bool
}.

Definition create (cfg : WatermellonConfig) : string + t :=
  match ADX.create (adxLength cfg) with
  | inl e => inl e
  | inr a => inr (mk cfg a false false)
  end.

(** Lines 64-68; a [null] RSI compares as [+0]. *)
Definition bullStackOf (r : Readings) : bool :=
  gt (emaFastValue r) (emaMidValue r) && gt (emaMidValue r) (emaSlowValue r).

Definition bearStackOf (r : Readings) : bool :=
  lt (emaFastValue r) (emaMidValue r) && lt (emaMidValue r) (emaSlowValue r).

Definition longLookOf (cfg : WatermellonConfig) (r : Readings) : bool :=
  bullStackOf r && gt (of_null (rsiValue r)) (rsiMinLong cfg)
    && gt (of_null (rsiValue r)) 55.

Definition shortLookOf (cfg : WatermellonConfig) (r : Readings) : bool :=
  bearStackOf r && lt (of_null (rsiValue r)) (rsiMaxShort cfg)
    && lt (of_null (rsiValue r)) 45.

(** The test of line 58 on the value returned by [adx.update]. *)
Definition adxBlocks (cfg : WatermellonConfig) (adxValue : option number) : bool :=
  match adxValue with
  | None => true
  | Some v => lt v (adxThreshold cfg)
  end.

Definition update (e : t) (bar : SyntheticBar) (r : Readings)
    : t * option StrategySignal :=
  let '(adx', adxValue) := ADX.update (adx e) (high bar) (low bar) (close bar) in
  let indicators :=
    mkIndicators (emaFastValue r) (emaMidValue r) (emaSlowValue r) (rsiValue r) adxValue in
  if adxBlocks (config e) adxValue then
    (mk (config e) adx' false false, None)
  else
    let bullStack := bullStackOf r in
    let bearStack := bearStackOf r in
    let longLook := longLookOf (config e) r in
    let shortLook := shortLookOf (config e) r in
    let longTrig := longLook && negb (lastLongLook e) in
    let shortTrig := shortLook && negb (lastShortLook e) in
    let e' := mk (config e) adx' longLook shortLook in
    let trend := mkTrend bullStack bearStack longLook shortLook longTrig shortTrig in
    if longTrig then
      (e', Some (mkSignal Long "long-trigger" indicators trend None))
    else if shortTrig then
      (e', Some (mkSignal Short "short-trigger" indicators trend None))
    else (e', None).

(** One [update] per bar; the signals returned, in order. *)
Fixpoint run (e : t) (input : list (SyntheticBar * Readings))
    : list (option StrategySignal) :=
  match input with
  | [] => []
  | (bar, r) :: rest =>
      let '(e', s) := update e bar r in s :: run e' rest
  end.

(** The looks as [update] computes them for a bar: the ADX gate of line 58
    is open and [longLook] (resp. [shortLook]) of lines 67-68 holds. *)
Definition looksLong (e : t) (bar : SyntheticBar) (r : Readings) : bool :=
  negb (adxBlocks (config e)
          (snd (ADX.update (adx e) (high bar) (low bar) (close bar))))
  && longLookOf (config e) r.

Definition looksShort (e : t) (bar : SyntheticBar) (r : Readings) : bool :=
  negb (adxBlocks (config e)
          (snd (ADX.update (adx e) (high bar) (low bar) (close bar))))
  && shortLookOf (config e) r.

(** The look holds on every bar of the run. *)
Fixpoint holdsThroughout (look : t -> SyntheticBar -> Readings -> bool)
    (e : t) (input : list (SyntheticBar * Readings)) : bool :=
  match input with
  | [] => true
  | (bar, r) :: rest =>
      look e bar r && holdsThroughout look (fst (update e bar r)) rest
  end.

(** The engine after a run of bars. *)
Definition feed (e : t) (input : list (SyntheticBar * Readings)) : t :=
  fold_left (fun acc br => fst (update acc (fst br) (snd br))) input e.

(** The (high, low, close) triples that [update] hands to its ADX. *)
Definition fedToAdx (input : list (SyntheticBar * Readings))
    : list (number * number * number) :=
  map (fun br => (high (fst br), low (fst br), close (fst br))) input.

End WatermellonEngine.

Module PeachHybridEngine.

Import JS.
Local Open Scope float_scope.

Record PeachV1Config := mkV1 {
  v1_emaFastLen : Z;
  v1_emaMidLen : Z;
  v1_emaSlowLen : Z;
  v1_emaMicroFastLen : Z;
  v1_emaMicroSlowLen : Z;
  v1_rsiLength : Z;
  rsiMinLong : number;
  rsiMaxShort : number;
  minBarsBetween : Z;
  minMovePercent : number
}.

Record PeachV2Config := mkV2 {
  v2_emaFastLen : Z;
  v2_emaMidLen : Z;
  v2_emaSlowLen : Z;
  rsiMomentumThreshold : number;
  volumeLookback : Z;
  volumeMultiplier : number;
  exitVolumeMultiplier : number
}.

Record PeachConfig := mkConfig {
  timeframeMs : Z;
  v1 : PeachV1Config;
  v2 : PeachV2Config
}.

(** What the ten [EMA]/[RSI] [update] calls of lines 59-69 return on
    [bar.close]. *)
Record Readings := mkReadings {
  v1EmaFast : number;
  v1EmaMid : number;
  v1EmaSlow : number;
  v1EmaMicroFast : number;
  v1EmaMicroSlow : number;
  v1Rsi : option number;
  v2EmaFast : number;
  v2EmaMid : number;
  v2EmaSlow : number;
  v2Rsi : option number
}.

Record t := mk {
  config : PeachConfig;
  v1LastLongLook : bool;
  v1LastShortLook : bool;
  v1LastLongPrice : number;
  v1LastShortPrice : number;
  v1BarsSinceLastSignal : Z;
  v2RsiHistory : list number;
  volumeHistory : list number;
  adx : ADX.t;
  atr : ATR.t;
  recentHighs : list number;
  recentLows : list number;
  position : option PositionSide
}.

Definition lookbackPeriod : Z := 20.

Definition create (cfg : PeachConfig) : string + t :=
  match ADX.create 14, ATR.create 14 with
  | inr a, inr b => inr (mk cfg false false 0 0 0%Z [] [] a b [] [] None)
  | inl e, _ => inl e
  | _, inl e => inl e
  end.

(** [xs[i]] in an arithmetic position: [undefined] becomes [NaN]. *)
Definition at_index (xs : list number) (i : Z) : number :=
  if (i <? 0)%Z then nan
  else match nth_error xs (Z.to_nat i) with Some x => x | None => nan end.

(** The look conditions of [checkV1System], lines 122-128. *)
Definition v1LongLookOf (cfg : PeachConfig) (r : Readings) (rsi : number) : bool :=
  let bullStack := gt (v1EmaFast r) (v1EmaMid r) && gt (v1EmaMid r) (v1EmaSlow r) in
  let microBullStack := gt (v1EmaMicroFast r) (v1EmaMicroSlow r) in
  bullStack && microBullStack && gt rsi (rsiMinLong (v1 cfg)).

Definition v1ShortLookOf (cfg : PeachConfig) (r : Readings) (rsi : number) : bool :=
  let bearStack := lt (v1EmaFast r) (v1EmaMid r) && lt (v1EmaMid r) (v1EmaSlow r) in
  let microBearStack := lt (v1EmaMicroFast r) (v1EmaMicroSlow r) in
  bearStack && microBearStack && lt rsi (rsiMaxShort (v1 cfg)).

(** Lines 134-142. *)
Definition priceMoveMet (e : t) (price : number) : bool :=
  let m1 :=
    if gt (v1LastLongPrice e) 0
    then ge (Math_abs ((price - v1LastLongPrice e) / v1LastLongPrice e) * 100)
            (minMovePercent (v1 (config e)))
    else true in
  if gt (v1LastShortPrice e) 0
  then m1 && ge (Math_abs ((price - v1LastShortPrice e) / v1LastShortPrice e) * 100)
                (minMovePercent (v1 (config e)))
  else m1.

Definition with_v1 (e : t) (ll sl : bool) (lp sp : number) (bars : Z) : t :=
  mk (config e) ll sl lp sp bars (v2RsiHistory e) (volumeHistory e)
     (adx e) (atr e) (recentHighs e) (recentLows e) (position e).

Definition checkV1System (e : t) (price : number) (r : Readings)
    : t * option StrategySignal :=
  match v1Rsi r with
  | None => (e, None)
  | Some rsi =>
      let bullStack := gt (v1EmaFast r) (v1EmaMid r) && gt (v1EmaMid r) (v1EmaSlow r) in
      let bearStack := lt (v1EmaFast r) (v1EmaMid r) && lt (v1EmaMid r) (v1EmaSlow r) in
      let longLook := v1LongLookOf (config e) r rsi in
      let shortLook := v1ShortLookOf (config e) r rsi in
      if (v1BarsSinceLastSignal e <? minBarsBetween (v1 (config e)))%Z then (e, None)
      else if negb (priceMoveMet e price) then (e, None)
      else
        let longTrig := longLook && negb (v1LastLongLook e) in
        let shortTrig := shortLook && negb (v1LastShortLook e) in
        let indicators :=
          mkIndicators (v1EmaFast r) (v1EmaMid r) (v1EmaSlow r) (Some rsi) None in
        let trend := mkTrend bullStack bearStack longLook shortLook longTrig shortTrig in
        if longTrig then
          (with_v1 e longLook shortLook price (v1LastShortPrice e) 0%Z,
           Some (mkSignal Long "v1-long"%string indicators trend (Some "v1"%string)))
        else if shortTrig then
          (with_v1 e longLook shortLook (v1LastLongPrice e) price 0%Z,
           Some (mkSignal Short "v1-short"%string indicators trend (Some "v1"%string)))
        else
          (with_v1 e longLook shortLook (v1LastLongPrice e) (v1LastShortPrice e)
                   (v1BarsSinceLastSignal e),
           None)
  end.

Definition checkV2System (e : t) (r : Readings) (volume barOpen barClose : number)
    : option StrategySignal :=
  match v2Rsi r with
  | None => None
  | Some rsi =>
      let n := Z.of_nat (List.length (v2RsiHistory e)) in
      if (n <? 3)%Z then None
      else
        let rsiMomentum :=
          at_index (v2RsiHistory e) (n - 1) - at_index (v2RsiHistory e) (n - 3) in
        let rsiSurge := ge (Math_abs rsiMomentum) (rsiMomentumThreshold (v2 (config e))) in
        if (Z.of_nat (List.length (volumeHistory e)) =? 0)%Z then None
        else
          let avgVolume :=
            sum (volumeHistory e) / of_Z (Z.of_nat (List.length (volumeHistory e))) in
          let volumeSpike := ge volume (avgVolume * volumeMultiplier (v2 (config e))) in
          let volumeColor := gt barClose barOpen in
          let emaBullish := gt (v2EmaFast r) (v2EmaMid r) && gt (v2EmaMid r) (v2EmaSlow r) in
          let emaBearish := lt (v2EmaFast r) (v2EmaMid r) && lt (v2EmaMid r) (v2EmaSlow r) in
          let indicators :=
            mkIndicators (v2EmaFast r) (v2EmaMid r) (v2EmaSlow r) (Some rsi) None in
          if rsiSurge && gt rsiMomentum 0 && volumeSpike && volumeColor && emaBullish then
            Some (mkSignal Long "v2-long"%string indicators
                    (mkTrend emaBullish emaBearish true false true false) (Some "v2"%string))
          else if rsiSurge && lt rsiMomentum 0 && volumeSpike && negb volumeColor
                  && emaBearish then
            Some (mkSignal Short "v2-short"%string indicators
                    (mkTrend emaBullish emaBearish false true false true) (Some "v2"%string))
          else None
  end.

(** Lines 71-96 of [update]: the bookkeeping done before the two systems
    are consulted. *)
Definition absorb_bar (e : t) (bar : SyntheticBar) (r : Readings) : t :=
  let adx' := fst (ADX.update (adx e) (high bar) (low bar) (close bar)) in
  let atr' := fst (ATR.update (atr e) (high bar) (low bar) (close bar)) in
  let highs := recentHighs e ++ [high bar] in
  let lows := recentLows e ++ [low bar] in
  let shift := (lookbackPeriod <? Z.of_nat (List.length highs))%Z in
  let rsis :=
    match v2Rsi r with
    | Some x =>
        let h := v2RsiHistory e ++ [x] in
        if (3 <? Z.of_nat (List.length h))%Z then tl h else h
    | None => v2RsiHistory e
    end in
  let maxVolumeHistory := Z.max (volumeLookback (v2 (config e))) 10 in
  let vols := push_capped maxVolumeHistory (volumeHistory e) (volume bar) in
  mk (config e) (v1LastLongLook e) (v1LastShortLook e)
     (v1LastLongPrice e) (v1LastShortPrice e) (v1BarsSinceLastSignal e + 1)%Z
     rsis vols adx' atr'
     (if shift then tl highs else highs) (if shift then tl lows else lows)
     (position e).

Definition update (e : t) (bar : SyntheticBar) (r : Readings)
    : t * option StrategySignal :=
  let e1 := absorb_bar e bar r in
  let '(e2, v1Signal) := checkV1System e1 (close bar) r in
  match v1Signal with
  | Some s => (e2, Some s)
  | None =>
      match checkV2System e2 r (volume bar) (open bar) (close bar) with
      | Some s => (e2, Some s)
      | None => (e2, None)
      end
  end.

Definition setPosition (e : t) (side : PositionSide) : t :=
  mk (config e) (v1LastLongLook e) (v1LastShortLook e)
     (v1LastLongPrice e) (v1LastShortPrice e) (v1BarsSinceLastSignal e)
     (v2RsiHistory e) (volumeHistory e) (adx e) (atr e)
     (recentHighs e) (recentLows e) (Some side).

(** [shouldAllowTrading(adxThreshold = 25)] *)
Definition shouldAllowTrading (e : t) (adxThreshold : option number) : bool :=
  negb (ADX.isReady (adx e)) || ADX.isTrending (adx e) adxThreshold.

Fixpoint run (e : t) (input : list (SyntheticBar * Readings))
    : list (option StrategySignal) :=
  match input with
  | [] => []
  | (bar, r) :: rest =>
      let '(e', s) := update e bar r in s :: run e' rest
  end.

(** The trend-bias sub-system alone, bar after bar, as [update] drives it. *)
Fixpoint runV1 (e : t) (input : list (SyntheticBar * Readings))
    : list (option StrategySignal) :=
  match input with
  | [] => []
  | (bar, r) :: rest =>
      let '(e', s) := checkV1System (absorb_bar e bar r) (close bar) r in
      s :: runV1 e' rest
  end.

(** The looks of the trend-bias sub-system on the readings of a bar
    ([checkV1System] computes none while the RSI is [null]). *)
Definition v1LooksLong (cfg : PeachConfig) (r : Readings) : bool :=
  match v1Rsi r with Some rsi => v1LongLookOf cfg r rsi | None => false end.

Definition v1LooksShort (cfg : PeachConfig) (r : Readings) : bool :=
  match v1Rsi r with Some rsi => v1ShortLookOf cfg r rsi | None => false end.

(** One bar through the trend-bias sub-system, as [update] drives it. *)
Definition v1Step (e : t) (bar : SyntheticBar) (r : Readings) : t * option StrategySignal :=
  checkV1System (absorb_bar e bar r) (close bar) r.

(** A look holds on the readings of every bar of the run. *)
Definition throughout (look : PeachConfig -> Readings -> bool) (cfg : PeachConfig)
    (input : list (SyntheticBar * Readings)) : bool :=
  forallb (fun br => look cfg (snd br)) input.

(** Whether one of the two guards of [checkV1System] (lines 130-146)
    withholds the call that [update] makes for this bar: fewer than
    [minBarsBetween] bars counted since the last signal, or the price has
    not moved by [minMovePercent]. *)
Definition v1Withheld (e : t) (bar : SyntheticBar) (r : Readings) : bool :=
  let e1 := absorb_bar e bar r in
  (v1BarsSinceLastSignal e1 <? minBarsBetween (v1 (config e1)))%Z
  || negb (priceMoveMet e1 (close bar)).

(** The engine after a run of bars through the trend-bias sub-system. *)
Definition feedV1 (e : t) (input : list (SyntheticBar * Readings)) : t :=
  fold_left (fun acc br => fst (v1Step acc (fst br) (snd br))) input e.

(** A guard withholds the call of every bar of the run. *)
Fixpoint withheldThroughout (e : t) (input : list (SyntheticBar * Readings)) : bool :=
  match input with
  | [] => true
  | (bar, r) :: rest =>
      v1Withheld e bar r && withheldThroughout (fst (v1Step e bar r)) rest
  end.

(** What [checkExitConditions] returns, without the [details] object. *)
Record ExitDecision := mkDecision {
  shouldExit : bool;
  exitReason : string
}.

(** [checkExitConditions(bar)], lines 283-328. *)
Definition checkExitConditions (e : t) (bar : SyntheticBar) : ExitDecision :=
  match position e with
  | None | Some flat => mkDecision false ""
  | Some held =>
      let volume := volume bar in
      let volumes := Z.of_nat (List.length (volumeHistory e)) in
      let avgVolume :=
        if (0 <? volumes)%Z then sum (volumeHistory e) / of_Z volumes else volume in
      if (3 <=? Z.of_nat (List.length (v2RsiHistory e)))%Z then
        let recentRSI := slice (-3) (v2RsiHistory e) in
        let newest := at_index recentRSI (Z.of_nat (List.length recentRSI) - 1) in
        let oldest := at_index recentRSI 0 in
        let rsiMomentum := Math_abs (newest - oldest) in
        let volumeMultiplier := if gt avgVolume 0 then volume / avgVolume else 1 in
        let rsiFlattening := lt rsiMomentum 2 in
        let volumeDrop := lt volumeMultiplier (exitVolumeMultiplier (v2 (config e))) in
        let adverseRSI :=
          (PositionSide_eqb held long && lt newest oldest)
          || (PositionSide_eqb held short && gt newest oldest) in
        if (rsiFlattening && volumeDrop) || adverseRSI then
          mkDecision true
            (if adverseRSI then "rsi-reversal" else "rsi-flattening-volume-drop")
        else mkDecision false ""
      else mkDecision false ""
  end.


(** The bounds that [update] keeps on the four histories. *)
Record bounded (e : t) : Prop := {
  b_rsi : (Z.of_nat (List.length (v2RsiHistory e)) <= 3)%Z;
  b_volume : (Z.of_nat (List.length (volumeHistory e))
              <= Z.max (volumeLookback (v2 (config e))) 10)%Z;
  b_highs : (Z.of_nat (List.length (recentHighs e)) <= lookbackPeriod)%Z;
  b_lows : List.length (recentLows e) = List.length (recentHighs e)
}.

(** The engine after a run of bars. *)
Definition feed (e : t) (input : list (SyntheticBar * Readings)) : t :=
  fold_left (fun acc br => fst (update acc (fst br) (snd br))) input e.

End PeachHybridEngine.

(* ===================================================================== *)
(** ** PositionStateManager (state/positionState.ts) *)
(* ===================================================================== *)

Module PositionStateManager.

Import JS.
Local Open Scope float_scope.

Record PendingOrder := mkPending {
  po_side : TradeSide;
  po_size : number;
  po_timestamp : Z
}.

Record LocalPositionState := mkState {
  size : number;
  side : PositionSide;
  avgEntry : number;
  unrealizedPnl : number;
  lastUpdate : Z;
  orderId : option string;
  pendingOrder : option PendingOrder
}.

Record t := mk {
  state : LocalPositionState;
  reconciliationFailures : Z
}.

Definition maxReconciliationFailures : Z := 2.

(** The field initialisers; [now] is the [Date.now()] read at construction. *)
Definition create (now : Z) : t :=
  mk (mkState 0 flat 0 0 now None None) 0%Z.

(** [Partial<LocalPositionState>] *)
Record Partial := mkPartial {
  p_size : option number;
  p_side : option PositionSide;
  p_avgEntry : option number;
  p_unrealizedPnl : option number
}.

Definition pick {A} (o : option A) (d : A) : A :=
  match o with Some x => x | None => d end.

Definition updateLocalState (m : t) (update : Partial) (now : Z) : t :=
  mk (mkState (pick (p_size update) (size (state m)))
              (pick (p_side update) (side (state m)))
              (pick (p_avgEntry update) (avgEntry (state m)))
              (pick (p_unrealizedPnl update) (unrealizedPnl (state m)))
              now (orderId (state m)) (pendingOrder (state m)))
     (reconciliationFailures m).

(** The argument of [updateFromRest].  Each field holds what [parseFloat]
    makes of the string of that name ([NaN] for a string that does not
    start with a number). *)
Record RestState := mkRest {
  positionAmt : number;
  entryPrice : number;
  unrealizedProfit : number
}.

Record Normalized := mkNorm {
  n_size : number;
  n_side : PositionSide;
  n_avgEntry : number;
  n_unrealizedPnl : number
}.

Definition reconcile (rest local : Normalized) : bool :=
  let sizeMatch := lt (Math_abs (n_size rest - n_size local)) 0.0001 in
  let sideMatch := PositionSide_eqb (n_side rest) (n_side local) in
  if PositionSide_eqb (n_side rest) flat && PositionSide_eqb (n_side local) flat
  then sizeMatch && sideMatch
  else
    let entryMatch :=
      seq (n_avgEntry rest) 0
      || lt (Math_abs (n_avgEntry rest - n_avgEntry local) / n_avgEntry rest) 0.01 in
    sizeMatch && sideMatch && entryMatch.

Definition normalize (restState : RestState) : Normalized :=
  let size := positionAmt restState in
  let side := if gt size 0 then long else if lt size 0 then short else flat in
  let avgEntry := or_default (Some (entryPrice restState)) 0 in
  let unrealizedPnl := or_default (Some (unrealizedProfit restState)) 0 in
  mkNorm (Math_abs size) side avgEntry unrealizedPnl.

(** [{ ...this.state, ...restStateNormalized, lastUpdate: Date.now() }]
    with the failure counter reset. *)
Definition adopt (m : t) (rest : Normalized) (now : Z) : t :=
  mk (mkState (n_size rest) (n_side rest) (n_avgEntry rest) (n_unrealizedPnl rest)
              now (orderId (state m)) (pendingOrder (state m)))
     0%Z.

Definition updateFromRest (m : t) (restState : RestState) (now : Z) : t * bool :=
  let restStateNormalized := normalize restState in
  let localStateNormalized :=
    mkNorm (size (state m)) (side (state m)) (avgEntry (state m))
           (unrealizedPnl (state m)) in
  let reconciled := reconcile restStateNormalized localStateNormalized in
  if reconciled then (adopt m restStateNormalized now, true)
  else if PositionSide_eqb (n_side restStateNormalized) flat
          && negb (PositionSide_eqb (n_side localStateNormalized) flat)
  then (adopt m restStateNormalized now, true)
  else if negb (PositionSide_eqb (n_side restStateNormalized) flat)
          && PositionSide_eqb (n_side localStateNormalized) flat
  then (adopt m restStateNormalized now, true)
  else (mk (state m) (reconciliationFailures m + 1)%Z, false).

Definition shouldFreezeTrading (m : t) : bool :=
  (maxReconciliationFailures <=? reconciliationFailures m)%Z.

Definition resetReconciliationFailures (m : t) : t := mk (state m) 0%Z.

Definition getState (m : t) : LocalPositionState := state m.

Definition with_pending (m : t) (o : option PendingOrder) : t :=
  mk (mkState (size (state m)) (side (state m)) (avgEntry (state m))
              (unrealizedPnl (state m)) (lastUpdate (state m))
              (orderId (state m)) o)
     (reconciliationFailures m).

Definition clearPendingOrder (m : t) : t := with_pending m None.

Definition setPendingOrder (m : t) (order : PendingOrder) : t :=
  with_pending m (Some order).

Definition local_view (m : t) : Normalized :=
  mkNorm (size (state m)) (side (state m)) (avgEntry (state m))
         (unrealizedPnl (state m)).

(** Authoritative and local view both hold a position, on different sides. *)
Definition genuine_mismatch (m : t) (rest : RestState) : Prop :=
  n_side (normalize rest) <> flat /\ side (state m) <> flat
  /\ n_side (normalize rest) <> side (state m).

(** Authoritative and local view both hold a position and [reconcile]
    finds a difference: the sides differ, or the sizes are not within
    0.0001, or the reported entry price is not zero and not within 1% of
    the local one. *)
Definition position_mismatch (m : t) (rest : RestState) : Prop :=
  n_side (normalize rest) <> flat /\ side (state m) <> flat
  /\ (n_side (normalize rest) <> side (state m)
      \/ lt (Math_abs (n_size (normalize rest) - size (state m))) 0.0001 = false
      \/ (seq (n_avgEntry (normalize rest)) 0 = false
          /\ lt (Math_abs (n_avgEntry (normalize rest) - avgEntry (state m))
                 / n_avgEntry (normalize rest)) 0.01 = false)).

(** A sequence of authoritative reports, each applied at its own time. *)
Definition refresh (m : t) (reports : list (RestState * Z)) : t :=
  fold_left (fun acc rn => fst (updateFromRest acc (fst rn) (snd rn))) reports m.

End PositionStateManager.

(* ===================================================================== *)
(** ** BotRunner (bot/botRunner.ts) *)
(* ===================================================================== *)

Record PositionState := mkPosition {
  side : PositionSide;
  size : JS.number;
  entryPrice : option JS.number;
  openedAt : option Z
}.

Record RiskConfig := mkRisk {
  maxPositionSize : JS.number;
  maxLeverage : JS.number;
  maxFlipsPerHour : Z;
  stopLossPct : option JS.number;
  takeProfitPct : option JS.number;
  useStopLoss : option bool;
  emergencyStopLoss : option JS.number;
  maxPositions : option Z;
  requireTrendingMarket : option bool;
  adxThreshold : option JS.number
}.

Record TradeInstruction := mkOrder {
  order_side : TradeSide;
  order_size : JS.number;
  leverage : JS.number;
  price : JS.number;
  signalReason : string;
  timestamp : Z
}.

Inductive StrategyType := watermellon | peach_hybrid.

(** The parts of [AppConfig] that [BotRunner] reads: [config.risk],
    [config.strategy.timeframeMs] and [config.strategyType]. *)
Record AppConfig := mkApp {
  risk : RiskConfig;
  timeframeMs : Z;
  strategyType : option StrategyType
}.

Module BotRunner.

Import JS.
Local Open Scope float_scope.

Definition HOUR_MS : Z := 60 * 60 * 1000.
Definition minHoldTimeMs : Z := 300000.

(** A value thrown by a collaborator, seen through
    [error instanceof Error ? error : new Error(String(error))]. *)
Record Thrown := mkThrown { message : string }.

(** The [meta] object handed to [closePosition]: its numeric properties. *)
Definition Meta := list (string * number).

Fixpoint lookup (key : string) (meta : Meta) : option number :=
  match meta with
  | [] => None
  | (k, v) :: rest => if String.eqb k key then Some v else lookup key rest
  end.

(** The [skipReason] strings of [applySignal], with the numbers that the
    template literals interpolate kept as arguments:
    - [ConsecutiveLosses m]: "2 consecutive losses (<m>m cooldown)"
    - [AdxNotReady]: "ADX not ready"
    - [MarketNotTrending]: "Market not trending"
    - [InsufficientRR x]: "Insufficient R:R (<x>)"
    - [RsiTooExtreme x]: "RSI too extreme (<x>)"
    - [CooldownAfterClose b]: "2-bar cooldown after close (<b> bars remaining)"
    - [FlipBudgetExhausted]: "Flip budget exhausted"
    - [MinimumHoldTime s]: "Minimum hold time not met (<s>s remaining)" *)
Inductive SkipReason :=
| ConsecutiveLosses (cooldownRemaining : Z)
| AdxNotReady
| MarketNotTrending
| InsufficientRR (riskRewardRatio : number)
| RsiTooExtreme (rsi : number)
| CooldownAfterClose (barsRemaining : Z)
| FlipBudgetExhausted
| MinimumHoldTime (secondsRemaining : Z).

Inductive Action := TAKEN | SKIPPED.

(** What the runner does to its collaborators, in order of occurrence.
    Calls that only keep books ([tradeStats], [tradeLogger.logEntry] and
    [logExit], [orderTracker], state persistence) are not recorded, and
    neither is the log line of [logTradeStats], which is written only
    when those books hold a trade. *)
Inductive Event :=
| Log (msg : string)
| LogSignal (signalType : TradeSide) (action : Action) (skipReason : option SkipReason)
| ExecutorEnterLong (order : TradeInstruction)
| ExecutorEnterShort (order : TradeInstruction)
| ExecutorClosePosition (reason : string) (meta : option Meta)
| EmitPosition (p : PositionState)
| EngineSetPosition (s : PositionSide).

Record t := mk {
  config : AppConfig;
  isPeachHybrid : bool;
  stateManager : PositionStateManager.t;
  position : PositionState;
  flipHistory : list Z;
  lastPositionEntryTime : Z;
  tradingFrozen : bool;
  freezeUntil : Z;
  lastBar : option SyntheticBar;
  highestPrice : option number;
  lowestPrice : option number;
  consecutiveLosses : Z;
  lastLossTime : Z;
  lastPositionCloseTime : Z;
  usdtBalance : number;
  timers : list Z;
  events : list Event
}.

Definition set_stateManager (v : PositionStateManager.t) (r : t) : t :=
  mk (config r) (isPeachHybrid r) v (position r) (flipHistory r) (lastPositionEntryTime r) (tradingFrozen r) (freezeUntil r) (lastBar r) (highestPrice r) (lowestPrice r) (consecutiveLosses r) (lastLossTime r) (lastPositionCloseTime r) (usdtBalance r) (timers r) (events r).
Definition set_position (v : PositionState) (r : t) : t :=
  mk (config r) (isPeachHybrid r) (stateManager r) v (flipHistory r) (lastPositionEntryTime r) (tradingFrozen r) (freezeUntil r) (lastBar r) (highestPrice r) (lowestPrice r) (consecutiveLosses r) (lastLossTime r) (lastPositionCloseTime r) (usdtBalance r) (timers r) (events r).
Definition set_flipHistory (v : list Z) (r : t) : t :=
  mk (config r) (isPeachHybrid r) (stateManager r) (position r) v (lastPositionEntryTime r) (tradingFrozen r) (freezeUntil r) (lastBar r) (highestPrice r) (lowestPrice r) (consecutiveLosses r) (lastLossTime r) (lastPositionCloseTime r) (usdtBalance r) (timers r) (events r).
Definition set_lastPositionEntryTime (v : Z) (r : t) : t :=
  mk (config r) (isPeachHybrid r) (stateManager r) (position r) (flipHistory r) v (tradingFrozen r) (freezeUntil r) (lastBar r) (highestPrice r) (lowestPrice r) (consecutiveLosses r) (lastLossTime r) (lastPositionCloseTime r) (usdtBalance r) (timers r) (events r).
Definition set_tradingFrozen (v : bool) (r : t) : t :=
  mk (config r) (isPeachHybrid r) (stateManager r) (position r) (flipHistory r) (lastPositionEntryTime r) v (freezeUntil r) (lastBar r) (highestPrice r) (lowestPrice r) (consecutiveLosses r) (lastLossTime r) (lastPositionCloseTime r) (usdtBalance r) (timers r) (events r).
Definition set_freezeUntil (v : Z) (r : t) : t :=
  mk (config r) (isPeachHybrid r) (stateManager r) (position r) (flipHistory r) (lastPositionEntryTime r) (tradingFrozen r) v (lastBar r) (highestPrice r) (lowestPrice r) (consecutiveLosses r) (lastLossTime r) (lastPositionCloseTime r) (usdtBalance r) (timers r) (events r).
Definition set_lastBar (v : option SyntheticBar) (r : t) : t :=
  mk (config r) (isPeachHybrid r) (stateManager r) (position r) (flipHistory r) (lastPositionEntryTime r) (tradingFrozen r) (freezeUntil r) v (highestPrice r) (lowestPrice r) (consecutiveLosses r) (lastLossTime r) (lastPositionCloseTime r) (usdtBalance r) (timers r) (events r).
Definition set_highestPrice (v : option number) (r : t) : t :=
  mk (config r) (isPeachHybrid r) (stateManager r) (position r) (flipHistory r) (lastPositionEntryTime r) (tradingFrozen r) (freezeUntil r) (lastBar r) v (lowestPrice r) (consecutiveLosses r) (lastLossTime r) (lastPositionCloseTime r) (usdtBalance r) (timers r) (events r).
Definition set_lowestPrice (v : option number) (r : t) : t :=
  mk (config r) (isPeachHybrid r) (stateManager r) (position r) (flipHistory r) (lastPositionEntryTime r) (tradingFrozen r) (freezeUntil r) (lastBar r) (highestPrice r) v (consecutiveLosses r) (lastLossTime r) (lastPositionCloseTime r) (usdtBalance r) (timers r) (events r).
Definition set_consecutiveLosses (v : Z) (r : t) : t :=
  mk (config r) (isPeachHybrid r) (stateManager r) (position r) (flipHistory r) (lastPositionEntryTime r) (tradingFrozen r) (freezeUntil r) (lastBar r) (highestPrice r) (lowestPrice r) v (lastLossTime r) (lastPositionCloseTime r) (usdtBalance r) (timers r) (events r).
Definition set_lastLossTime (v : Z) (r : t) : t :=
  mk (config r) (isPeachHybrid r) (stateManager r) (position r) (flipHistory r) (lastPositionEntryTime r) (tradingFrozen r) (freezeUntil r) (lastBar r) (highestPrice r) (lowestPrice r) (consecutiveLosses r) v (lastPositionCloseTime r) (usdtBalance r) (timers r) (events r).
Definition set_lastPositionCloseTime (v : Z) (r : t) : t :=
  mk (config r) (isPeachHybrid r) (stateManager r) (position r) (flipHistory r) (lastPositionEntryTime r) (tradingFrozen r) (freezeUntil r) (lastBar r) (highestPrice r) (lowestPrice r) (consecutiveLosses r) (lastLossTime r) v (usdtBalance r) (timers r) (events r).
Definition set_usdtBalance (v : number) (r : t) : t :=
  mk (config r) (isPeachHybrid r) (stateManager r) (position r) (flipHistory r) (lastPositionEntryTime r) (tradingFrozen r) (freezeUntil r) (lastBar r) (highestPrice r) (lowestPrice r) (consecutiveLosses r) (lastLossTime r) (lastPositionCloseTime r) v (timers r) (events r).
Definition set_timers (v : list Z) (r : t) : t :=
  mk (config r) (isPeachHybrid r) (stateManager r) (position r) (flipHistory r) (lastPositionEntryTime r) (tradingFrozen r) (freezeUntil r) (lastBar r) (highestPrice r) (lowestPrice r) (consecutiveLosses r) (lastLossTime r) (lastPositionCloseTime r) (usdtBalance r) v (events r).
Definition set_events (v : list Event) (r : t) : t :=
  mk (config r) (isPeachHybrid r) (stateManager r) (position r) (flipHistory r) (lastPositionEntryTime r) (tradingFrozen r) (freezeUntil r) (lastBar r) (highestPrice r) (lowestPrice r) (consecutiveLosses r) (lastLossTime r) (lastPositionCloseTime r) (usdtBalance r) (timers r) v.

(** How an awaited call of the execution collaborator ends. *)
Inductive ExecResult := Resolved | Rejected (e : Thrown).

(** What [engine.getIndicatorValues()] reports at the time of the call:
    [adx], [atr], [recentHigh], [recentLow] and [v2.rsi] of the peach
    engine, [rsi] of the watermellon engine. *)
Record EngineView := mkView {
  view_adx : option number;
  view_atr : option number;
  view_recentHigh : option number;
  view_recentLow : option number;
  view_v2Rsi : option number;
  view_rsi : option number
}.

(** The surroundings of one handler run: the clock, the engine's report
    and the answers of the executor. *)
Record Env := mkEnv {
  now : Z;
  view : EngineView;
  closeResult : ExecResult;
  enterResult : ExecResult
}.

(** [engine.shouldAllowTrading(adxThreshold)] on an engine whose ADX
    value is [adxValue]: [!adx.isReady || adx.isTrending(threshold)]. *)
Definition shouldAllowTrading (adxValue : option number) (threshold : option number)
    : bool :=
  match adxValue with
  | None => true
  | Some v => gt v (match threshold with Some th => th | None => 25 end)
  end.

(** *** The state-and-exception monad of the methods *)

Inductive Completion (A : Type) :=
| Normal (a : A)
| Throw (e : Thrown).
Arguments Normal {A} a.
Arguments Throw {A} e.

Definition M (A : Type) : Type := t -> Completion A * t.

Definition ret {A} (a : A) : M A := fun r => (Normal a, r).

Definition bind {A B} (m : M A) (k : A -> M B) : M B :=
  fun r =>
    match m r with
    | (Normal a, r') => k a r'
    | (Throw e, r') => (Throw e, r')
    end.

Definition throw {A} (e : Thrown) : M A := fun r => (Throw e, r).
Definition get : M t := fun r => (Normal r, r).
Definition modify (f : t -> t) : M unit := fun r => (Normal tt, f r).

Notation "x <- m ;; k" := (bind m (fun x => k))
  (at level 61, m at next level, right associativity).
Notation "m ;; k" := (bind m (fun _ => k))
  (at level 61, right associativity).

Definition emit (ev : Event) : M unit :=
  modify (fun r => set_events (events r ++ [ev])%list r).

Definition log (msg : string) : M unit := emit (Log msg).

Definition logSignal (signal : StrategySignal) (action : Action)
    (skipReason : option SkipReason) : M unit :=
  emit (LogSignal (type signal) action skipReason).

(** [Math.ceil(a / b)] on integers, for positive [b]. *)
Definition ceil_div (a b : Z) : Z := (- ((- a) / b))%Z.

Definition truthy_Z (z : Z) : bool := negb (z =? 0)%Z.

(** [s.includes(sub)] *)
Definition includes (s sub : string) : bool :=
  match String.index 0 sub s with Some _ => true | None => false end.

Definition is_true (o : option bool) : bool :=
  match o with Some b => b | None => false end.

Definition flatPosition : PositionState := mkPosition flat 0 None None.

(** The field initialisers and the constructor (without [loadWarmState]);
    [now] is the [Date.now()] read by [new PositionStateManager()]. *)
Definition create (cfg : AppConfig) (now : Z) : t :=
  mk cfg
     (match strategyType cfg with Some peach_hybrid => true | _ => false end)
     (PositionStateManager.create now)
     flatPosition [] 0%Z false 0%Z None None None 0%Z 0%Z 0%Z 0 [] [].

(** *** Flip budget (lines 1274-1285) *)

Definition canFlip (timestamp : Z) : M bool :=
  r <- get ;;
  let windowStart := (timestamp - HOUR_MS)%Z in
  let kept := filter (fun t => (windowStart <=? t)%Z) (flipHistory r) in
  modify (set_flipHistory kept) ;;
  if (maxFlipsPerHour (risk (config r)) <=? Z.of_nat (List.length kept))%Z
  then ret false
  else ret true.

Definition recordFlip (timestamp : Z) : M unit :=
  modify (fun r => set_flipHistory (flipHistory r ++ [timestamp])%list r).

(** *** closePosition (lines 956-1055)

    On a completed close the code also records the trade
    ([tradeStats.closeTrade], [logExit]) and calls [logTradeStats]; these
    leave no event here, see [Event]. *)

Definition exitPriceOf (p : PositionState) (meta : option Meta) : number :=
  match meta with
  | Some m =>
      match lookup "close" m with
      | Some c => c
      | None =>
          match lookup "price" m with
          | Some c => c
          | None => or_default (entryPrice p) 0
          end
      end
  | None => or_default (entryPrice p) 0
  end.

(** [this.lastBar?.endTime || Date.now()] *)
Definition closeTimestamp (r : t) (env : Env) : Z :=
  match lastBar r with
  | Some b => if truthy_Z (endTime b) then endTime b else now env
  | None => now env
  end.

(** [profitPct] of lines 1027-1029. *)
Definition closeProfitPct (p : PositionState) (exitPrice : number) : number :=
  match entryPrice p with
  | Some entry =>
      if truthy entry
      then (exitPrice - entry) / entry * 100
             * (if PositionSide_eqb (side p) long then 1 else -1)
      else 0
  | None => 0
  end.

Definition isReduceOnlyRejection (err : Thrown) : bool :=
  includes (message err) "ReduceOnly Order is rejected"
  || includes (message err) "-2022".

Definition closePosition (env : Env) (reason : string) (meta : option Meta) : M unit :=
  r <- get ;;
  if PositionSide_eqb (side (position r)) flat then ret tt
  else
    let exitPrice := exitPriceOf (position r) meta in
    emit (ExecutorClosePosition reason meta) ;;
    match closeResult env with
    | Rejected err =>
        if isReduceOnlyRejection err then
          log "Close position failed - position may already be closed or state mismatch" ;;
          modify (fun r1 => set_lastPositionCloseTime (closeTimestamp r1 env) r1) ;;
          modify (set_position flatPosition) ;;
          emit (EmitPosition flatPosition)
        else throw err
    | Resolved =>
        (if isPeachHybrid r then emit (EngineSetPosition flat) else ret tt) ;;
        modify (set_highestPrice None) ;;
        modify (set_lowestPrice None) ;;
        (if lt (closeProfitPct (position r) exitPrice) 0 then
           modify (fun r1 => set_consecutiveLosses (consecutiveLosses r1 + 1)%Z r1) ;;
           modify (set_lastLossTime (now env)) ;;
           log "Trade closed with loss"
         else
           modify (set_consecutiveLosses 0%Z) ;;
           log "Trade closed with profit") ;;
        modify (fun r1 => set_lastPositionCloseTime (closeTimestamp r1 env) r1) ;;
        modify (set_position flatPosition) ;;
        emit (EmitPosition flatPosition)
    end.

(** *** enterPosition (lines 877-954) *)

Definition isBalanceRejection (err : Thrown) : bool :=
  includes (message err) "balance"
  || includes (message err) "insufficient"
  || includes (message err) "-2019".

Definition enterPosition (env : Env) (side : TradeSide) (order : TradeInstruction)
    : M unit :=
  r <- get ;;
  let requiredMargin := order_size order / leverage order in
  log "Checking balance before entering position" ;;
  if lt (usdtBalance r) requiredMargin then
    log "Insufficient balance to enter position"
  else
    emit (match side with
          | Long => ExecutorEnterLong order
          | Short => ExecutorEnterShort order
          end) ;;
    match enterResult env with
    | Rejected err =>
        if isBalanceRejection err then log "Order failed: Insufficient balance"
        else throw err
    | Resolved =>
        let opened :=
          mkPosition (sideOf side) (order_size order) (Some (price order))
                     (Some (timestamp order)) in
        modify (fun r1 =>
          set_stateManager
            (PositionStateManager.setPendingOrder (stateManager r1)
               (PositionStateManager.mkPending side (order_size order) (timestamp order)))
            r1) ;;
        modify (set_position opened) ;;
        modify (set_lastPositionEntryTime (timestamp order)) ;;
        modify (set_highestPrice
                  (match side with Long => Some (price order) | Short => None end)) ;;
        modify (set_lowestPrice
                  (match side with Short => Some (price order) | Long => None end)) ;;
        modify (fun r1 =>
          set_stateManager
            (PositionStateManager.updateLocalState (stateManager r1)
               (PositionStateManager.mkPartial (Some (order_size order))
                  (Some (sideOf side)) (Some (price order)) None)
               (now env))
            r1) ;;
        (if isPeachHybrid r then emit (EngineSetPosition (sideOf side)) else ret tt) ;;
        recordFlip (timestamp order) ;;
        emit (EmitPosition opened)
    end.

(** *** applySignal (lines 642-875) *)

Definition cooldownPeriod : Z := 3600000.

(** Lines 645-663; [true] when the signal is skipped here. *)
Definition lossCooldown (env : Env) (signal : StrategySignal) : M bool :=
  r <- get ;;
  if (2 <=? consecutiveLosses r)%Z then
    let timeSinceLastLoss := (now env - lastLossTime r)%Z in
    if (timeSinceLastLoss <? cooldownPeriod)%Z then
      let cooldownRemaining := ceil_div (cooldownPeriod - timeSinceLastLoss) 60000 in
      log "Skipping signal - 2 consecutive losses, cooling down" ;;
      logSignal signal SKIPPED (Some (ConsecutiveLosses cooldownRemaining)) ;;
      ret true
    else
      modify (set_consecutiveLosses 0%Z) ;;
      log "Consecutive losses counter reset after cooldown period" ;;
      ret false
  else ret false.

(** [riskRewardRatio] of lines 696-719, for an ATR that passed [atr && atr > 0]. *)
Definition riskRewardRatio (d : TradeSide) (entryPrice atr : number)
    (recentHigh recentLow : option number) : number :=
  let riskDistance :=
    match d with
    | Long =>
        let atrStop := entryPrice - atr * 1.5 in
        let stopLossPrice :=
          match recentLow with
          | Some lo =>
              if truthy lo && lt lo entryPrice then Math_min (lo * 0.999) atrStop
              else atrStop
          | None => atrStop
          end in
        entryPrice - stopLossPrice
    | Short =>
        let atrStop := entryPrice + atr * 1.5 in
        let stopLossPrice :=
          match recentHigh with
          | Some hi =>
              if truthy hi && gt hi entryPrice then Math_max (hi * 1.001) atrStop
              else atrStop
          | None => atrStop
          end in
        stopLossPrice - entryPrice
    end in
  let rewardDistance :=
    match d with
    | Long => entryPrice + riskDistance * 2 - entryPrice
    | Short => entryPrice - (entryPrice - riskDistance * 2)
    end in
  if gt riskDistance 0 then rewardDistance / riskDistance else 0.

Definition rsiTooExtreme (d : TradeSide) (v2Rsi : number) : bool :=
  match d with
  | Long => lt v2Rsi 30 || gt v2Rsi 75
  | Short => lt v2Rsi 25 || gt v2Rsi 70
  end.

(** Lines 665-763; [true] when the signal is skipped here. *)
Definition peachGate (env : Env) (signal : StrategySignal) (bar : SyntheticBar)
    : M bool :=
  r <- get ;;
  if negb (isPeachHybrid r) then ret false
  else
    let indicators := view env in
    match view_adx indicators with
    | None =>
        log "Skipping signal - ADX not ready yet" ;;
        logSignal signal SKIPPED (Some AdxNotReady) ;;
        ret true
    | Some _ =>
        if negb (shouldAllowTrading (view_adx indicators) (adxThreshold (risk (config r))))
        then
          log "Skipping signal - market not trending" ;;
          logSignal signal SKIPPED (Some MarketNotTrending) ;;
          ret true
        else
          rrSkipped <-
            (match view_atr indicators with
             | Some atr =>
                 if truthy atr && gt atr 0 then
                   let ratio :=
                     riskRewardRatio (type signal) (close bar) atr
                       (view_recentHigh indicators) (view_recentLow indicators) in
                   if lt ratio 2 then
                     log "Skipping signal - insufficient risk/reward ratio" ;;
                     logSignal signal SKIPPED (Some (InsufficientRR ratio)) ;;
                     ret true
                   else log "Risk/Reward check passed" ;; ret false
                 else ret false
             | None => ret false
             end) ;;
          if rrSkipped then ret true
          else
            match view_v2Rsi indicators with
            | Some v2Rsi =>
                if rsiTooExtreme (type signal) v2Rsi then
                  log (match type signal with
                       | Long => "Skipping long signal - RSI too extreme"
                       | Short => "Skipping short signal - RSI too extreme"
                       end) ;;
                  logSignal signal SKIPPED (Some (RsiTooExtreme v2Rsi)) ;;
                  ret true
                else ret false
            | None => ret false
            end
    end.

Definition opposite (d : TradeSide) : PositionSide :=
  match d with Long => short | Short => long end.

(** The order built at lines 765-777. *)
Definition orderFor (r : t) (signal : StrategySignal) (bar : SyntheticBar)
    : TradeInstruction :=
  let size := Math_max (maxPositionSize (risk (config r))) 1 in
  mkOrder (type signal) size (maxLeverage (risk (config r))) (close bar)
          (reason signal) (endTime bar).

(** Lines 765-874.  The branches for a long and for a short signal are
    the same text with the sides exchanged; [d] is the side of the signal. *)
Definition place (env : Env) (signal : StrategySignal) (bar : SyntheticBar) : M bool :=
  r <- get ;;
  let d := type signal in
  let timestamp := endTime bar in
  let order := orderFor r signal bar in
  let minTimeAfterClose := (2 * timeframeMs (config r))%Z in
  if PositionSide_eqb (side (position r)) (sideOf d) then ret false
  else if (0 <? lastPositionCloseTime r)%Z
          && (timestamp - lastPositionCloseTime r <? minTimeAfterClose)%Z then
    let barsRemaining :=
      ceil_div (minTimeAfterClose - (timestamp - lastPositionCloseTime r))
               (timeframeMs (config r)) in
    logSignal signal SKIPPED (Some (CooldownAfterClose barsRemaining)) ;;
    log "Preventing immediate reversal - 2-bar cooldown required" ;;
    ret false
  else
    allowed <- canFlip timestamp ;;
    if negb allowed then
      logSignal signal SKIPPED (Some FlipBudgetExhausted) ;;
      log (match d with
           | Long => "Flip budget exhausted, ignoring long signal"
           | Short => "Flip budget exhausted, ignoring short signal"
           end) ;;
      ret false
    else if PositionSide_eqb (side (position r)) (opposite d)
            && (timestamp - lastPositionEntryTime r <? minHoldTimeMs)%Z then
      let timeRemaining := (minHoldTimeMs - (timestamp - lastPositionEntryTime r))%Z in
      logSignal signal SKIPPED (Some (MinimumHoldTime (ceil_div timeRemaining 1000))) ;;
      log "Preventing instant flip - minimum hold time not met" ;;
      ret false
    else
      (if PositionSide_eqb (side (position r)) (opposite d) then
         closePosition env
           (match d with Long => "flip-long" | Short => "flip-short" end)
           (Some [("price"%string, close bar)])
       else ret tt) ;;
      enterPosition env d order ;;
      ret true.

(** Lines 665-874: what [applySignal] does with a signal that the loss
    cooldown let through. *)
Definition gateAndPlace (env : Env) (signal : StrategySignal) (bar : SyntheticBar)
    : M bool :=
  gated <- peachGate env signal bar ;;
  if gated then ret false
  else place env signal bar.

Definition applySignal (env : Env) (signal : option StrategySignal) (bar : SyntheticBar)
    : M bool :=
  match signal with
  | None => ret false
  | Some sg =>
      cooling <- lossCooldown env sg ;;
      if cooling then ret false
      else gateAndPlace env sg bar
  end.

(** *** evaluateProtectiveExits (lines 1072-1272) *)

Definition minTimeBeforeExit : Z := 30000.

(** [bar.endTime - (this.position.openedAt || this.lastPositionEntryTime)] *)
Definition timeSinceEntry (r : t) (bar : SyntheticBar) : Z :=
  (endTime bar
   - match openedAt (position r) with
     | Some o => if truthy_Z o then o else lastPositionEntryTime r
     | None => lastPositionEntryTime r
     end)%Z.

(** A protective check that fired: the message logged, the reason and
    the [meta] handed to [closePosition]. *)
Record Exit := mkExit {
  exit_log : string;
  exit_reason : string;
  exit_meta : Meta
}.

(** Lines 1104-1125. *)
Definition rsiExtremityExit (r : t) (env : Env) (bar : SyntheticBar) (entry : number)
    : option Exit :=
  match view_v2Rsi (view env) with
  | Some v2Rsi =>
      if isPeachHybrid r && (minTimeBeforeExit <=? timeSinceEntry r bar)%Z then
        if PositionSide_eqb (side (position r)) long && gt v2Rsi 75 then
          Some (mkExit "Exiting long - RSI overbought" "rsi-overbought"
                  [("close"%string, close bar); ("rsi"%string, v2Rsi);
                   ("profitPct"%string, (close bar - entry) / entry * 100)])
        else if PositionSide_eqb (side (position r)) short && lt v2Rsi 25 then
          Some (mkExit "Exiting short - RSI oversold" "rsi-oversold"
                  [("close"%string, close bar); ("rsi"%string, v2Rsi);
                   ("profitPct"%string, (entry - close bar) / entry * 100)])
        else None
      else None
  | None => None
  end.

(** Lines 1127-1173. *)
Definition watermelonExit (r : t) (env : Env) (bar : SyntheticBar) (entry : number)
    : option Exit :=
  if negb (isPeachHybrid r) && is_true (useStopLoss (risk (config r))) then
    let profitPct :=
      if PositionSide_eqb (side (position r)) long
      then (close bar - entry) / entry * 100
      else (entry - close bar) / entry * 100 in
    if match stopLossPct (risk (config r)) with
       | Some sl => truthy sl && le profitPct (- Math_abs sl)
       | None => false
       end
    then
      Some (mkExit "Watermelon stop loss triggered" "watermelon-stop-loss"
              [("close"%string, close bar); ("profitPct"%string, profitPct)])
    else
      match view_rsi (view env) with
      | Some watermelonRsi =>
          if (minTimeBeforeExit <=? timeSinceEntry r bar)%Z then
            if PositionSide_eqb (side (position r)) long
               && gt watermelonRsi 75 && gt profitPct 0.5 then
              Some (mkExit "Watermelon exiting long - RSI overbought"
                      "watermelon-rsi-overbought"
                      [("close"%string, close bar); ("rsi"%string, watermelonRsi);
                       ("profitPct"%string, profitPct)])
            else if PositionSide_eqb (side (position r)) short
                    && lt watermelonRsi 25 && gt profitPct 0.5 then
              Some (mkExit "Watermelon exiting short - RSI oversold"
                      "watermelon-rsi-oversold"
                      [("close"%string, close bar); ("rsi"%string, watermelonRsi);
                       ("profitPct"%string, profitPct)])
            else None
          else None
      | None => None
      end
  else None.

(** Lines 1175-1183: the running high and low water marks. *)
Definition trackWaterMarks (bar : SyntheticBar) (r : t) : t :=
  match side (position r) with
  | long =>
      match highestPrice r with
      | None => set_highestPrice (Some (close bar)) r
      | Some hp => if gt (close bar) hp then set_highestPrice (Some (close bar)) r else r
      end
  | short =>
      match lowestPrice r with
      | None => set_lowestPrice (Some (close bar)) r
      | Some lp => if lt (close bar) lp then set_lowestPrice (Some (close bar)) r else r
      end
  | flat => r
  end.

(** Lines 1188-1221. *)
Definition trailingStopExit (r : t) (bar : SyntheticBar) (entry : number) : option Exit :=
  if isPeachHybrid r && (minTimeBeforeExit <=? timeSinceEntry r bar)%Z then
    let trailingStopPct := 0.3 in
    match side (position r), highestPrice r, lowestPrice r with
    | long, Some hp, _ =>
        let currentProfit := (close bar - entry) / entry * 100 in
        let trailingStopPrice := hp * (1 - trailingStopPct / 100) in
        if gt currentProfit 0.3 && le (close bar) trailingStopPrice then
          Some (mkExit "Trailing stop-loss triggered" "trailing-stop"
                  [("close"%string, close bar);
                   ("trailingStopPrice"%string, trailingStopPrice);
                   ("highestPrice"%string, hp)])
        else None
    | short, _, Some lp =>
        let currentProfit := (entry - close bar) / entry * 100 in
        let trailingStopPrice := lp * (1 + trailingStopPct / 100) in
        if gt currentProfit 0.3 && ge (close bar) trailingStopPrice then
          Some (mkExit "Trailing stop-loss triggered" "trailing-stop"
                  [("close"%string, close bar);
                   ("trailingStopPrice"%string, trailingStopPrice);
                   ("lowestPrice"%string, lp)])
        else None
    | _, _, _ => None
    end
  else None.

(** Lines 1223-1228. *)
Definition effectiveStopLoss (r : t) : number :=
  if isPeachHybrid r then 1 else or_default (emergencyStopLoss (risk (config r))) 2.

Definition emergencyThreshold (r : t) (entry : number) : number :=
  if PositionSide_eqb (side (position r)) long
  then entry * (1 - effectiveStopLoss r / 100)
  else entry * (1 + effectiveStopLoss r / 100).

(** The condition of line 1230. *)
Definition reached (r : t) (bar : SyntheticBar) (threshold : number) : bool :=
  (PositionSide_eqb (side (position r)) long && le (close bar) threshold)
  || (PositionSide_eqb (side (position r)) short && ge (close bar) threshold).

(** Lines 1223-1240. *)
Definition emergencyStopExit (r : t) (bar : SyntheticBar) (entry : number) : option Exit :=
  if gt (effectiveStopLoss r) 0
     && (isPeachHybrid r || is_true (useStopLoss (risk (config r)))) then
    let threshold := emergencyThreshold r entry in
    if reached r bar threshold then
      Some (mkExit "Emergency stop-loss triggered" "emergency-stop"
              [("close"%string, close bar); ("threshold"%string, threshold)])
    else None
  else None.

(** Lines 1242-1253. *)
Definition stopLossExit (r : t) (bar : SyntheticBar) (entry : number) : option Exit :=
  match stopLossPct (risk (config r)) with
  | Some sl =>
      if truthy sl && gt sl 0 && is_true (useStopLoss (risk (config r))) then
        let threshold :=
          if PositionSide_eqb (side (position r)) long
          then entry * (1 - sl / 100)
          else entry * (1 + sl / 100) in
        if reached r bar threshold then
          Some (mkExit "Stop-loss triggered" "stop-loss"
                  [("close"%string, close bar); ("threshold"%string, threshold)])
        else None
      else None
  | None => None
  end.

Definition leave (env : Env) (x : Exit) : M unit :=
  log (exit_log x) ;;
  closePosition env (exit_reason x) (Some (exit_meta x)).

Definition evaluateProtectiveExits (env : Env) (bar : SyntheticBar) : M unit :=
  r <- get ;;
  match entryPrice (position r) with
  | None => ret tt
  | Some entry =>
      if PositionSide_eqb (side (position r)) flat || negb (truthy entry) then ret tt
      else
        match rsiExtremityExit r env bar entry with
        | Some x => leave env x
        | None =>
            match watermelonExit r env bar entry with
            | Some x => leave env x
            | None =>
                modify (trackWaterMarks bar) ;;
                r1 <- get ;;
                match trailingStopExit r1 bar entry with
                | Some x => leave env x
                | None =>
                    match emergencyStopExit r1 bar entry with
                    | Some x => leave env x
                    | None =>
                        match stopLossExit r1 bar entry with
                        | Some x => leave env x
                        | None => ret tt
                        end
                    end
                end
            end
        end
  end.

(** *** Reconciliation polling (lines 397-441) and freezing (lines 493-502) *)

(** [freezeTrading(durationMs)]: the callback handed to [setTimeout] is
    kept as a pending timer with its due time. *)
Definition freezeTrading (now durationMs : Z) : M unit :=
  modify (set_tradingFrozen true) ;;
  modify (set_freezeUntil (now + durationMs)%Z) ;;
  log "Trading frozen due to reconciliation failures" ;;
  modify (fun r => set_timers (timers r ++ [(now + durationMs)%Z])%list r).

(** The callback of [freezeTrading] when its timer fires. *)
Definition unfreeze : M unit :=
  modify (fun r => set_timers (tl (timers r)) r) ;;
  modify (set_tradingFrozen false) ;;
  modify (fun r =>
    set_stateManager
      (PositionStateManager.resetReconciliationFailures (stateManager r)) r) ;;
  log "Trading unfrozen".

(** The handler of the poller's "position" event. *)
Definition onRestPosition (now : Z) (report : PositionStateManager.RestState)
    : M unit :=
  r <- get ;;
  let '(sm, reconciled) :=
    PositionStateManager.updateFromRest (stateManager r) report now in
  modify (set_stateManager sm) ;;
  if negb reconciled then
    log "State reconciliation failed" ;;
    if PositionStateManager.shouldFreezeTrading sm then freezeTrading now 60000
    else ret tt
  else
    let amount := PositionStateManager.positionAmt report in
    (if negb (seq amount 0) then ret tt
     else modify (fun r1 =>
            set_stateManager
              (PositionStateManager.clearPendingOrder (stateManager r1)) r1)) ;;
    r2 <- get ;;
    let state := PositionStateManager.getState (stateManager r2) in
    let newPosition :=
      mkPosition (PositionStateManager.side state) (PositionStateManager.size state)
        (if gt (PositionStateManager.avgEntry state) 0
         then Some (PositionStateManager.avgEntry state) else None)
        (Some (PositionStateManager.lastUpdate state)) in
    (if negb (PositionSide_eqb (side (position r2)) (side newPosition))
        || gt (Math_abs (size (position r2) - size newPosition)) 0.001
     then log "Position updated from REST" else ret tt) ;;
    modify (set_position newPosition).




(** The gate of [handleBarClose], lines 547-553: [true] when the bar's
    signal is skipped because trading is frozen. *)
Definition frozenGate (now : Z) : M bool :=
  r <- get ;;
  if tradingFrozen r then
    if (now <? freezeUntil r)%Z then
      log "Skipping signal - trading frozen" ;; ret true
    else modify (set_tradingFrozen false) ;; ret false
  else ret false.

(** A run of poll events, each with its clock reading. *)
Fixpoint polls (reports : list (PositionStateManager.RestState * Z)) : M unit :=
  match reports with
  | [] => ret tt
  | (rep, now) :: rest => onRestPosition now rep ;; polls rest
  end.

(** *** Observations on a run *)

Definition after {A} (m : M A) (r : t) : t := snd (m r).
Definition result {A} (m : M A) (r : t) : Completion A := fst (m r).

(** The orders handed to [executor.enterLong] and [executor.enterShort]. *)
Fixpoint entry_orders (evs : list Event) : list TradeInstruction :=
  match evs with
  | [] => []
  | ExecutorEnterLong o :: rest => o :: entry_orders rest
  | ExecutorEnterShort o :: rest => o :: entry_orders rest
  | _ :: rest => entry_orders rest
  end.

(** The reasons handed to [executor.closePosition]. *)
Fixpoint close_reasons (evs : list Event) : list string :=
  match evs with
  | [] => []
  | ExecutorClosePosition reason _ :: rest => reason :: close_reasons rest
  | _ :: rest => close_reasons rest
  end.

(** The reasons with which signals were logged as skipped. *)
Fixpoint skip_reasons (evs : list Event) : list SkipReason :=
  match evs with
  | [] => []
  | LogSignal _ SKIPPED (Some why) :: rest => why :: skip_reasons rest
  | _ :: rest => skip_reasons rest
  end.


(** The flip timestamps of the hour that ends at [timestamp]: what the
    filter of [canFlip] keeps. *)
Definition inWindow (timestamp : Z) (hist : list Z) : list Z :=
  filter (fun t => (timestamp - HOUR_MS <=? t)%Z) hist.

Definition flipsInWindow (timestamp : Z) (r : t) : Z :=
  Z.of_nat (List.length (inWindow timestamp (flipHistory r))).

(** What [handleBarClose] does to the runner's state with a bar for which
    the engine returned [signal] and trading is not frozen:
    [this.lastBar = bar] (line 544), then [applySignal(signal, bar)]
    (line 635).  The announcements around that call (the "signal" event
    and its log line, lines 632-633, and the TAKEN entry of the signal
    log, line 638) are not recorded. *)
Definition onSignal (env : Env) (signal : StrategySignal) (bar : SyntheticBar)
    : M bool :=
  modify (set_lastBar (Some bar)) ;;
  applySignal env (Some signal) bar.

(** A signal that every check of [applySignal] other than the flip
    budget lets through, and whose orders the executor accepts. *)
Definition otherwise_valid (env : Env) (signal : StrategySignal) (bar : SyntheticBar)
    (r : t) : Prop :=
  let r1 := after (lossCooldown env signal) r in
  let r2 := after (peachGate env signal bar) r1 in
  result (lossCooldown env signal) r = Normal false
  /\ result (peachGate env signal bar) r1 = Normal false
  /\ PositionSide_eqb (side (position r2)) (sideOf (type signal)) = false
  /\ ((0 <? lastPositionCloseTime r2)%Z
      && (endTime bar - lastPositionCloseTime r2 <? 2 * timeframeMs (config r2))%Z)
     = false
  /\ (PositionSide_eqb (side (position r2)) (opposite (type signal))
      && (endTime bar - lastPositionEntryTime r2 <? minHoldTimeMs)%Z) = false
  /\ closeResult env = Resolved
  /\ enterResult env = Resolved
  /\ lt (usdtBalance r2)
        (order_size (orderFor r2 signal bar) / leverage (orderFor r2 signal bar))
     = false.

Definition stamp (x : Env * StrategySignal * SyntheticBar) : Z := endTime (snd x).

(** A run of signals, each on its own bar; [all_otherwise_valid] says that
    each was otherwise valid in the state it met. *)
Fixpoint onSignals (inputs : list (Env * StrategySignal * SyntheticBar)) (r : t)
    : list (Completion bool) * t :=
  match inputs with
  | [] => ([], r)
  | (env, sg, bar) :: rest =>
      let '(c, r1) := onSignal env sg bar r in
      let '(cs, r2) := onSignals rest r1 in
      (c :: cs, r2)
  end.

Fixpoint all_otherwise_valid (inputs : list (Env * StrategySignal * SyntheticBar))
    (r : t) : Prop :=
  match inputs with
  | [] => True
  | (env, sg, bar) :: rest =>
      otherwise_valid env sg bar (set_lastBar (Some bar) r)
      /\ all_otherwise_valid rest (after (onSignal env sg bar) r)
  end.

(** What a method leaves untouched besides the trace: the configuration,
    the variant flag, the balance and the flip history. *)
Record quiet (r r' : t) : Prop := {
  q_config : config r' = config r;
  q_peach : isPeachHybrid r' = isPeachHybrid r;
  q_balance : usdtBalance r' = usdtBalance r;
  q_flips : flipHistory r' = flipHistory r;
  q_orders : entry_orders (events r') = entry_orders (events r)
}.

(** The calls made to the execution collaborator, in order. *)
Fixpoint executor_calls (evs : list Event) : list Event :=
  match evs with
  | [] => []
  | ExecutorEnterLong o :: rest => ExecutorEnterLong o :: executor_calls rest
  | ExecutorEnterShort o :: rest => ExecutorEnterShort o :: executor_calls rest
  | ExecutorClosePosition reason meta :: rest =>
      ExecutorClosePosition reason meta :: executor_calls rest
  | _ :: rest => executor_calls rest
  end.

(** The executor call that enters on side [d], and the reason handed to
    [closePosition] when a position is flipped to side [d]. *)
Definition enterCall (d : TradeSide) (o : TradeInstruction) : Event :=
  match d with Long => ExecutorEnterLong o | Short => ExecutorEnterShort o end.

Definition flipReason (d : TradeSide) : string :=
  match d with Long => "flip-long" | Short => "flip-short" end.

(** The reasons with which [evaluateProtectiveExits] closes a position. *)
Definition protectiveReasons : list string :=
  ["rsi-overbought"; "rsi-oversold"; "watermelon-stop-loss";
   "watermelon-rsi-overbought"; "watermelon-rsi-oversold"; "trailing-stop";
   "emergency-stop"; "stop-loss"]%string.

(** What the checks that precede an order leave untouched: everything
    but the log, the loss counter and the pruned flip history. *)
Record still (r r' : t) : Prop := {
  s_config : config r' = config r;
  s_peach : isPeachHybrid r' = isPeachHybrid r;
  s_balance : usdtBalance r' = usdtBalance r;
  s_position : position r' = position r;
  s_closeTime : lastPositionCloseTime r' = lastPositionCloseTime r;
  s_entryTime : lastPositionEntryTime r' = lastPositionEntryTime r;
  s_manager : stateManager r' = stateManager r;
  s_flips : flipHistory r' = flipHistory r;
  s_calls : executor_calls (events r') = executor_calls (events r)
}.

End BotRunner.

(* ===================================================================== *)
(** ** TradeStatistics (runtime/botRunner.ts, lines 61-174) *)
(* ===================================================================== *)

Module TradeStatistics.

Import JS.
Local Open Scope float_scope.

(** [TradeRecord]; [id] holds the [Date.now()] that the template
    ["trade-<now>"] interpolates. *)
Record TradeRecord := mkTrade {
  id : Z;
  side : TradeSide;
  entryPrice : number;
  exitPrice : number;
  entryTime : Z;
  exitTime : Z;
  size : number;
  pnl : number;
  pnlPercent : number;
  reason : string;
  leverage : number
}.

(** The [Partial<TradeRecord>] that [startTrade] builds. *)
Record OpenTrade := mkOpen {
  o_id : Z;
  o_side : TradeSide;
  o_entryPrice : number;
  o_entryTime : Z;
  o_size : number;
  o_leverage : number
}.

Record t := mk {
  trades : list TradeRecord;
  currentTrade : option OpenTrade
}.

Definition create : t := mk [] None.

Definition startTrade (s : t) (side : TradeSide) (entryPrice size leverage : number)
    (now : Z) : t :=
  mk (trades s) (Some (mkOpen now side entryPrice now size leverage)).

Definition priceDiff (trade : OpenTrade) (exitPrice : number) : number :=
  match o_side trade with
  | Long => exitPrice - o_entryPrice trade
  | Short => o_entryPrice trade - exitPrice
  end.

Definition calculatePnL (trade : OpenTrade) (exitPrice : number) : number :=
  priceDiff trade exitPrice * o_size trade.

Definition calculatePnLPercent (trade : OpenTrade) (exitPrice : number) : number :=
  priceDiff trade exitPrice / o_entryPrice trade * 100 * o_leverage trade.

Definition closeTrade (s : t) (exitPrice : number) (reason : string) (now : Z) : t :=
  match currentTrade s with
  | None => s
  | Some cur =>
      let trade :=
        mkTrade (o_id cur) (o_side cur) (o_entryPrice cur) exitPrice
                (o_entryTime cur) now (o_size cur)
                (calculatePnL cur exitPrice) (calculatePnLPercent cur exitPrice)
                reason (o_leverage cur) in
      mk (trades s ++ [trade]) None
  end.

Record Stats := mkStats {
  totalTrades : Z;
  winningTrades : Z;
  losingTrades : Z;
  winRate : number;
  totalPnL : number;
  avgWin : number;
  avgLoss : number;
  profitFactor : number;
  maxDrawdown : number;
  largestWin : number;
  largestLoss : number
}.

Definition count (xs : list TradeRecord) : Z := Z.of_nat (List.length xs).

(** [xs.reduce((sum, t) => sum + t.pnl, 0)] *)
Definition sumPnl (xs : list TradeRecord) : number :=
  fold_left (fun acc t => acc + pnl t) xs 0.

(** One turn of the loop of lines 139-148 on [(peak, maxDrawdown, runningPnL)]. *)
Definition drawdownStep (acc : number * number * number) (trade : TradeRecord)
    : number * number * number :=
  let '(peak, maxDrawdown, runningPnL) := acc in
  let runningPnL := runningPnL + pnl trade in
  let peak := if gt runningPnL peak then runningPnL else peak in
  let drawdown := peak - runningPnL in
  let maxDrawdown := if gt drawdown maxDrawdown then drawdown else maxDrawdown in
  (peak, maxDrawdown, runningPnL).

Definition drawdownOf (xs : list TradeRecord) : number :=
  snd (fst (fold_left drawdownStep xs (0, 0, 0))).

Definition getStats (s : t) : Stats :=
  if (count (trades s) =? 0)%Z then mkStats 0 0 0 0 0 0 0 0 0 0 0
  else
    let winning := filter (fun t => gt (pnl t) 0) (trades s) in
    let losing := filter (fun t => lt (pnl t) 0) (trades s) in
    let avgWin :=
      if (0 <? count winning)%Z then sumPnl winning / of_Z (count winning) else 0 in
    let avgLoss :=
      if (0 <? count losing)%Z then Math_abs (sumPnl losing / of_Z (count losing))
      else 0 in
    mkStats (count (trades s)) (count winning) (count losing)
      (of_Z (count winning) / of_Z (count (trades s)) * 100)
      (sumPnl (trades s))
      avgWin avgLoss
      (if gt avgLoss 0
       then avgWin * of_Z (count winning) / (avgLoss * of_Z (count losing))
       else if gt avgWin 0 then infinity else 0)
      (drawdownOf (trades s))
      (if (0 <? count winning)%Z then max_list (map pnl winning) else 0)
      (if (0 <? count losing)%Z then min_list (map pnl losing) else 0).

(** [getRecentTrades(limit = 10)], for an integer [limit]. *)
Definition getRecentTrades (s : t) (limit : option Z) : list TradeRecord :=
  slice (- match limit with Some n => n | None => 10 end)%Z (trades s).

End TradeStatistics.

(* ===================================================================== *)
(** ** Sample inputs *)
(* ===================================================================== *)

Module Samples.

Import JS.
Local Open Scope float_scope.

(** A fresh [new ADX(2)]. *)
Definition adx2 : ADX.t :=
  ADX.mk 2 [] [] [] [] None None None None None None None 0%Z.

(** [n] bars that each rise by one: (high, low, close) = (10+k, 9+k, 9.5+k). *)
Definition risingBars (n : nat) : list (number * number * number) :=
  map (fun k => let x := of_Z (Z.of_nat k) in (10 + x, 9 + x, 9.5 + x)) (List.seq 0 n).

(** [n] identical bars with a range but no directional movement. *)
Definition steadyBars (n : nat) : list (number * number * number) :=
  repeat (2, 1, 1.5) n.

(** A [new ADX(2)] that has seen [calls >= 3] of these steady bars: full
    windows of true range 1 and no directional movement, and nothing
    smoothed yet. *)
Definition steadyAdx (calls : Z) : ADX.t :=
  ADX.mk 2 [1; 1] [0; 0] [0; 0] [] (Some 2) (Some 1) (Some 1.5)
         None None None None (calls - 1)%Z.

(** The documented default settings of the dual-system variant. *)
Definition peachConfig : PeachHybridEngine.PeachConfig :=
  PeachHybridEngine.mkConfig 30000
    (PeachHybridEngine.mkV1 8 21 48 5 13 14 42 58 1 0.1)
    (PeachHybridEngine.mkV2 8 21 48 5 10 1.5 0.8).

(** A fresh [new PeachHybridEngine(peachConfig)]. *)
Definition peachEngine : PeachHybridEngine.t :=
  PeachHybridEngine.mk peachConfig false false 0 0 0 [] []
    (ADX.mk 14 [] [] [] [] None None None None None None None 0)
    (ATR.mk 14 [] None None None None 0) [] [] None.

(** Readings with a bearish (resp. bullish) stack on all EMAs and an RSI
    of 40 (resp. 60). *)
Definition bearishReadings : PeachHybridEngine.Readings :=
  PeachHybridEngine.mkReadings 101 102 103 101 102 (Some 40) 101 102 103 (Some 40).

Definition bullishReadings : PeachHybridEngine.Readings :=
  PeachHybridEngine.mkReadings 103 102 101 103 102 (Some 60) 103 102 101 (Some 60).

(** A bearish bar at 100, then two bullish bars at 100.05 and 100.2. *)
Definition turnAround : list (SyntheticBar * PeachHybridEngine.Readings) :=
  [(mkBar 0 30000 100 100 100 100 1, bearishReadings);
   (mkBar 30000 60000 100.05 100.05 100.05 100.05 1, bullishReadings);
   (mkBar 60000 90000 100.2 100.2 100.2 100.2 1, bullishReadings)].

(** A trend-following engine with [adxLength = 2], and bars that rise by
    one each with a bullish stack and an RSI of 60. *)
Definition melonConfig : WatermellonEngine.WatermellonConfig :=
  WatermellonEngine.mkConfig 30000 8 21 48 14 42 58 2 25.

Definition melonEngine : WatermellonEngine.t :=
  WatermellonEngine.mk melonConfig adx2 false false.

Definition melonReadings : WatermellonEngine.Readings :=
  WatermellonEngine.mkReadings 103 102 101 (Some 60).

Definition melonBars (from n : nat) : list (SyntheticBar * WatermellonEngine.Readings) :=
  map (fun k =>
         let x := of_Z (Z.of_nat k) in
         (mkBar (30000 * Z.of_nat k) (30000 * Z.of_nat (S k))
                (9.5 + x) (10 + x) (9 + x) (9.5 + x) 1,
          melonReadings))
      (List.seq from n).

(** The engine after the four warm-up bars of its ADX. *)
Definition warmMelonEngine : WatermellonEngine.t :=
  fold_left (fun e br => fst (WatermellonEngine.update e (fst br) (snd br)))
            (melonBars 0 4) melonEngine.

(** A runner of the dual-system variant with a balance of 1000, a
    [maxPositionSize] of 0.5 and a budget of 2 flips per hour. *)
Definition sampleRisk : RiskConfig :=
  mkRisk 0.5 5 2 None None (Some true) (Some 2) None None None.

Definition peachApp : AppConfig := mkApp sampleRisk 30000 (Some peach_hybrid).

Definition peachRunner : BotRunner.t :=
  BotRunner.set_usdtBalance 1000 (BotRunner.create peachApp 0).

(** An engine report with a trending ADX of 30 and a mid-range RSI of 50;
    the executor accepts every order. *)
Definition quietView : BotRunner.EngineView :=
  BotRunner.mkView (Some 30) None None None (Some 50) None.

Definition envAt (now : Z) : BotRunner.Env :=
  BotRunner.mkEnv now quietView BotRunner.Resolved BotRunner.Resolved.

Definition signalOf (d : TradeSide) : StrategySignal :=
  mkSignal d (match d with Long => "v1-long" | Short => "v1-short" end)%string
    (mkIndicators 0 0 0 None None)
    (mkTrend false false false false false false) (Some "v1"%string).

(** A bar that ends at [t] with all prices at [c]. *)
Definition barAt (t : Z) (c : number) : SyntheticBar :=
  mkBar (t - 30000)%Z t c c c c 1.

(** Three signals five minutes apart: long, short, long. *)
Definition firstTwoFlips : list (BotRunner.Env * StrategySignal * SyntheticBar) :=
  [(envAt 1000000, signalOf Long, barAt 1000000 100);
   (envAt 1300000, signalOf Short, barAt 1300000 101)].

Definition thirdFlip : BotRunner.Env * StrategySignal * SyntheticBar :=
  (envAt 1600000, signalOf Long, barAt 1600000 100).

(** A long position of size 1 opened at 100 at time 1000000. *)
Definition youngLong : BotRunner.t :=
  BotRunner.set_position (mkPosition long 1 (Some 100) (Some 1000000%Z)) peachRunner.






(** A local view that holds a long position of size 1 entered at 100. *)
Definition heldLong : PositionStateManager.t :=
  PositionStateManager.updateLocalState (PositionStateManager.create 0)
    (PositionStateManager.mkPartial (Some 1) (Some long) (Some 100) None) 5.

Definition flatReport : PositionStateManager.RestState :=
  PositionStateManager.mkRest 0 0 0.

Definition shortReport : PositionStateManager.RestState :=
  PositionStateManager.mkRest (-1) 100 0.

Definition runnerHoldingLong : BotRunner.t :=
  BotRunner.set_stateManager heldLong youngLong.

(** Bars built from (high, low, close) triples, 30 s apart, each with the
    bullish readings of [melonReadings]. *)
Definition bullishBars (hlc : list (number * number * number))
    : list (SyntheticBar * WatermellonEngine.Readings) :=
  map (fun kb : nat * (number * number * number) =>
         let '(k, (h, l, c)) := kb in
         (mkBar (30000 * Z.of_nat k) (30000 * Z.of_nat (S k)) c h l c 1, melonReadings))
      (combine (List.seq 0 (List.length hlc)) hlc).

(** Five rising bars, nine bars that alternate down and up, four rising bars. *)
Definition choppyBars : list (SyntheticBar * WatermellonEngine.Readings) :=
  bullishBars
    [(10, 9, 9.5); (11, 10, 10.5); (12, 11, 11.5); (13, 12, 12.5); (14, 13, 13.5);
     (13, 12, 12.5); (14, 13, 13.5); (13, 12, 12.5); (14, 13, 13.5); (13, 12, 12.5);
     (14, 13, 13.5); (13, 12, 12.5); (14, 13, 13.5); (13, 12, 12.5);
     (14, 13, 13.5); (15, 14, 14.5); (16, 15, 15.5); (17, 16, 16.5)].

(** A trend-following engine with [adxLength = 2] and [adxThreshold = 40]. *)
Definition strictEngine : WatermellonEngine.t :=
  WatermellonEngine.mk (WatermellonEngine.mkConfig 30000 8 21 48 14 42 58 2 40)
    adx2 false false.

(** A placeholder bar, and a bar that jumps to 20/19. *)
Definition noBar : SyntheticBar := mkBar 0 0 0 0 0 0 0.

Definition surgeBar : SyntheticBar := mkBar 240000 270000 19.5 20 19 19.5 1.

(** The dual-system engine with [minBarsBetween = 3], and [n] identical
    bars at 100 with bullish readings. *)
Definition spacedEngine : PeachHybridEngine.t :=
  PeachHybridEngine.mk
    (PeachHybridEngine.mkConfig 30000
       (PeachHybridEngine.mkV1 8 21 48 5 13 14 42 58 3 0.1)
       (PeachHybridEngine.mkV2 8 21 48 5 10 1.5 0.8))
    false false 0 0 0 [] []
    (ADX.mk 14 [] [] [] [] None None None None None None None 0)
    (ATR.mk 14 [] None None None None 0) [] [] None.

Definition bullishRun (n : nat) : list (SyntheticBar * PeachHybridEngine.Readings) :=
  repeat (barAt 30000 100, bullishReadings) n.

(** Three bars that close above their open, with no reading of the
    trend-bias RSI, a bullish stack of the momentum EMAs, a momentum RSI
    of 40, 45 and 52, and volumes 1, 1 and 3. *)
Definition momentumRun : list (SyntheticBar * PeachHybridEngine.Readings) :=
  [(mkBar 0 30000 100 101 100 101 1,
    PeachHybridEngine.mkReadings 100 100 100 100 100 None 103 102 101 (Some 40));
   (mkBar 30000 60000 101 102 101 102 1,
    PeachHybridEngine.mkReadings 100 100 100 100 100 None 103 102 101 (Some 45));
   (mkBar 60000 90000 102 103 102 103 3,
    PeachHybridEngine.mkReadings 100 100 100 100 100 None 103 102 101 (Some 52))].

(** A report whose [positionAmt] did not parse. *)
Definition garbledReport : PositionStateManager.RestState :=
  PositionStateManager.mkRest nan 0 0.

(** What [heldLong] becomes when [updateFromRest] is handed
    [garbledReport]: the report is adopted, the local view is flat with a
    size of [NaN]. *)
Definition stuckFlat : PositionStateManager.t :=
  fst (PositionStateManager.updateFromRest heldLong garbledReport 7).

(** A report of a long position of size 2 entered at 100. *)
Definition doubledReport : PositionStateManager.RestState :=
  PositionStateManager.mkRest 2 100 0.

(** Two recorded trades: a long from 100 to 101 and a short from 101 to 103,
    both of size 1 at leverage 5. *)
Definition tradedTwice : TradeStatistics.t :=
  TradeStatistics.closeTrade
    (TradeStatistics.startTrade
       (TradeStatistics.closeTrade
          (TradeStatistics.startTrade TradeStatistics.create Long 100 1 5 1000)
          101 "trailing-stop" 2000)
       Short 101 1 5 3000)
    103 "stop-loss" 4000.

(** A report of a long position of size 1 entered at 100. *)
Definition longReport : PositionStateManager.RestState :=
  PositionStateManager.mkRest 1 100 0.

End Samples.

(* ===================================================================== *)
(** ** The statements of the specification that the code does not meet *)
(* ===================================================================== *)

Module AsSpecified.

Import JS.
Local Open Scope float_scope.

(** "ADX value is null for the first 2*length+1 updates and non-null from
    update 2*length+2 onward, for any length >= 2." *)
Definition adx_ready_after_2L_plus_2 : Prop :=
  forall (L : Z) (a : ADX.t) (bars : list (number * number * number)),
    ADX.create L = inr a ->
    ((Z.of_nat (List.length bars) <= 2 * L + 1)%Z -> ADX.value (ADX.feed a bars) = None)
    /\ ((2 * L + 2 <= Z.of_nat (List.length bars))%Z ->
        ADX.value (ADX.feed a bars) <> None).

(** "The larger directional move wins": the up-move [high - prevHigh]
    makes [+DM] non-zero when it is positive and larger than the down-move
    [prevLow - low], and symmetrically for [-DM]. *)
Definition larger_move_wins : Prop :=
  forall pH pL h l : number,
    (gt (h - pH) (pL - l) && gt (h - pH) 0 = true ->
       seq (ADX.plusDM pH pL h l) 0 = false)
    /\ (gt (pL - l) (h - pH) && gt (pL - l) 0 = true ->
          seq (ADX.minusDM pH pL h l) 0 = false).

(** "A signal fires only on the transition from not looking to looking,
    never while a look-condition persists across bars", for the long look
    of the dual-system engine: when the look holds on the consecutive bars
    [i..j] of a run, [update] returns no long signal on bar [j > i]. *)
Definition peach_edge_triggered : Prop :=
  forall (e : PeachHybridEngine.t)
         (input : list (SyntheticBar * PeachHybridEngine.Readings)) (i j : nat),
    (i < j)%nat -> (j < List.length input)%nat ->
    (forall k bar r, (i <= k <= j)%nat -> nth_error input k = Some (bar, r) ->
       PeachHybridEngine.v1LooksLong (PeachHybridEngine.config e) r = true) ->
    is_signal_of Long (nth j (PeachHybridEngine.run e input) None) = false.

(** "Emergency stop-loss: ... always active once a position is open and a
    minimum-dwell guard (30s) has elapsed": a close for the reason
    "emergency-stop" is requested only on a bar that ends at least
    30000 ms after the entry. *)
Definition emergency_stop_waits_for_dwell : Prop :=
  forall (env : BotRunner.Env) (bar : SyntheticBar) (r : BotRunner.t),
    BotRunner.close_reasons
      (BotRunner.events (BotRunner.after (BotRunner.evaluateProtectiveExits env bar) r))
    = (BotRunner.close_reasons (BotRunner.events r) ++ ["emergency-stop"%string])%list ->
    (BotRunner.minTimeBeforeExit <= BotRunner.timeSinceEntry r bar)%Z.





End AsSpecified.
(* ===================================================================== *)
(** ** Order facts about binary64 comparisons *)
(* ===================================================================== *)

Section FloatOrder.

Local Open Scope float_scope.

Lemma SFcompare_antisym (x y : spec_float) :
  SFcompare y x = option_map CompOpp (SFcompare x y).
Proof.
  destruct x as [sx | sx | | sx mx ex], y as [sy | sy | | sy my ey];
    simpl; try reflexivity;
    try (destruct sx; reflexivity); try (destruct sy; reflexivity);
    try (destruct sx, sy; reflexivity).
  rewrite (Z.compare_antisym ex ey).
  change (PosDef.Pos.compare_cont Eq my mx)
    with (Pos.compare_cont (CompOpp Eq) my mx).
  rewrite <- (Pos.compare_cont_antisym mx my Eq).
  destruct sx, sy; simpl; try reflexivity;
    destruct (ex ?= ey)%Z; simpl; try reflexivity.
Qed.

Lemma SFcompare_refl (x : spec_float) :
  x <> S754_nan -> SFcompare x x = Some Eq.
Proof.
  destruct x as [s | s | | s m e]; simpl; intros H;
    try reflexivity; try congruence.
  - destruct s; reflexivity.
  - rewrite Z.compare_refl, Pos.compare_cont_refl. destruct s; reflexivity.
Qed.

Lemma ltb_asym (a b : float) : (a <? b) = true -> (b <? a) = false.
Proof.
  rewrite !FloatAxioms.ltb_spec. unfold SFltb. rewrite (SFcompare_antisym (Prim2SF a) (Prim2SF b)).
  destruct (SFcompare (Prim2SF a) (Prim2SF b)) as [[]|]; simpl; congruence.
Qed.

Lemma leb_not_gt (a b : float) : (a <=? b) = true -> (b <? a) = false.
Proof.
  rewrite FloatAxioms.leb_spec, FloatAxioms.ltb_spec. unfold SFleb, SFltb.
  rewrite (SFcompare_antisym (Prim2SF a) (Prim2SF b)).
  destruct (SFcompare (Prim2SF a) (Prim2SF b)) as [[]|]; simpl; congruence.
Qed.

Lemma eqb_leb (a b : float) : (a =? b) = true -> (a <=? b) = true.
Proof.
  rewrite FloatAxioms.eqb_spec, FloatAxioms.leb_spec. unfold SFeqb, SFleb.
  destruct (SFcompare (Prim2SF a) (Prim2SF b)) as [[]|]; congruence.
Qed.

Lemma eqb_sym (a b : float) : (a =? b) = (b =? a).
Proof.
  rewrite !FloatAxioms.eqb_spec. unfold SFeqb. rewrite (SFcompare_antisym (Prim2SF a) (Prim2SF b)).
  destruct (SFcompare (Prim2SF a) (Prim2SF b)) as [[]|]; reflexivity.
Qed.

Lemma ltb_left_not_nan (a b : float) : (a <? b) = true -> is_nan a = false.
Proof.
  unfold is_nan. rewrite FloatAxioms.ltb_spec, FloatAxioms.eqb_spec. unfold SFltb, SFeqb.
  intros H.
  assert (Hn : Prim2SF a <> S754_nan).
  { intros E. rewrite E in H. simpl in H. discriminate. }
  rewrite (SFcompare_refl _ Hn). reflexivity.
Qed.

Lemma ltb_right_not_nan (a b : float) : (a <? b) = true -> is_nan b = false.
Proof.
  unfold is_nan. rewrite FloatAxioms.ltb_spec, FloatAxioms.eqb_spec. unfold SFltb, SFeqb.
  intros H.
  assert (Hn : Prim2SF b <> S754_nan).
  { intros E. rewrite E in H. destruct (Prim2SF a); simpl in H; discriminate. }
  rewrite (SFcompare_refl _ Hn). reflexivity.
Qed.

Lemma leb_refl_not_nan (a : float) : is_nan a = false -> (a <=? a) = true.
Proof.
  unfold is_nan. intros H. apply eqb_leb.
  destruct (a =? a); [reflexivity | discriminate].
Qed.

End FloatOrder.

Section FloatZero.

Local Open Scope float_scope.



Lemma Math_max_below (x : JS.number) :
  JS.lt x 1 = true -> JS.Math_max x 1 = 1 /\ JS.gt (JS.Math_max x 1) x = true.
Proof.
  unfold JS.lt, JS.gt, JS.Math_max. intros H.
  rewrite (ltb_left_not_nan _ _ H). cbn [orb].
  change (is_nan 1) with false. cbn iota. rewrite H. auto.
Qed.

End FloatZero.

Section FloatFalsy.

Local Open Scope float_scope.






End FloatFalsy.

Lemma side_eqb_eq (a b : PositionSide) : PositionSide_eqb a b = true <-> a = b.
Proof. destruct a, b; simpl; split; congruence. Qed.

Lemma side_eqb_neq (a b : PositionSide) : PositionSide_eqb a b = false <-> a <> b.
Proof. destruct a, b; simpl; split; congruence. Qed.

(* ===================================================================== *)
(** ** ADX: directional movement and warm-up *)
(* ===================================================================== *)

Module ADXFacts.

Import JS.
Import ADX.

Section DirectionalMovement.

Local Open Scope float_scope.

(** An outside bar: the high rises by 5 and the low falls by 1.  The
    up-move is the larger one, yet both movements are zero. *)
Lemma outside_bar_moves :
  (gt (15 - 10) (5 - 4) && gt (15 - 10) 0 = true)
  /\ plusDM 10 5 15 4 = 0 /\ minusDM 10 5 15 4 = 0.
Proof. repeat split; reflexivity. Qed.

(** C9, as the specification words it, fails on an outside bar (previous
    bar 10/5, current bar 15/4): the larger move is upward and positive,
    but [+DM] is zero. *)
Lemma C9_larger_move_does_not_win : ~ AsSpecified.larger_move_wins.
Proof.
  intros H. destruct (H 10 5 15 4) as [Hp _].
  destruct outside_bar_moves as (Hc & Hz & _).
  specialize (Hp Hc). rewrite Hz in Hp. vm_compute in Hp. discriminate.
Qed.

(** C9 (amended): at most one of [+DM] and [-DM] is non-zero; [+DM] is
    non-zero only when both the high and the low rose (it is then
    [max(high - prevHigh, 0)]), [-DM] only when both fell (it is then
    [max(prevLow - low, 0)]); both are zero on an inside bar and on an
    outside bar. *)
Theorem C9_directional_movement (pH pL h l : number) :
  (seq (plusDM pH pL h l) 0 = true \/ seq (minusDM pH pL h l) 0 = true)
  /\ (seq (plusDM pH pL h l) 0 = false ->
      gt h pH = true /\ gt l pL = true /\ plusDM pH pL h l = Math_max (h - pH) 0)
  /\ (seq (minusDM pH pL h l) 0 = false ->
      gt pH h = true /\ gt pL l = true /\ minusDM pH pL h l = Math_max (pL - l) 0)
  /\ (le h pH = true -> ge l pL = true ->
      plusDM pH pL h l = 0 /\ minusDM pH pL h l = 0)
  /\ (gt h pH = true -> lt l pL = true ->
      plusDM pH pL h l = 0 /\ minusDM pH pL h l = 0).
Proof.
  unfold plusDM, minusDM, gt, ge, le, lt, seq.
  repeat split.
  - destruct (pH <? h) eqn:E1; simpl.
    + rewrite (ltb_asym _ _ E1). simpl. right. reflexivity.
    + left. reflexivity.
  - destruct (pH <? h); [reflexivity|]. simpl in H. discriminate.
  - destruct (pH <? h), (pL <? l); simpl in *; try reflexivity; discriminate.
  - destruct (pH <? h), (pL <? l); simpl in *; try reflexivity; discriminate.
  - destruct (h <? pH); [reflexivity|]. simpl in H. discriminate.
  - destruct (h <? pH), (l <? pL); simpl in *; try reflexivity; discriminate.
  - destruct (h <? pH), (l <? pL); simpl in *; try reflexivity; discriminate.
  - rewrite (leb_not_gt _ _ H). reflexivity.
  - rewrite (leb_not_gt _ _ H0). rewrite andb_false_r. reflexivity.
  - rewrite (ltb_asym _ _ H0). rewrite andb_false_r. reflexivity.
  - rewrite (ltb_asym _ _ H). reflexivity.
Qed.

End DirectionalMovement.

Local Open Scope Z_scope.

Lemma inv_create L a : create L = inr a -> 2 <= L /\ inv L 0 a.
Proof.
  unfold create. destruct (L <? 2) eqn:E; [discriminate|].
  intros H. injection H as <-. apply Z.ltb_ge in E.
  split; [exact E|]. constructor; simpl; try lia; try congruence; auto.
Qed.

Ltac adx_fields :=
  unfold remember;
  cbn [fst length dxValues adxValue updateCount prevHigh prevLow prevClose].

Ltac adx_close :=
  constructor; adx_fields; intros;
  repeat match goal with
         | H : ?P -> _, H' : ?P |- _ => specialize (H H')
         | |- _ /\ _ => split
         end;
  try rewrite !length_app in *; cbn [List.length] in *;
  try congruence; try lia.

Lemma inv_update L n a h l c :
  2 <= L -> 0 <= n -> inv L n a -> inv L (n + 1) (fst (update a h l c)).
Proof.
  intros HL Hn [Hlen Hfresh Hprev Hdx Hnull Hready].
  unfold update.
  destruct (prevHigh a) as [pH|] eqn:EH.
  2:{ assert (n = 0) as E0.
      { destruct (Z.eq_dec n 0) as [E|E]; [assumption|].
        destruct Hprev as [F _]; [lia | congruence]. }
      destruct (Hfresh E0) as [_ Huc]. adx_close. }
  assert (Hpos : 0 < n).
  { destruct (Z.eq_dec n 0) as [E|E]; [|lia].
    destruct (Hfresh E) as [F _]. congruence. }
  destruct (Hprev Hpos) as (_ & HpL & HpC & Huc).
  destruct (prevLow a) as [pL|]; [|congruence].
  destruct (prevClose a) as [pC|]; [|congruence].
  cbv zeta.
  destruct (updateCount a + 1 <? length a + 1) eqn:Ewarm.
  { apply Z.ltb_lt in Ewarm. adx_close. }
  apply Z.ltb_ge in Ewarm.
  destruct (directional _ _ _ _ _ _ _ _) as [[atr pdi] mdi].
  destruct (JS.seq _ _).
  { adx_close. }
  unfold absorb_dx.
  destruct (updateCount a + 1 =? length a + 1) eqn:Eseed.
  { apply Z.eqb_eq in Eseed. adx_close. }
  apply Z.eqb_neq in Eseed.
  destruct (length a + 1 <? updateCount a + 1) eqn:Egt.
  2:{ apply Z.ltb_ge in Egt. lia. }
  apply Z.ltb_lt in Egt.
  destruct (adxValue a) as [v|] eqn:Eadx.
  { assert (Some v <> None) as F by congruence. specialize (Hready F). adx_close. }
  specialize (Hnull eq_refl).
  destruct (length a <=? _) eqn:Efull.
  - apply Z.leb_le in Efull. adx_close.
  - apply Z.leb_gt in Efull. adx_close.
Qed.

Lemma inv_feed L bars : forall n a,
  2 <= L -> 0 <= n -> inv L n a ->
  inv L (n + Z.of_nat (List.length bars)) (feed a bars).
Proof.
  induction bars as [|[[h l] c] rest IH]; intros n a HL Hn Hi.
  - simpl. rewrite Z.add_0_r. exact Hi.
  - unfold feed. simpl fold_left.
    replace (n + Z.of_nat (List.length ((h, l, c) :: rest)))
      with ((n + 1) + Z.of_nat (List.length rest))
      by (simpl List.length; lia).
    apply IH; [assumption | lia | apply inv_update; assumption].
Qed.

Lemma feed_app a bars more : feed a (bars ++ more) = feed (feed a bars) more.
Proof. unfold feed. apply fold_left_app. Qed.

Lemma update_keeps_ready a h l c :
  adxValue a <> None -> adxValue (fst (update a h l c)) <> None.
Proof.
  intros Hr. unfold update.
  destruct (prevHigh a), (prevLow a), (prevClose a); try exact Hr.
  cbv zeta.
  destruct (_ <? _); [exact Hr|].
  destruct (directional _ _ _ _ _ _ _ _) as [[atr pdi] mdi].
  destruct (JS.seq _ _); [exact Hr|].
  unfold absorb_dx.
  destruct (_ =? _); [exact Hr|].
  destruct (_ <? _); [|exact Hr].
  destruct (adxValue a); [|congruence].
  cbn. congruence.
Qed.

Lemma feed_keeps_ready more : forall a,
  adxValue a <> None -> adxValue (feed a more) <> None.
Proof.
  induction more as [|[[h l] c] rest IH]; intros a Hr; [exact Hr|].
  unfold feed. simpl fold_left. apply IH. apply update_keeps_ready. exact Hr.
Qed.

Lemma counted_update L n a h l c :
  2 <= L -> 0 <= n -> inv L n a -> counted L a ->
  zero_di_exit a h l c = false ->
  counted L (fst (update a h l c)).
Proof.
  intros HL Hn [Hlen Hfresh Hprev Hdx Hnull Hready] Hc Hz.
  unfold counted in *. revert Hz. unfold update, zero_di_exit.
  destruct (prevHigh a) as [pH|] eqn:EH.
  2:{ intros _. adx_fields. intros E. specialize (Hc E).
      assert (n = 0) as E0.
      { destruct (Z.eq_dec n 0) as [E'|E']; [assumption|].
        destruct Hprev as [F _]; [lia | congruence]. }
      destruct (Hfresh E0) as [_ Huc]. lia. }
  assert (Hpos : 0 < n).
  { destruct (Z.eq_dec n 0) as [E|E]; [|lia].
    destruct (Hfresh E) as [F _]. congruence. }
  destruct (Hprev Hpos) as (_ & HpL & HpC & Huc).
  destruct (prevLow a) as [pL|]; [|congruence].
  destruct (prevClose a) as [pC|]; [|congruence].
  cbv zeta.
  destruct (updateCount a + 1 <? length a + 1) eqn:Ewarm.
  { apply Z.ltb_lt in Ewarm. intros _. adx_fields. intros E.
    specialize (Hc E). lia. }
  apply Z.ltb_ge in Ewarm.
  destruct (directional _ _ _ _ _ _ _ _) as [[atr pdi] mdi].
  intros Hz. rewrite Hz.
  unfold absorb_dx.
  destruct (updateCount a + 1 =? length a + 1) eqn:Eseed.
  { apply Z.eqb_eq in Eseed. adx_fields. intros E. specialize (Hc E).
    rewrite length_app. cbn [List.length]. lia. }
  apply Z.eqb_neq in Eseed.
  destruct (length a + 1 <? updateCount a + 1) eqn:Egt.
  2:{ apply Z.ltb_ge in Egt. lia. }
  apply Z.ltb_lt in Egt.
  destruct (adxValue a) as [v|] eqn:Eadx.
  { adx_fields. congruence. }
  specialize (Hc eq_refl).
  destruct (length a <=? _) eqn:Efull.
  - adx_fields. congruence.
  - adx_fields. intros _. rewrite length_app. cbn [List.length]. lia.
Qed.

Lemma counted_feed L bars : forall n a,
  2 <= L -> 0 <= n -> inv L n a -> counted L a ->
  zero_di_free a bars = true ->
  counted L (feed a bars).
Proof.
  induction bars as [|[[h l] c] rest IH]; intros n a HL Hn Hi Hc Hz.
  - exact Hc.
  - simpl in Hz. apply andb_true_iff in Hz. destruct Hz as [Hz1 Hz2].
    apply negb_true_iff in Hz1.
    unfold feed. simpl fold_left.
    apply (IH (n + 1)); try assumption; try lia.
    + apply inv_update; assumption.
    + apply (counted_update L n); assumption.
Qed.

Lemma null_before L a bars :
  create L = inr a ->
  Z.of_nat (List.length bars) <= 2 * L ->
  value (feed a bars) = None.
Proof.
  intros Hc Hn. destruct (inv_create _ _ Hc) as [HL Hi].
  pose proof (inv_feed L bars 0 a HL (Z.le_refl 0) Hi) as [_ Hfresh Hprev _ _ Hready].
  unfold value. destruct (adxValue (feed a bars)) eqn:E; [|reflexivity].
  exfalso. assert (Some n <> (None : option number)) as F by congruence.
  specialize (Hready F).
  destruct (Z.eq_dec (Z.of_nat (List.length bars)) 0) as [E0|E0].
  - destruct Hfresh as [_ Huc]; lia.
  - destruct Hprev as (_ & _ & _ & Huc); lia.
Qed.

Lemma ready_at L a bars :
  create L = inr a ->
  Z.of_nat (List.length bars) = 2 * L + 1 ->
  zero_di_free a bars = true ->
  value (feed a bars) <> None.
Proof.
  intros Hc Hn Hz. destruct (inv_create _ _ Hc) as [HL Hi].
  assert (counted L a) as Hc0.
  { unfold create in Hc. destruct (L <? 2); [discriminate|].
    injection Hc as <-. intros _. simpl. lia. }
  pose proof (counted_feed L bars 0 a HL (Z.le_refl 0) Hi Hc0 Hz) as Hcnt.
  pose proof (inv_feed L bars 0 a HL (Z.le_refl 0) Hi) as [_ _ Hprev _ Hnull _].
  unfold value. intros E. specialize (Hcnt E). specialize (Hnull E).
  destruct Hprev as (_ & _ & _ & Huc); lia.
Qed.

(** On five rising bars a fresh [ADX(2)] is ready at the fifth call,
    one call before the specification says; on steady bars it is still
    not ready at the sixth call, nor at the sixtieth. *)
Lemma adx2_samples :
  value (feed Samples.adx2 (Samples.risingBars 5)) = Some 100%float
  /\ value (feed Samples.adx2 (Samples.steadyBars 6)) = None
  /\ value (feed Samples.adx2 (Samples.steadyBars 60)) = None.
Proof. repeat split; vm_compute; reflexivity. Qed.

(** C2, as the specification words it, fails for [length = 2]: the value
    is already non-null after 5 = 2*length+1 calls on rising bars. *)
Lemma C2_ready_at_call_2L_plus_1 : ~ AsSpecified.adx_ready_after_2L_plus_2.
Proof.
  intros H.
  destruct (H 2 Samples.adx2 (Samples.risingBars 5) eq_refl) as [Hnull _].
  destruct adx2_samples as (Hv & _).
  rewrite Hnull in Hv; [discriminate|]. vm_compute. discriminate.
Qed.

(** While every call that gets as far as the DI sum leaves through the
    [diSum === 0] return, no DX value is stored and the value stays null. *)
Lemma stays_null bars : forall a,
  adxValue a = None -> zero_di_only a bars = true -> value (feed a bars) = None.
Proof.
  induction bars as [|[[h l] c] rest IH]; intros a Hn Hz; [exact Hn|].
  cbn [zero_di_only] in Hz. apply andb_true_iff in Hz. destruct Hz as [H1 H2].
  cbn [feed fold_left].
  change (value (feed (fst (update a h l c)) rest) = None).
  apply IH; [|exact H2].
  revert H1. unfold reaches_di_sum, zero_di_exit, update.
  destruct (prevHigh a), (prevLow a), (prevClose a); try (intros _; exact Hn).
  destruct (_ <? _)%Z; [intros _; exact Hn|].
  cbn [negb orb].
  destruct (directional _ _ _ _ _ _ _ _) as [[atr pdi] mdi].
  intros ->. exact Hn.
Qed.

(** One more steady bar on an [ADX(2)] that has seen at least three: the
    call reaches the DI sum, finds it zero, and only the counter moves. *)
Lemma steady_step calls :
  3 <= calls ->
  update (Samples.steadyAdx calls) 2%float 1%float 1.5%float
  = (Samples.steadyAdx (calls + 1), None)
  /\ reaches_di_sum (Samples.steadyAdx calls) = true
  /\ zero_di_exit (Samples.steadyAdx calls) 2%float 1%float 1.5%float = true.
Proof.
  intros H.
  unfold update, zero_di_exit, reaches_di_sum, Samples.steadyAdx, directional, remember.
  cbn [prevHigh prevLow prevClose updateCount length trValues plusDMValues minusDMValues
       prevATR prevPlusDI prevMinusDI adxValue dxValues].
  replace (calls - 1 + 1 <? 2 + 1) with false by (symmetry; apply Z.ltb_ge; lia).
  replace (calls + 1 - 1) with (calls - 1 + 1) by lia.
  destruct (calls - 1 + 1 =? 2 + 1); vm_compute; auto.
Qed.

Lemma steady_run n : forall calls,
  3 <= calls ->
  feed (Samples.steadyAdx calls) (Samples.steadyBars n)
  = Samples.steadyAdx (calls + Z.of_nat n)
  /\ zero_di_only (Samples.steadyAdx calls) (Samples.steadyBars n) = true.
Proof.
  induction n as [|n IH]; intros calls H.
  - cbn [Samples.steadyBars repeat feed fold_left zero_di_only Z.of_nat].
    rewrite Z.add_0_r. auto.
  - destruct (steady_step calls H) as (Hu & Hr & Hz).
    destruct (IH (calls + 1) ltac:(lia)) as [Hf Ho].
    unfold Samples.steadyBars in *. cbn [repeat feed fold_left zero_di_only].
    rewrite Hu, Hz. cbn [fst]. split.
    + unfold feed in Hf. rewrite Hf. f_equal. lia.
    + rewrite orb_true_r. exact Ho.
Qed.

(** On steady bars every call of a fresh [ADX(2)] that gets as far as the
    DI sum finds it zero, however long the run. *)
Lemma steady_zero_di_only n :
  zero_di_only Samples.adx2 (Samples.steadyBars n) = true.
Proof.
  destruct n as [|[|[|n]]]; try (vm_compute; reflexivity).
  change (Samples.steadyBars (S (S (S n))))
    with ((2, 1, 1.5)%float :: (2, 1, 1.5)%float :: (2, 1, 1.5)%float
          :: Samples.steadyBars n).
  cbn [zero_di_only].
  replace (fst (update (fst (update (fst (update Samples.adx2 2 1 1.5)) 2 1 1.5)) 2 1 1.5))%float
    with (Samples.steadyAdx 3) by (vm_compute; reflexivity).
  rewrite (proj2 (steady_run n 3 ltac:(lia))).
  vm_compute. reflexivity.
Qed.

(** C2 (amended): for a fresh [ADX(length)], [length >= 2], the value is
    null after each of the first [2*length] calls of [update]; it is
    non-null after call [2*length+1] when none of the calls left through
    the zero-DI-sum return; once non-null it stays non-null.  While every
    call that gets as far as the DI sum leaves through that return, the
    value is null, whatever the number of calls; on a fresh [ADX(2)] fed
    the identical bars (high 2, low 1, close 1.5) this is so for every
    length of the run, so the value stays null for ever. *)
Theorem C2_adx_warmup (L : Z) (a : t) (bars more : list (number * number * number)) :
  create L = inr a ->
  (Z.of_nat (List.length bars) <= 2 * L -> value (feed a bars) = None)
  /\ (Z.of_nat (List.length bars) = 2 * L + 1 -> zero_di_free a bars = true ->
      value (feed a bars) <> None)
  /\ (value (feed a bars) <> None -> value (feed a (bars ++ more)) <> None)
  /\ (zero_di_only a bars = true -> value (feed a bars) = None)
  /\ (L = 2 ->
      forall n, zero_di_only a (Samples.steadyBars n) = true
                /\ value (feed a (Samples.steadyBars n)) = None).
Proof.
  intros Hc.
  assert (Hfresh : adxValue a = None).
  { unfold create in Hc. destruct (L <? 2); [discriminate|].
    injection Hc as <-. reflexivity. }
  split; [|split; [|split; [|split]]].
  - apply null_before. exact Hc.
  - apply ready_at. exact Hc.
  - intros Hr. rewrite feed_app. apply feed_keeps_ready. exact Hr.
  - apply stays_null. exact Hfresh.
  - intros -> n. injection Hc as <-.
    change (mk 2 [] [] [] [] None None None None None None None 0) with Samples.adx2.
    split; [apply steady_zero_di_only|].
    apply stays_null; [reflexivity | apply steady_zero_di_only].
Qed.

Lemma C2_adx_warmup_witness :
  create 2 = inr Samples.adx2
  /\ value (feed Samples.adx2 (Samples.risingBars 4)) = None
  /\ value (feed Samples.adx2 (Samples.risingBars 5)) <> None
  /\ value (feed Samples.adx2 (Samples.risingBars 5 ++ Samples.steadyBars 3)) <> None
  /\ value (feed Samples.adx2 (Samples.steadyBars 7)) = None
  /\ value (feed Samples.adx2 (Samples.steadyBars 1000)) = None.
Proof.
  pose proof (C2_adx_warmup 2 Samples.adx2 (Samples.risingBars 4) [] eq_refl)
    as (Hnull & _).
  pose proof (C2_adx_warmup 2 Samples.adx2 (Samples.risingBars 5)
                (Samples.steadyBars 3) eq_refl) as (_ & Hready & Hstay & _).
  pose proof (C2_adx_warmup 2 Samples.adx2 (Samples.steadyBars 7) [] eq_refl)
    as (_ & _ & _ & Hzero & Hsteady).
  split; [reflexivity|].
  split; [apply Hnull; vm_compute; discriminate|].
  assert (Hr : value (feed Samples.adx2 (Samples.risingBars 5)) <> None)
    by (apply Hready; reflexivity).
  split; [exact Hr|]. split; [exact (Hstay Hr)|].
  split; [apply Hzero; vm_compute; reflexivity|].
  exact (proj2 (Hsteady eq_refl 1000%nat)).
Defined.

End ADXFacts.

(* ===================================================================== *)
(** ** Strategy engines: edge triggering *)
(* ===================================================================== *)

Module EngineFacts.

Import JS.

Section Watermellon.

Import WatermellonEngine.

Lemma bull_excludes_bear r : bullStackOf r = true -> bearStackOf r = false.
Proof.
  unfold bullStackOf, bearStackOf, gt, lt. intros H.
  apply andb_true_iff in H. destruct H as [H _].
  rewrite (ltb_asym _ _ H). reflexivity.
Qed.

Lemma long_excludes_short cfg r : longLookOf cfg r = true -> shortLookOf cfg r = false.
Proof.
  unfold longLookOf, shortLookOf. intros H.
  apply andb_true_iff in H. destruct H as [H _].
  apply andb_true_iff in H. destruct H as [H _].
  rewrite (bull_excludes_bear r H). reflexivity.
Qed.

Lemma short_excludes_long cfg r : shortLookOf cfg r = true -> longLookOf cfg r = false.
Proof.
  intros H. destruct (longLookOf cfg r) eqn:E; [|reflexivity].
  rewrite (long_excludes_short cfg r E) in H. discriminate.
Qed.

Lemma config_update e bar r : config (fst (update e bar r)) = config e.
Proof.
  unfold update. destruct (ADX.update _ _ _ _) as [adx' v].
  destruct (adxBlocks _ _); [reflexivity|].
  destruct (_ && negb (lastLongLook e)); [reflexivity|].
  destruct (_ && negb (lastShortLook e)); reflexivity.
Qed.

(** The first bar of a long look: the signal is returned and the look is remembered. *)
Lemma long_look_rising e bar r :
  looksLong e bar r = true ->
  lastLongLook (fst (update e bar r)) = true
  /\ (lastLongLook e = false ->
      exists s, snd (update e bar r) = Some s /\ type s = Long
                /\ reason s = "long-trigger"%string).
Proof.
  unfold looksLong, update. destruct (ADX.update _ _ _ _) as [adx' v]. cbn [snd].
  intros H. apply andb_true_iff in H. destruct H as [Ha Hl].
  apply negb_true_iff in Ha. rewrite Ha, Hl. cbn [andb].
  split.
  - destruct (negb (lastLongLook e)); [reflexivity|].
    destruct (_ && _); reflexivity.
  - intros ->. cbn [negb fst snd]. eexists. repeat split.
Qed.

(** While the look of the bar before is remembered, no signal of that side. *)
Lemma long_look_standing e bar r :
  lastLongLook e = true -> is_signal_of Long (snd (update e bar r)) = false.
Proof.
  unfold update. destruct (ADX.update _ _ _ _) as [adx' v]. intros H.
  destruct (adxBlocks _ _); [reflexivity|].
  rewrite H. cbn [negb]. rewrite andb_false_r.
  destruct (_ && negb (lastShortLook e)); reflexivity.
Qed.

Lemma short_look_rising e bar r :
  looksShort e bar r = true ->
  lastShortLook (fst (update e bar r)) = true
  /\ (lastShortLook e = false ->
      exists s, snd (update e bar r) = Some s /\ type s = Short
                /\ reason s = "short-trigger"%string).
Proof.
  unfold looksShort, update. destruct (ADX.update _ _ _ _) as [adx' v]. cbn [snd].
  intros H. apply andb_true_iff in H. destruct H as [Ha Hl].
  apply negb_true_iff in Ha. rewrite Ha, Hl.
  rewrite (short_excludes_long _ _ Hl). cbn [andb].
  split.
  - destruct (negb (lastShortLook e)); reflexivity.
  - intros ->. cbn [negb fst snd]. eexists. repeat split.
Qed.

Lemma short_look_standing e bar r :
  lastShortLook e = true -> is_signal_of Short (snd (update e bar r)) = false.
Proof.
  unfold update. destruct (ADX.update _ _ _ _) as [adx' v]. intros H.
  destruct (adxBlocks _ _); [reflexivity|].
  rewrite H. cbn [negb]. rewrite andb_false_r.
  destruct (_ && negb (lastLongLook e)); reflexivity.
Qed.

Lemma run_cons e bar r rest :
  run e ((bar, r) :: rest) = snd (update e bar r) :: run (fst (update e bar r)) rest.
Proof. cbn [run]. destruct (update e bar r). reflexivity. Qed.

Lemma standing_long_run input : forall e,
  lastLongLook e = true ->
  holdsThroughout looksLong e input = true ->
  count_signals Long (run e input) = 0%nat.
Proof.
  induction input as [|[bar r] rest IH]; intros e Hl Hh; [reflexivity|].
  cbn [holdsThroughout] in Hh. apply andb_true_iff in Hh. destruct Hh as [H1 H2].
  rewrite run_cons. unfold count_signals. cbn [filter].
  rewrite (long_look_standing e bar r Hl).
  apply IH; [|exact H2]. apply (long_look_rising e bar r H1).
Qed.

Lemma standing_short_run input : forall e,
  lastShortLook e = true ->
  holdsThroughout looksShort e input = true ->
  count_signals Short (run e input) = 0%nat.
Proof.
  induction input as [|[bar r] rest IH]; intros e Hl Hh; [reflexivity|].
  cbn [holdsThroughout] in Hh. apply andb_true_iff in Hh. destruct Hh as [H1 H2].
  rewrite run_cons. unfold count_signals. cbn [filter].
  rewrite (short_look_standing e bar r Hl).
  apply IH; [|exact H2]. apply (short_look_rising e bar r H1).
Qed.

Lemma fresh_long_run e bar r rest :
  lastLongLook e = false ->
  holdsThroughout looksLong e ((bar, r) :: rest) = true ->
  is_signal_of Long (snd (update e bar r)) = true
  /\ count_signals Long (run e ((bar, r) :: rest)) = 1%nat.
Proof.
  intros Hl Hh.
  cbn [holdsThroughout] in Hh. apply andb_true_iff in Hh. destruct Hh as [H1 H2].
  destruct (long_look_rising e bar r H1) as [Hn Hs].
  destruct (Hs Hl) as (s & Es & Ts & _).
  assert (Hsig : is_signal_of Long (snd (update e bar r)) = true).
  { rewrite Es. cbn [is_signal_of]. rewrite Ts. reflexivity. }
  split; [exact Hsig|].
  rewrite run_cons. unfold count_signals. cbn [filter]. rewrite Hsig.
  cbn [List.length]. f_equal.
  apply (standing_long_run rest _ Hn H2).
Qed.

Lemma fresh_short_run e bar r rest :
  lastShortLook e = false ->
  holdsThroughout looksShort e ((bar, r) :: rest) = true ->
  is_signal_of Short (snd (update e bar r)) = true
  /\ count_signals Short (run e ((bar, r) :: rest)) = 1%nat.
Proof.
  intros Hl Hh.
  cbn [holdsThroughout] in Hh. apply andb_true_iff in Hh. destruct Hh as [H1 H2].
  destruct (short_look_rising e bar r H1) as [Hn Hs].
  destruct (Hs Hl) as (s & Es & Ts & _).
  assert (Hsig : is_signal_of Short (snd (update e bar r)) = true).
  { rewrite Es. cbn [is_signal_of]. rewrite Ts. reflexivity. }
  split; [exact Hsig|].
  rewrite run_cons. unfold count_signals. cbn [filter]. rewrite Hsig.
  cbn [List.length]. f_equal.
  apply (standing_short_run rest _ Hn H2).
Qed.

(** A closed ADX gate: [update] returns [null] and forgets both looks. *)
Lemma gate_closed_forgets e bar r :
  adxBlocks (config e)
    (snd (ADX.update (adx e) (high bar) (low bar) (close bar))) = true ->
  snd (update e bar r) = None
  /\ lastLongLook (fst (update e bar r)) = false
  /\ lastShortLook (fst (update e bar r)) = false.
Proof.
  unfold update.
  destruct (ADX.update (adx e) (high bar) (low bar) (close bar)) as [adx' v].
  cbn [snd]. intros ->. cbn [fst snd lastLongLook lastShortLook]. auto.
Qed.

End Watermellon.

Section PeachTrendBias.

Import PeachHybridEngine.

Lemma runV1_cons e bar r rest :
  runV1 e ((bar, r) :: rest) = snd (v1Step e bar r) :: runV1 (fst (v1Step e bar r)) rest.
Proof. cbn [runV1]. unfold v1Step. destruct (checkV1System _ _ _). reflexivity. Qed.

Lemma v1Step_long e bar r :
  v1LooksLong (config e) r = true ->
  config (fst (v1Step e bar r)) = config e
  /\ (is_signal_of Long (snd (v1Step e bar r)) = true ->
      v1LastLongLook (fst (v1Step e bar r)) = true)
  /\ (v1LastLongLook e = true ->
      v1LastLongLook (fst (v1Step e bar r)) = true
      /\ is_signal_of Long (snd (v1Step e bar r)) = false).
Proof.
  unfold v1LooksLong, v1Step, checkV1System.
  destruct (v1Rsi r) as [rsi|]; [|discriminate].
  change (config (absorb_bar e bar r)) with (config e).
  change (v1LastLongLook (absorb_bar e bar r)) with (v1LastLongLook e).
  change (v1LastShortLook (absorb_bar e bar r)) with (v1LastShortLook e).
  intros Hl. rewrite Hl. cbn [andb].
  destruct (_ <? _)%Z; [cbn [fst snd is_signal_of]; repeat split; auto; discriminate|].
  destruct (negb (priceMoveMet _ _));
    [cbn [fst snd is_signal_of]; repeat split; auto; discriminate|].
  destruct (v1LastLongLook e); cbn [negb].
  - destruct (_ && negb _); cbn [fst snd is_signal_of type with_v1 config v1LastLongLook];
      repeat split; auto.
  - cbn [fst snd is_signal_of type with_v1 config v1LastLongLook].
    repeat split; auto; discriminate.
Qed.

Lemma v1Step_short e bar r :
  v1LooksShort (config e) r = true ->
  config (fst (v1Step e bar r)) = config e
  /\ (is_signal_of Short (snd (v1Step e bar r)) = true ->
      v1LastShortLook (fst (v1Step e bar r)) = true)
  /\ (v1LastShortLook e = true ->
      v1LastShortLook (fst (v1Step e bar r)) = true
      /\ is_signal_of Short (snd (v1Step e bar r)) = false).
Proof.
  unfold v1LooksShort, v1Step, checkV1System.
  destruct (v1Rsi r) as [rsi|]; [|discriminate].
  change (config (absorb_bar e bar r)) with (config e).
  change (v1LastLongLook (absorb_bar e bar r)) with (v1LastLongLook e).
  change (v1LastShortLook (absorb_bar e bar r)) with (v1LastShortLook e).
  intros Hl. rewrite Hl. cbn [andb].
  destruct (_ <? _)%Z; [cbn [fst snd is_signal_of]; repeat split; auto; discriminate|].
  destruct (negb (priceMoveMet _ _));
    [cbn [fst snd is_signal_of]; repeat split; auto; discriminate|].
  destruct (_ && negb (v1LastLongLook e));
    destruct (v1LastShortLook e); cbn [negb];
    cbn [fst snd is_signal_of type with_v1 config v1LastShortLook];
    repeat split; auto; discriminate.
Qed.

Lemma v1_standing_long input : forall e,
  v1LastLongLook e = true ->
  throughout v1LooksLong (config e) input = true ->
  count_signals Long (runV1 e input) = 0%nat.
Proof.
  induction input as [|[bar r] rest IH]; intros e Hl Hh; [reflexivity|].
  unfold throughout in Hh. cbn [forallb snd] in Hh.
  apply andb_true_iff in Hh. destruct Hh as [H1 H2].
  destruct (v1Step_long e bar r H1) as (Hc & _ & Hs). destruct (Hs Hl) as [Hn Hq].
  rewrite runV1_cons. unfold count_signals. cbn [filter]. rewrite Hq.
  apply IH; [exact Hn|]. unfold throughout. rewrite Hc. exact H2.
Qed.

Lemma v1_at_most_one_long input : forall e,
  throughout v1LooksLong (config e) input = true ->
  (count_signals Long (runV1 e input) <= 1)%nat.
Proof.
  induction input as [|[bar r] rest IH]; intros e Hh; [cbn; lia|].
  unfold throughout in Hh. cbn [forallb snd] in Hh.
  apply andb_true_iff in Hh. destruct Hh as [H1 H2].
  destruct (v1Step_long e bar r H1) as (Hc & Hsig & _).
  assert (H2' : throughout v1LooksLong (config (fst (v1Step e bar r))) rest = true)
    by (unfold throughout; rewrite Hc; exact H2).
  rewrite runV1_cons. unfold count_signals. cbn [filter].
  destruct (is_signal_of Long (snd (v1Step e bar r))) eqn:E.
  - cbn [List.length].
    pose proof (v1_standing_long rest _ (Hsig eq_refl) H2') as Hz.
    unfold count_signals in Hz. rewrite Hz. lia.
  - apply IH. exact H2'.
Qed.

Lemma v1_standing_short input : forall e,
  v1LastShortLook e = true ->
  throughout v1LooksShort (config e) input = true ->
  count_signals Short (runV1 e input) = 0%nat.
Proof.
  induction input as [|[bar r] rest IH]; intros e Hl Hh; [reflexivity|].
  unfold throughout in Hh. cbn [forallb snd] in Hh.
  apply andb_true_iff in Hh. destruct Hh as [H1 H2].
  destruct (v1Step_short e bar r H1) as (Hc & _ & Hs). destruct (Hs Hl) as [Hn Hq].
  rewrite runV1_cons. unfold count_signals. cbn [filter]. rewrite Hq.
  apply IH; [exact Hn|]. unfold throughout. rewrite Hc. exact H2.
Qed.

Lemma v1_at_most_one_short input : forall e,
  throughout v1LooksShort (config e) input = true ->
  (count_signals Short (runV1 e input) <= 1)%nat.
Proof.
  induction input as [|[bar r] rest IH]; intros e Hh; [cbn; lia|].
  unfold throughout in Hh. cbn [forallb snd] in Hh.
  apply andb_true_iff in Hh. destruct Hh as [H1 H2].
  destruct (v1Step_short e bar r H1) as (Hc & Hsig & _).
  assert (H2' : throughout v1LooksShort (config (fst (v1Step e bar r))) rest = true)
    by (unfold throughout; rewrite Hc; exact H2).
  rewrite runV1_cons. unfold count_signals. cbn [filter].
  destruct (is_signal_of Short (snd (v1Step e bar r))) eqn:E.
  - cbn [List.length].
    pose proof (v1_standing_short rest _ (Hsig eq_refl) H2') as Hz.
    unfold count_signals in Hz. rewrite Hz. lia.
  - apply IH. exact H2'.
Qed.

Lemma v1_long_excludes_short cfg r :
  v1LooksLong cfg r = true -> v1LooksShort cfg r = false.
Proof.
  unfold v1LooksLong, v1LooksShort, v1LongLookOf, v1ShortLookOf, gt, lt.
  destruct (v1Rsi r) as [rsi|]; [|reflexivity].
  intros H. apply andb_true_iff in H. destruct H as [H _].
  apply andb_true_iff in H. destruct H as [H _].
  apply andb_true_iff in H. destruct H as [H _].
  rewrite (ltb_asym _ _ H). reflexivity.
Qed.

Lemma v1_short_excludes_long cfg r :
  v1LooksShort cfg r = true -> v1LooksLong cfg r = false.
Proof.
  intros H. destruct (v1LooksLong cfg r) eqn:E; [|reflexivity].
  rewrite (v1_long_excludes_short cfg r E) in H. discriminate.
Qed.

Lemma v1Step_withheld e bar r :
  v1Withheld e bar r = true ->
  snd (v1Step e bar r) = None
  /\ config (fst (v1Step e bar r)) = config e
  /\ v1LastLongLook (fst (v1Step e bar r)) = v1LastLongLook e
  /\ v1LastShortLook (fst (v1Step e bar r)) = v1LastShortLook e.
Proof.
  unfold v1Withheld, v1Step, checkV1System.
  destruct (v1Rsi r) as [rsi|]; [|intros _; cbn [fst snd]; auto].
  intros H. apply orb_true_iff in H. destruct H as [H | H].
  - rewrite H. cbn [fst snd]. auto.
  - destruct (_ <? _)%Z; [cbn [fst snd]; auto|].
    rewrite H. cbn [fst snd]. auto.
Qed.

Lemma v1Step_let_through e bar r :
  v1Withheld e bar r = false ->
  (v1LooksLong (config e) r = true -> v1LastLongLook e = false ->
   is_signal_of Long (snd (v1Step e bar r)) = true)
  /\ (v1LooksShort (config e) r = true -> v1LastShortLook e = false ->
      is_signal_of Short (snd (v1Step e bar r)) = true).
Proof.
  unfold v1Withheld. intros H. apply orb_false_iff in H. destruct H as [Hb Hp].
  split.
  - unfold v1LooksLong, v1Step, checkV1System.
    destruct (v1Rsi r) as [rsi|]; [|discriminate].
    change (config (absorb_bar e bar r)) with (config e) in *.
    change (v1LastLongLook (absorb_bar e bar r)) with (v1LastLongLook e).
    intros Hl Hn. rewrite Hb, Hp, Hl, Hn. reflexivity.
  - intros Hs Hn. pose proof (v1_short_excludes_long _ _ Hs) as Hl.
    revert Hs Hl. unfold v1LooksShort, v1LooksLong, v1Step, checkV1System.
    destruct (v1Rsi r) as [rsi|]; [|discriminate].
    change (config (absorb_bar e bar r)) with (config e) in *.
    change (v1LastLongLook (absorb_bar e bar r)) with (v1LastLongLook e).
    change (v1LastShortLook (absorb_bar e bar r)) with (v1LastShortLook e).
    intros Hs Hl. rewrite Hb, Hp, Hl, Hs, Hn. reflexivity.
Qed.

Lemma runV1_app xs : forall e ys,
  runV1 e (xs ++ ys) = (runV1 e xs ++ runV1 (feedV1 e xs) ys)%list.
Proof.
  induction xs as [|[bar r] xs IH]; intros e ys; [reflexivity|].
  rewrite <- app_comm_cons, !runV1_cons, IH. reflexivity.
Qed.

(** While the guards withhold every call, nothing is returned and the
    remembered looks stay as they were. *)
Lemma withheld_run pre : forall e,
  withheldThroughout e pre = true ->
  runV1 e pre = repeat None (List.length pre)
  /\ config (feedV1 e pre) = config e
  /\ v1LastLongLook (feedV1 e pre) = v1LastLongLook e
  /\ v1LastShortLook (feedV1 e pre) = v1LastShortLook e.
Proof.
  induction pre as [|[bar r] pre IH]; intros e H; [cbn; auto|].
  cbn [withheldThroughout] in H. apply andb_true_iff in H. destruct H as [H1 H2].
  destruct (v1Step_withheld e bar r H1) as (Hn & Hc & Hl & Hs).
  destruct (IH _ H2) as (Hr & Hc' & Hl' & Hs').
  rewrite runV1_cons, Hn, Hr.
  change (feedV1 e ((bar, r) :: pre)) with (feedV1 (fst (v1Step e bar r)) pre).
  cbn [List.length repeat]. repeat split; congruence.
Qed.

Lemma throughout_app look cfg xs ys :
  throughout look cfg (xs ++ ys) = throughout look cfg xs && throughout look cfg ys.
Proof. unfold throughout. apply forallb_app. Qed.

Lemma firstn_repeat_app {A} (x : A) n (ys : list A) :
  firstn n (repeat x n ++ ys) = repeat x n.
Proof.
  rewrite firstn_app, repeat_length, Nat.sub_diag, firstn_O, app_nil_r.
  rewrite <- (repeat_length x n) at 1. apply firstn_all.
Qed.

Lemma count_repeat_none d n ys :
  count_signals d (repeat None n ++ ys) = count_signals d ys.
Proof.
  unfold count_signals. induction n as [|n IH]; [reflexivity|].
  cbn [repeat app filter is_signal_of]. exact IH.
Qed.

Lemma v1_first_let_through_long pre e bar r rest :
  throughout v1LooksLong (config e) (pre ++ (bar, r) :: rest) = true ->
  v1LastLongLook e = false ->
  withheldThroughout e pre = true ->
  v1Withheld (feedV1 e pre) bar r = false ->
  let out := runV1 e (pre ++ (bar, r) :: rest) in
  firstn (List.length pre) out = repeat None (List.length pre)
  /\ is_signal_of Long (nth (List.length pre) out None) = true
  /\ count_signals Long out = 1%nat.
Proof.
  intros Hall Hn Hw Hlet.
  rewrite throughout_app in Hall. apply andb_true_iff in Hall.
  destruct Hall as [_ Hall]. unfold throughout in Hall. cbn [forallb snd] in Hall.
  apply andb_true_iff in Hall. destruct Hall as [Hl Hrest].
  destruct (withheld_run pre e Hw) as (Hr & Hc & Hll & _).
  set (e1 := feedV1 e pre) in *.
  assert (Hsig : is_signal_of Long (snd (v1Step e1 bar r)) = true).
  { apply (proj1 (v1Step_let_through e1 bar r Hlet)); [rewrite Hc; exact Hl | congruence]. }
  cbv zeta. rewrite runV1_app, Hr, runV1_cons. fold e1.
  split; [apply firstn_repeat_app|]. split.
  - rewrite app_nth2 by (rewrite repeat_length; lia).
    rewrite repeat_length, Nat.sub_diag. exact Hsig.
  - rewrite count_repeat_none. unfold count_signals. cbn [filter]. rewrite Hsig.
    cbn [List.length]. f_equal.
    destruct (v1Step_long e1 bar r ltac:(rewrite Hc; exact Hl)) as (Hc1 & Hrem & _).
    apply v1_standing_long; [exact (Hrem Hsig)|].
    unfold throughout. rewrite Hc1, Hc. exact Hrest.
Qed.

Lemma v1_first_let_through_short pre e bar r rest :
  throughout v1LooksShort (config e) (pre ++ (bar, r) :: rest) = true ->
  v1LastShortLook e = false ->
  withheldThroughout e pre = true ->
  v1Withheld (feedV1 e pre) bar r = false ->
  let out := runV1 e (pre ++ (bar, r) :: rest) in
  firstn (List.length pre) out = repeat None (List.length pre)
  /\ is_signal_of Short (nth (List.length pre) out None) = true
  /\ count_signals Short out = 1%nat.
Proof.
  intros Hall Hn Hw Hlet.
  rewrite throughout_app in Hall. apply andb_true_iff in Hall.
  destruct Hall as [_ Hall]. unfold throughout in Hall. cbn [forallb snd] in Hall.
  apply andb_true_iff in Hall. destruct Hall as [Hl Hrest].
  destruct (withheld_run pre e Hw) as (Hr & Hc & _ & Hss).
  set (e1 := feedV1 e pre) in *.
  assert (Hsig : is_signal_of Short (snd (v1Step e1 bar r)) = true).
  { apply (proj2 (v1Step_let_through e1 bar r Hlet)); [rewrite Hc; exact Hl | congruence]. }
  cbv zeta. rewrite runV1_app, Hr, runV1_cons. fold e1.
  split; [apply firstn_repeat_app|]. split.
  - rewrite app_nth2 by (rewrite repeat_length; lia).
    rewrite repeat_length, Nat.sub_diag. exact Hsig.
  - rewrite count_repeat_none. unfold count_signals. cbn [filter]. rewrite Hsig.
    cbn [List.length]. f_equal.
    destruct (v1Step_short e1 bar r ltac:(rewrite Hc; exact Hl)) as (Hc1 & Hrem & _).
    apply v1_standing_short; [exact (Hrem Hsig)|].
    unfold throughout. rewrite Hc1, Hc. exact Hrest.
Qed.

End PeachTrendBias.

Lemma turnAround_run :
  map (option_map type) (PeachHybridEngine.run Samples.peachEngine Samples.turnAround)
  = [Some Short; None; Some Long].
Proof. vm_compute. reflexivity. Qed.

Lemma turnAround_looks k bar r :
  (1 <= k <= 2)%nat -> nth_error Samples.turnAround k = Some (bar, r) ->
  PeachHybridEngine.v1LooksLong (PeachHybridEngine.config Samples.peachEngine) r = true.
Proof.
  intros Hk. destruct k as [|[|[|k]]]; try lia;
    cbn [nth_error Samples.turnAround]; intros H; injection H as _ <-;
    vm_compute; reflexivity.
Qed.

(** C4, as stated, fails for the dual-system engine with its documented
    defaults: after a short signal at 100, the long look holds on the bars
    closing at 100.05 and 100.2; the first is withheld because the price
    has moved less than [minMovePercent], and the long signal is returned
    on the second bar of the look. *)
Lemma C4_signal_on_second_bar_of_look : ~ AsSpecified.peach_edge_triggered.
Proof.
  intros H.
  specialize (H Samples.peachEngine Samples.turnAround 1%nat 2%nat).
  assert (Hsig : is_signal_of Long
            (nth 2 (PeachHybridEngine.run Samples.peachEngine Samples.turnAround) None)
          = false).
  { apply H; [lia | cbn; lia | exact turnAround_looks]. }
  vm_compute in Hsig. discriminate.
Qed.

(** C4 (amended): edge triggering as the engines implement it.
    Trend-following engine: when the look of the previous bar is not
    remembered and the look (ADX gate open, stack and RSI) holds on every
    bar of a run, [update] returns the signal on the first bar and exactly
    one signal of that side over the run; when the look is already
    remembered it returns none; a bar on which the ADX gate is closed
    returns [null] and forgets both looks.  Trend-bias sub-system of the
    dual-system engine: while the look holds on every bar of a run,
    [checkV1System] returns at most one signal of that side, and none when
    the look is already remembered; a call that a guard (bar spacing,
    price move) withholds returns [null] and leaves the remembered looks
    as they are; so when the look is not remembered and holds on every
    bar, the signal is returned on the first bar whose call the guards let
    through, none before it and exactly one over the run. *)
Theorem C4_edge_triggering :
  (forall e bar r rest,
     WatermellonEngine.lastLongLook e = false ->
     WatermellonEngine.holdsThroughout WatermellonEngine.looksLong e ((bar, r) :: rest) = true ->
     is_signal_of Long (snd (WatermellonEngine.update e bar r)) = true
     /\ count_signals Long (WatermellonEngine.run e ((bar, r) :: rest)) = 1%nat)
  /\ (forall e bar r rest,
     WatermellonEngine.lastShortLook e = false ->
     WatermellonEngine.holdsThroughout WatermellonEngine.looksShort e ((bar, r) :: rest) = true ->
     is_signal_of Short (snd (WatermellonEngine.update e bar r)) = true
     /\ count_signals Short (WatermellonEngine.run e ((bar, r) :: rest)) = 1%nat)
  /\ (forall e input,
     WatermellonEngine.lastLongLook e = true ->
     WatermellonEngine.holdsThroughout WatermellonEngine.looksLong e input = true ->
     count_signals Long (WatermellonEngine.run e input) = 0%nat)
  /\ (forall e input,
     WatermellonEngine.lastShortLook e = true ->
     WatermellonEngine.holdsThroughout WatermellonEngine.looksShort e input = true ->
     count_signals Short (WatermellonEngine.run e input) = 0%nat)
  /\ (forall e input,
     PeachHybridEngine.throughout PeachHybridEngine.v1LooksLong
       (PeachHybridEngine.config e) input = true ->
     (count_signals Long (PeachHybridEngine.runV1 e input) <= 1)%nat
     /\ (PeachHybridEngine.v1LastLongLook e = true ->
         count_signals Long (PeachHybridEngine.runV1 e input) = 0%nat))
  /\ (forall e input,
     PeachHybridEngine.throughout PeachHybridEngine.v1LooksShort
       (PeachHybridEngine.config e) input = true ->
     (count_signals Short (PeachHybridEngine.runV1 e input) <= 1)%nat
     /\ (PeachHybridEngine.v1LastShortLook e = true ->
         count_signals Short (PeachHybridEngine.runV1 e input) = 0%nat))
  /\ (forall e bar r,
     WatermellonEngine.adxBlocks (WatermellonEngine.config e)
       (snd (ADX.update (WatermellonEngine.adx e) (high bar) (low bar) (close bar)))
     = true ->
     snd (WatermellonEngine.update e bar r) = None
     /\ WatermellonEngine.lastLongLook (fst (WatermellonEngine.update e bar r)) = false
     /\ WatermellonEngine.lastShortLook (fst (WatermellonEngine.update e bar r)) = false)
  /\ (forall e bar r,
     PeachHybridEngine.v1Withheld e bar r = true ->
     snd (PeachHybridEngine.v1Step e bar r) = None
     /\ PeachHybridEngine.v1LastLongLook (fst (PeachHybridEngine.v1Step e bar r))
        = PeachHybridEngine.v1LastLongLook e
     /\ PeachHybridEngine.v1LastShortLook (fst (PeachHybridEngine.v1Step e bar r))
        = PeachHybridEngine.v1LastShortLook e)
  /\ (forall pre e bar r rest,
     PeachHybridEngine.throughout PeachHybridEngine.v1LooksLong
       (PeachHybridEngine.config e) (pre ++ (bar, r) :: rest) = true ->
     PeachHybridEngine.v1LastLongLook e = false ->
     PeachHybridEngine.withheldThroughout e pre = true ->
     PeachHybridEngine.v1Withheld (PeachHybridEngine.feedV1 e pre) bar r = false ->
     let out := PeachHybridEngine.runV1 e (pre ++ (bar, r) :: rest) in
     firstn (List.length pre) out = repeat None (List.length pre)
     /\ is_signal_of Long (nth (List.length pre) out None) = true
     /\ count_signals Long out = 1%nat)
  /\ (forall pre e bar r rest,
     PeachHybridEngine.throughout PeachHybridEngine.v1LooksShort
       (PeachHybridEngine.config e) (pre ++ (bar, r) :: rest) = true ->
     PeachHybridEngine.v1LastShortLook e = false ->
     PeachHybridEngine.withheldThroughout e pre = true ->
     PeachHybridEngine.v1Withheld (PeachHybridEngine.feedV1 e pre) bar r = false ->
     let out := PeachHybridEngine.runV1 e (pre ++ (bar, r) :: rest) in
     firstn (List.length pre) out = repeat None (List.length pre)
     /\ is_signal_of Short (nth (List.length pre) out None) = true
     /\ count_signals Short out = 1%nat).
Proof.
  repeat apply conj.
  - intros e bar r rest. apply fresh_long_run.
  - intros e bar r rest. apply fresh_short_run.
  - intros e input. apply standing_long_run.
  - intros e input. apply standing_short_run.
  - intros e input H. split.
    + apply v1_at_most_one_long. exact H.
    + intros Hl. apply v1_standing_long; assumption.
  - intros e input H. split.
    + apply v1_at_most_one_short. exact H.
    + intros Hl. apply v1_standing_short; assumption.
  - intros e bar r. apply gate_closed_forgets.
  - intros e bar r H.
    destruct (v1Step_withheld e bar r H) as (Hn & _ & Hl & Hs). auto.
  - intros pre e bar r rest. apply v1_first_let_through_long.
  - intros pre e bar r rest. apply v1_first_let_through_short.
Qed.

(** Ten rising bars with a constant bullish stack, fed to a trend-following
    engine whose ADX(2) is warm: exactly one long signal.  The two bullish
    bars of [turnAround] give at most one long signal; met after the short
    signal of the first bar, the first of them is withheld by the
    price-move guard and the second returns the signal. *)
Lemma C4_edge_triggering_witness :
  count_signals Long
    (WatermellonEngine.run Samples.warmMelonEngine (Samples.melonBars 4 10)) = 1%nat
  /\ (count_signals Long
        (PeachHybridEngine.runV1 Samples.peachEngine (tl Samples.turnAround)) <= 1)%nat
  /\ (let out :=
        PeachHybridEngine.runV1
          (PeachHybridEngine.feedV1 Samples.peachEngine (firstn 1 Samples.turnAround))
          (tl Samples.turnAround) in
      firstn 1 out = [None] /\ is_signal_of Long (nth 1 out None) = true).
Proof.
  destruct C4_edge_triggering as (Hlong & _ & _ & _ & Hpeach & _ & _ & _ & Hfirst & _).
  split; [|split].
  - pose (l := Samples.melonBars 4 10).
    pose (d := (mkBar 0 0 0%float 0%float 0%float 0%float 0%float,
                Samples.melonReadings)).
    assert (Hfresh : WatermellonEngine.lastLongLook Samples.warmMelonEngine = false)
      by (vm_compute; reflexivity).
    assert (Hlook : WatermellonEngine.holdsThroughout WatermellonEngine.looksLong
                      Samples.warmMelonEngine
                      ((fst (hd d l), snd (hd d l)) :: tl l) = true)
      by (vm_compute; reflexivity).
    exact (proj2 (Hlong Samples.warmMelonEngine _ _ _ Hfresh Hlook)).
  - assert (Hlook : PeachHybridEngine.throughout PeachHybridEngine.v1LooksLong
                      (PeachHybridEngine.config Samples.peachEngine)
                      (tl Samples.turnAround) = true)
      by (vm_compute; reflexivity).
    exact (proj1 (Hpeach Samples.peachEngine _ Hlook)).
  - pose (e1 := PeachHybridEngine.feedV1 Samples.peachEngine (firstn 1 Samples.turnAround)).
    pose (b1 := (mkBar 30000 60000 100.05 100.05 100.05 100.05 1)%float).
    pose (b2 := (mkBar 60000 90000 100.2 100.2 100.2 100.2 1)%float).
    assert (Hall : PeachHybridEngine.throughout PeachHybridEngine.v1LooksLong
                     (PeachHybridEngine.config e1)
                     ([(b1, Samples.bullishReadings)]
                      ++ (b2, Samples.bullishReadings) :: []) = true)
      by (vm_compute; reflexivity).
    assert (Hnew : PeachHybridEngine.v1LastLongLook e1 = false)
      by (vm_compute; reflexivity).
    assert (Hheld : PeachHybridEngine.withheldThroughout e1
                      [(b1, Samples.bullishReadings)] = true)
      by (vm_compute; reflexivity).
    assert (Hlet : PeachHybridEngine.v1Withheld
                     (PeachHybridEngine.feedV1 e1 [(b1, Samples.bullishReadings)])
                     b2 Samples.bullishReadings = false)
      by (vm_compute; reflexivity).
    destruct (Hfirst _ e1 b2 Samples.bullishReadings [] Hall Hnew Hheld Hlet)
      as (Hnone & Hsig & _).
    split; [exact Hnone | exact Hsig].
Defined.

End EngineFacts.

(* ===================================================================== *)
(** ** PositionStateManager: reconciliation *)
(* ===================================================================== *)

Module PSMFacts.

Import JS.
Import PositionStateManager.
Local Open Scope float_scope.

Lemma updateFromRest_true m rest now :
  snd (updateFromRest m rest now) = true ->
  updateFromRest m rest now = (adopt m (normalize rest) now, true).
Proof.
  unfold updateFromRest.
  destruct (reconcile _ _); [reflexivity|].
  destruct (_ && _); [reflexivity|].
  destruct (_ && _); [reflexivity|].
  simpl. discriminate.
Qed.

Lemma updateFromRest_false m rest now :
  snd (updateFromRest m rest now) = false ->
  updateFromRest m rest now = (mk (state m) (reconciliationFailures m + 1)%Z, false)
  /\ reconcile (normalize rest) (local_view m) = false
  /\ (n_side (normalize rest) = flat <-> side (state m) = flat).
Proof.
  unfold updateFromRest. fold (local_view m).
  destruct (reconcile _ _) eqn:Er; [simpl; discriminate|].
  cbn [n_side local_view].
  destruct (n_side (normalize rest)), (side (state m)); simpl;
    intros H; try discriminate; repeat split; intros; congruence.
Qed.

Lemma stale_adopted m rest now :
  (n_side (normalize rest) = flat /\ side (state m) <> flat)
  \/ (n_side (normalize rest) <> flat /\ side (state m) = flat) ->
  updateFromRest m rest now = (adopt m (normalize rest) now, true).
Proof.
  intros H. apply updateFromRest_true. unfold updateFromRest.
  destruct (reconcile _ _); [reflexivity|].
  cbn [n_side].
  destruct H as [[H1 H2] | [H1 H2]].
  - rewrite H1. destruct (side (state m)); simpl; congruence.
  - rewrite H2. destruct (n_side (normalize rest)); simpl; congruence.
Qed.




Lemma genuine_mismatch_fails m rest now :
  genuine_mismatch m rest ->
  updateFromRest m rest now = (mk (state m) (reconciliationFailures m + 1)%Z, false).
Proof.
  intros (H1 & H2 & H3).
  apply updateFromRest_false.
  unfold updateFromRest, reconcile. cbn [n_side].
  destruct (n_side (normalize rest)), (side (state m)); try congruence;
    cbn [PositionSide_eqb andb negb]; rewrite ?andb_false_r; reflexivity.
Qed.


(** Two views that both hold a position and do not reconcile: the report
    is counted as a failure and the local state is kept. *)
Lemma position_mismatch_fails m rest now :
  position_mismatch m rest ->
  updateFromRest m rest now = (mk (state m) (reconciliationFailures m + 1)%Z, false).
Proof.
  intros (H1 & H2 & H3).
  apply updateFromRest_false.
  apply side_eqb_neq in H1, H2.
  unfold updateFromRest, reconcile. cbn [n_side n_size n_avgEntry].
  rewrite H1, H2. cbn [andb negb].
  assert (Hrec :
    lt (Math_abs (n_size (normalize rest) - size (state m))) 0.0001
    && PositionSide_eqb (n_side (normalize rest)) (side (state m))
    && (seq (n_avgEntry (normalize rest)) 0
        || lt (Math_abs (n_avgEntry (normalize rest) - avgEntry (state m))
               / n_avgEntry (normalize rest)) 0.01) = false).
  { destruct H3 as [H3 | [H3 | [H3 H4]]].
    - apply side_eqb_neq in H3. rewrite H3, andb_false_r. reflexivity.
    - rewrite H3. reflexivity.
    - rewrite H3, H4. cbn [orb]. apply andb_false_r. }
  rewrite Hrec. reflexivity.
Qed.

(** A report whose amount does not parse reads as flat and is counted as
    a failure by a fresh manager; adopted by a manager that holds a
    position, it leaves a flat local view of size [NaN], against which the
    well-formed flat reports that follow are counted as failures too. *)
Lemma flat_failures_samples :
  n_side (normalize Samples.garbledReport) = flat
  /\ updateFromRest (create 0) Samples.garbledReport 7
     = (mk (state (create 0)) 1, false)
  /\ side (state Samples.stuckFlat) = flat
  /\ size (state Samples.stuckFlat) = nan
  /\ n_side (normalize Samples.flatReport) = flat
  /\ reconciliationFailures
       (refresh Samples.stuckFlat [(Samples.flatReport, 8%Z); (Samples.flatReport, 9%Z)])
     = 2%Z
  /\ shouldFreezeTrading
       (refresh Samples.stuckFlat [(Samples.flatReport, 8%Z); (Samples.flatReport, 9%Z)])
     = true.
Proof. repeat apply conj; vm_compute; reflexivity. Qed.

(** C6: when the authoritative report is flat while the local view is
    not, or holds a position while the local view is flat,
    [updateFromRest] returns true, resets the failure counter and
    overwrites the local state with the authoritative values. *)
Theorem C6_stale_local_view_is_adopted (m : t) (rest : RestState) (now : Z) :
  (n_side (normalize rest) = flat /\ side (state m) <> flat)
  \/ (n_side (normalize rest) <> flat /\ side (state m) = flat) ->
  snd (updateFromRest m rest now) = true
  /\ reconciliationFailures (fst (updateFromRest m rest now)) = 0%Z
  /\ size (state (fst (updateFromRest m rest now))) = Math_abs (positionAmt rest)
  /\ side (state (fst (updateFromRest m rest now)))
     = (if gt (positionAmt rest) 0 then long
        else if lt (positionAmt rest) 0 then short else flat)
  /\ avgEntry (state (fst (updateFromRest m rest now)))
     = or_default (Some (entryPrice rest)) 0
  /\ unrealizedPnl (state (fst (updateFromRest m rest now)))
     = or_default (Some (unrealizedProfit rest)) 0
  /\ lastUpdate (state (fst (updateFromRest m rest now))) = now.
Proof.
  intros H. rewrite (stale_adopted m rest now H).
  repeat split; reflexivity.
Qed.

(** A local long position meets a flat authoritative report: adopted. *)
Lemma C6_stale_local_view_is_adopted_witness :
  (n_side (normalize Samples.flatReport) = flat /\ side (state Samples.heldLong) <> flat)
  /\ snd (updateFromRest Samples.heldLong Samples.flatReport 9%Z) = true
  /\ reconciliationFailures (fst (updateFromRest Samples.heldLong Samples.flatReport 9%Z)) = 0%Z
  /\ side (state (fst (updateFromRest Samples.heldLong Samples.flatReport 9%Z))) = flat.
Proof.
  assert (H : n_side (normalize Samples.flatReport) = flat
              /\ side (state Samples.heldLong) <> flat)
    by (split; [vm_compute; reflexivity | vm_compute; discriminate]).
  split; [exact H|].
  destruct (C6_stale_local_view_is_adopted Samples.heldLong Samples.flatReport 9%Z
              (or_introl H)) as (Hok & Hzero & _ & Hside & _).
  split; [exact Hok|]. split; [exact Hzero|].
  rewrite Hside. vm_compute. reflexivity.
Defined.

End PSMFacts.

(* ===================================================================== *)
(** ** BotRunner: admission, exits and freezing *)
(* ===================================================================== *)

Module RunnerFacts.

Import JS.
Import BotRunner.
Local Open Scope Z_scope.

Lemma entry_orders_app xs ys :
  entry_orders (xs ++ ys) = (entry_orders xs ++ entry_orders ys)%list.
Proof.
  induction xs as [|x xs IH]; [reflexivity|].
  destruct x; simpl; rewrite IH; reflexivity.
Qed.

Lemma quiet_refl r : quiet r r.
Proof. constructor; reflexivity. Qed.

Lemma quiet_trans r1 r2 r3 : quiet r1 r2 -> quiet r2 r3 -> quiet r1 r3.
Proof. intros [] []; constructor; congruence. Qed.

Ltac unfold_m :=
  unfold after, result, log, logSignal, recordFlip;
  unfold emit; unfold bind, get, modify, ret, throw;
  cbn [fst snd].

(** Reading a field of an updated runner, and the observers of a trace,
    without touching the arithmetic inside. *)
Ltac rsimpl :=
  cbn [fst snd config isPeachHybrid stateManager position flipHistory
       lastPositionEntryTime tradingFrozen freezeUntil lastBar highestPrice
       lowestPrice consecutiveLosses lastLossTime lastPositionCloseTime
       usdtBalance timers events
       set_stateManager set_position set_flipHistory set_lastPositionEntryTime
       set_tradingFrozen set_freezeUntil set_lastBar set_highestPrice
       set_lowestPrice set_consecutiveLosses set_lastLossTime
       set_lastPositionCloseTime set_usdtBalance set_timers set_events
       entry_orders skip_reasons close_reasons
       app negb side size entryPrice openedAt].

Ltac quiet_done :=
  constructor; rsimpl; rewrite ?entry_orders_app; rsimpl; rewrite ?app_nil_r; reflexivity.

Lemma closePosition_quiet env reason meta r :
  quiet r (after (closePosition env reason meta) r).
Proof.
  unfold closePosition. unfold_m.
  destruct (PositionSide_eqb _ _); [apply quiet_refl|].
  destruct (closeResult env) as [|err].
  - destruct (isPeachHybrid r) eqn:Ep; destruct (lt _ _); quiet_done.
  - destruct (isReduceOnlyRejection err); quiet_done.
Qed.

Lemma lossCooldown_quiet env sg r : quiet r (after (lossCooldown env sg) r).
Proof.
  unfold lossCooldown. unfold_m.
  destruct (_ <=? _); [|apply quiet_refl].
  destruct (_ <? _); quiet_done.
Qed.

Lemma peachGate_quiet env sg bar r : quiet r (after (peachGate env sg bar) r).
Proof.
  unfold peachGate. unfold_m.
  destruct (isPeachHybrid r) eqn:Ep; cbn [negb]; [|apply quiet_refl].
  destruct (view_adx (view env)); [|quiet_done].
  destruct (shouldAllowTrading _ _); cbn [negb]; [|quiet_done].
  destruct (view_atr (view env)) as [atr|].
  - destruct (truthy atr && gt atr _)%bool.
    + destruct (lt _ _); [quiet_done|].
      cbn [fst snd].
      destruct (view_v2Rsi (view env)) as [v|]; [|quiet_done].
      destruct (rsiTooExtreme _ _); quiet_done.
    + cbn [fst snd].
      destruct (view_v2Rsi (view env)) as [v|]; [|quiet_done].
      destruct (rsiTooExtreme _ _); quiet_done.
  - cbn [fst snd].
    destruct (view_v2Rsi (view env)) as [v|]; [|quiet_done].
    destruct (rsiTooExtreme _ _); quiet_done.
Qed.

(** [enterPosition] hands at most one order to the executor: the one it was given. *)
Lemma enterPosition_orders env d o r :
  let r' := after (enterPosition env d o) r in
  config r' = config r
  /\ (entry_orders (events r') = entry_orders (events r)
      \/ entry_orders (events r') = (entry_orders (events r) ++ [o])%list).
Proof.
  unfold enterPosition. unfold_m.
  destruct (lt _ _).
  { rsimpl. rewrite !entry_orders_app. rsimpl. rewrite !app_nil_r. auto. }
  destruct (enterResult env) as [|err].
  - destruct (isPeachHybrid r), d; rsimpl; rewrite !entry_orders_app; rsimpl;
      rewrite ?app_nil_r; auto.
  - destruct (isBalanceRejection err), d; rsimpl; rewrite !entry_orders_app; rsimpl;
      rewrite ?app_nil_r; auto.
Qed.

Lemma after_eq {A} (m : M A) r c r' : m r = (c, r') -> after m r = r'.
Proof. unfold after. intros ->. reflexivity. Qed.

(** [place] hands at most one order to the executor: [orderFor]. *)
Lemma place_orders env sg bar r :
  let r' := after (place env sg bar) r in
  config r' = config r
  /\ (entry_orders (events r') = entry_orders (events r)
      \/ entry_orders (events r')
         = (entry_orders (events r) ++ [orderFor r sg bar])%list).
Proof.
  unfold place, canFlip. unfold_m.
  destruct (PositionSide_eqb _ (sideOf _)); [rsimpl; auto|].
  destruct (_ && _)%bool.
  { rsimpl. rewrite !entry_orders_app. rsimpl. rewrite !app_nil_r. auto. }
  destruct (_ <=? _); cbn [negb].
  { rsimpl. rewrite !entry_orders_app. rsimpl. rewrite !app_nil_r. auto. }
  destruct (_ && _)%bool.
  { rsimpl. rewrite !entry_orders_app. rsimpl. rewrite !app_nil_r. auto. }
  set (rc := set_flipHistory _ r).
  assert (Hc : config rc = config r) by reflexivity.
  assert (He : entry_orders (events rc) = entry_orders (events r)) by reflexivity.
  set (why := match type sg with Long => _ | Short => _ end).
  set (meta := Some _).
  destruct (PositionSide_eqb _ (opposite _)).
  - destruct (closePosition env why meta rc) as [[u|e] r1] eqn:E1.
    + pose proof (closePosition_quiet env why meta rc) as Hq.
      rewrite (after_eq _ _ _ _ E1) in Hq. destruct Hq as [Hqc _ _ _ Hqo].
      destruct (enterPosition env (type sg) (orderFor r sg bar) r1) as [[u2|e2] r2] eqn:E2;
        pose proof (enterPosition_orders env (type sg) (orderFor r sg bar) r1) as Ho;
        cbv zeta in Ho; rewrite (after_eq _ _ _ _ E2) in Ho;
        destruct Ho as [Hoc Hoo]; cbn [snd fst];
        (split; [congruence|]);
        (destruct Hoo as [Hoo|Hoo]; [left|right]; congruence).
    + pose proof (closePosition_quiet env why meta rc) as Hq.
      rewrite (after_eq _ _ _ _ E1) in Hq. destruct Hq as [Hqc _ _ _ Hqo].
      cbn [snd]. split; [congruence|left; congruence].
  - cbn [fst snd].
    destruct (enterPosition env (type sg) (orderFor r sg bar) rc) as [[u2|e2] r2] eqn:E2;
      pose proof (enterPosition_orders env (type sg) (orderFor r sg bar) rc) as Ho;
      cbv zeta in Ho; rewrite (after_eq _ _ _ _ E2) in Ho;
      destruct Ho as [Hoc Hoo]; cbn [snd fst];
      (split; [congruence|]);
      (destruct Hoo as [Hoo|Hoo]; [left|right]; congruence).
Qed.

Lemma skip_reasons_app xs ys :
  skip_reasons (xs ++ ys) = (skip_reasons xs ++ skip_reasons ys)%list.
Proof.
  induction xs as [|x xs IH]; [reflexivity|].
  destruct x as [| ? [] [] | | | | |]; simpl; rewrite ?IH; reflexivity.
Qed.

Lemma lossCooldown_pass env sg r :
  result (lossCooldown env sg) r = Normal false ->
  skip_reasons (events (after (lossCooldown env sg) r)) = skip_reasons (events r)
  /\ position (after (lossCooldown env sg) r) = position r.
Proof.
  unfold lossCooldown. unfold_m.
  destruct (_ <=? _); [|auto].
  destruct (_ <? _); rsimpl; [discriminate|].
  intros _. rewrite skip_reasons_app. rsimpl. rewrite app_nil_r. auto.
Qed.

Lemma peachGate_pass env sg bar r :
  result (peachGate env sg bar) r = Normal false ->
  skip_reasons (events (after (peachGate env sg bar) r)) = skip_reasons (events r)
  /\ position (after (peachGate env sg bar) r) = position r.
Proof.
  unfold peachGate. unfold_m.
  destruct (isPeachHybrid r); cbn [negb]; [|auto].
  destruct (view_adx (view env)); [|rsimpl; discriminate].
  destruct (shouldAllowTrading _ _); cbn [negb]; [|rsimpl; discriminate].
  destruct (view_atr (view env)) as [atr|];
    [destruct (truthy atr && gt atr _)%bool; [destruct (lt _ _); [rsimpl; discriminate|]|]|];
    cbn [fst snd];
    (destruct (view_v2Rsi (view env)) as [v|];
     [destruct (rsiTooExtreme _ _); [rsimpl; discriminate|]|]);
    rsimpl; rewrite ?skip_reasons_app; rsimpl; rewrite ?app_nil_r; auto.
Qed.

Lemma closePosition_resolved env reason meta r :
  closeResult env = Resolved ->
  result (closePosition env reason meta) r = Normal tt
  /\ skip_reasons (events (after (closePosition env reason meta) r))
     = skip_reasons (events r).
Proof.
  intros Hr. unfold closePosition. unfold_m. rewrite Hr.
  destruct (PositionSide_eqb _ _); [auto|].
  destruct (isPeachHybrid r); destruct (lt _ _); rsimpl;
    rewrite ?skip_reasons_app; rsimpl; rewrite ?app_nil_r; auto.
Qed.

Lemma enterPosition_resolved env d o r :
  enterResult env = Resolved ->
  lt (usdtBalance r) (order_size o / leverage o)%float = false ->
  let r' := after (enterPosition env d o) r in
  result (enterPosition env d o) r = Normal tt
  /\ flipHistory r' = (flipHistory r ++ [timestamp o])%list
  /\ entry_orders (events r') = (entry_orders (events r) ++ [o])%list
  /\ skip_reasons (events r') = skip_reasons (events r)
  /\ position r'
     = mkPosition (sideOf d) (order_size o) (Some (price o)) (Some (timestamp o))
  /\ config r' = config r.
Proof.
  intros Hr Hb. unfold enterPosition. unfold_m. rewrite Hb, Hr.
  destruct (isPeachHybrid r), d; rsimpl;
    rewrite ?skip_reasons_app, ?entry_orders_app; rsimpl; rewrite ?app_nil_r;
    repeat split; reflexivity.
Qed.


Lemma place_applied env sg bar r :
  PositionSide_eqb (side (position r)) (sideOf (type sg)) = false ->
  ((0 <? lastPositionCloseTime r)
   && (endTime bar - lastPositionCloseTime r <? 2 * timeframeMs (config r)))%bool
  = false ->
  (PositionSide_eqb (side (position r)) (opposite (type sg))
   && (endTime bar - lastPositionEntryTime r <? minHoldTimeMs))%bool = false ->
  closeResult env = Resolved ->
  enterResult env = Resolved ->
  lt (usdtBalance r)
     (order_size (orderFor r sg bar) / leverage (orderFor r sg bar))%float = false ->
  flipsInWindow (endTime bar) r < maxFlipsPerHour (risk (config r)) ->
  let r' := after (place env sg bar) r in
  result (place env sg bar) r = Normal true
  /\ flipHistory r' = (inWindow (endTime bar) (flipHistory r) ++ [endTime bar])%list
  /\ entry_orders (events r')
     = (entry_orders (events r) ++ [orderFor r sg bar])%list
  /\ skip_reasons (events r') = skip_reasons (events r)
  /\ config r' = config r
  /\ side (position r') = sideOf (type sg).
Proof.
  intros Hsame Hcool Hhold Hclose Henter Hbal Hbudget.
  unfold flipsInWindow, inWindow in Hbudget. unfold inWindow. apply Z.leb_gt in Hbudget.
  unfold place, canFlip. unfold_m.
  rewrite Hsame, Hcool, Hbudget. cbn [negb]. rewrite Hhold.
  set (rc := set_flipHistory _ r).
  set (o := orderFor r sg bar) in *.
  assert (Hb : lt (usdtBalance rc) (order_size o / leverage o)%float = false) by exact Hbal.
  assert (Hrf : flipHistory rc
                = filter (fun t => endTime bar - HOUR_MS <=? t) (flipHistory r))
    by reflexivity.
  assert (Hre : events rc = events r) by reflexivity.
  assert (Hrc : config rc = config r) by reflexivity.
  assert (Hto : timestamp o = endTime bar) by reflexivity.
  set (why := match type sg with Long => _ | Short => _ end).
  set (meta := Some _).
  destruct (PositionSide_eqb _ (opposite _)).
  - destruct (closePosition env why meta rc) as [c r1] eqn:E1.
    pose proof (closePosition_resolved env why meta rc Hclose) as [Hres Hsk].
    pose proof (closePosition_quiet env why meta rc) as [Hqc _ Hqb Hqf Hqo].
    unfold result in Hres. rewrite (after_eq _ _ _ _ E1) in *.
    rewrite E1 in Hres. cbn [fst] in Hres. subst c.
    rewrite <- Hqb in Hb.
    pose proof (enterPosition_resolved env (type sg) o r1 Henter Hb) as He.
    cbv zeta in He. unfold result, after in He.
    destruct (enterPosition env (type sg) o r1) as [c2 r2].
    cbn [fst snd] in *. destruct He as (-> & Hf & Ho & Hs & Hp & Hc).
    cbn [fst snd]. rewrite Hp. repeat split; try congruence.
  - cbn [fst snd].
    pose proof (enterPosition_resolved env (type sg) o rc Henter Hb) as He.
    cbv zeta in He. unfold result, after in He.
    destruct (enterPosition env (type sg) o rc) as [c2 r2].
    cbn [fst snd] in *. destruct He as (-> & Hf & Ho & Hs & Hp & Hc).
    cbn [fst snd]. rewrite Hp. repeat split; try congruence.
Qed.

Lemma place_refused env sg bar r :
  PositionSide_eqb (side (position r)) (sideOf (type sg)) = false ->
  ((0 <? lastPositionCloseTime r)
   && (endTime bar - lastPositionCloseTime r <? 2 * timeframeMs (config r)))%bool
  = false ->
  maxFlipsPerHour (risk (config r)) <= flipsInWindow (endTime bar) r ->
  let r' := after (place env sg bar) r in
  result (place env sg bar) r = Normal false
  /\ flipHistory r' = inWindow (endTime bar) (flipHistory r)
  /\ entry_orders (events r') = entry_orders (events r)
  /\ skip_reasons (events r') = (skip_reasons (events r) ++ [FlipBudgetExhausted])%list
  /\ config r' = config r
  /\ position r' = position r.
Proof.
  intros Hsame Hcool Hbudget.
  unfold flipsInWindow, inWindow in Hbudget. unfold inWindow. apply Z.leb_le in Hbudget.
  unfold place, canFlip. unfold_m.
  rewrite Hsame, Hcool, Hbudget. rsimpl.
  rewrite !skip_reasons_app, !entry_orders_app. rsimpl. rewrite !app_nil_r.
  destruct (type sg); rsimpl; repeat split; reflexivity.
Qed.

(** Without budget, [place] submits nothing, whatever the other checks say. *)
Lemma place_exhausted env sg bar r :
  maxFlipsPerHour (risk (config r)) <= flipsInWindow (endTime bar) r ->
  entry_orders (events (after (place env sg bar) r)) = entry_orders (events r).
Proof.
  intros Hbudget.
  unfold flipsInWindow, inWindow in Hbudget. unfold inWindow. apply Z.leb_le in Hbudget.
  unfold place, canFlip. unfold_m.
  destruct (PositionSide_eqb _ (sideOf _)); [reflexivity|].
  destruct (_ && _)%bool.
  { rsimpl. rewrite !entry_orders_app. rsimpl. rewrite !app_nil_r. reflexivity. }
  rewrite Hbudget. rsimpl. rewrite !entry_orders_app. rsimpl. rewrite !app_nil_r.
  reflexivity.
Qed.

Lemma onSignal_gates env sg bar r :
  otherwise_valid env sg bar (set_lastBar (Some bar) r) ->
  exists r2,
    onSignal env sg bar r = place env sg bar r2
    /\ flipHistory r2 = flipHistory r
    /\ config r2 = config r
    /\ entry_orders (events r2) = entry_orders (events r)
    /\ skip_reasons (events r2) = skip_reasons (events r)
    /\ position r2 = position r
    /\ PositionSide_eqb (side (position r2)) (sideOf (type sg)) = false
    /\ ((0 <? lastPositionCloseTime r2)
        && (endTime bar - lastPositionCloseTime r2 <? 2 * timeframeMs (config r2)))%bool
       = false
    /\ (PositionSide_eqb (side (position r2)) (opposite (type sg))
        && (endTime bar - lastPositionEntryTime r2 <? minHoldTimeMs))%bool = false
    /\ closeResult env = Resolved
    /\ enterResult env = Resolved
    /\ lt (usdtBalance r2)
          (order_size (orderFor r2 sg bar) / leverage (orderFor r2 sg bar))%float = false.
Proof.
  unfold otherwise_valid. cbv zeta.
  set (rb := set_lastBar (Some bar) r).
  intros (H1 & H2 & H3 & H4 & H5 & H6 & H7 & H8).
  pose proof (lossCooldown_quiet env sg rb) as [Qc1 _ _ Qf1 Qo1].
  pose proof (lossCooldown_pass env sg rb H1) as [Qs1 Qp1].
  pose proof (peachGate_quiet env sg bar (after (lossCooldown env sg) rb))
    as [Qc2 _ _ Qf2 Qo2].
  pose proof (peachGate_pass env sg bar _ H2) as [Qs2 Qp2].
  assert (Bf : flipHistory rb = flipHistory r) by reflexivity.
  assert (Bc : config rb = config r) by reflexivity.
  assert (Be : events rb = events r) by reflexivity.
  assert (Bp : position rb = position r) by reflexivity.
  exists (after (peachGate env sg bar) (after (lossCooldown env sg) rb)).
  split.
  { unfold onSignal, applySignal, gateAndPlace, bind at 1, modify. cbn [fst snd]. fold rb.
    unfold bind at 1. unfold result, after in *.
    destruct (lossCooldown env sg rb) as [c1 q1]. cbn [fst snd] in *. subst c1.
    unfold bind at 1.
    destruct (peachGate env sg bar q1) as [c2 q2]. cbn [fst snd] in *. subst c2.
    reflexivity. }
  repeat split; try assumption; congruence.
Qed.

Lemma flipsInWindow_eq timestamp r r2 :
  flipHistory r2 = flipHistory r -> flipsInWindow timestamp r2 = flipsInWindow timestamp r.
Proof. unfold flipsInWindow. intros ->. reflexivity. Qed.

Lemma onSignal_applied env sg bar r :
  otherwise_valid env sg bar (set_lastBar (Some bar) r) ->
  flipsInWindow (endTime bar) r < maxFlipsPerHour (risk (config r)) ->
  let r' := after (onSignal env sg bar) r in
  result (onSignal env sg bar) r = Normal true
  /\ flipHistory r' = (inWindow (endTime bar) (flipHistory r) ++ [endTime bar])%list
  /\ (exists o, entry_orders (events r') = (entry_orders (events r) ++ [o])%list)
  /\ skip_reasons (events r') = skip_reasons (events r)
  /\ config r' = config r
  /\ side (position r') = sideOf (type sg).
Proof.
  intros Hv Hb.
  destruct (onSignal_gates env sg bar r Hv)
    as (r2 & E & Hf & Hc & Ho & Hs & Hp & H3 & H4 & H5 & H6 & H7 & H8).
  rewrite <- (flipsInWindow_eq (endTime bar) r r2 Hf), <- Hc in Hb.
  pose proof (place_applied env sg bar r2 H3 H4 H5 H6 H7 H8 Hb) as Hpl.
  cbv zeta in *. unfold result, after in *. rewrite E.
  destruct Hpl as (P1 & P2 & P3 & P4 & P5 & P6).
  repeat split; try congruence.
  exists (orderFor r2 sg bar). congruence.
Qed.

Lemma onSignal_refused env sg bar r :
  otherwise_valid env sg bar (set_lastBar (Some bar) r) ->
  maxFlipsPerHour (risk (config r)) <= flipsInWindow (endTime bar) r ->
  let r' := after (onSignal env sg bar) r in
  result (onSignal env sg bar) r = Normal false
  /\ flipHistory r' = inWindow (endTime bar) (flipHistory r)
  /\ entry_orders (events r') = entry_orders (events r)
  /\ skip_reasons (events r') = (skip_reasons (events r) ++ [FlipBudgetExhausted])%list
  /\ config r' = config r
  /\ position r' = position r.
Proof.
  intros Hv Hb.
  destruct (onSignal_gates env sg bar r Hv)
    as (r2 & E & Hf & Hc & Ho & Hs & Hp & H3 & H4 & _).
  rewrite <- (flipsInWindow_eq (endTime bar) r r2 Hf), <- Hc in Hb.
  pose proof (place_refused env sg bar r2 H3 H4 Hb) as Hpl.
  cbv zeta in *. unfold result, after in *. rewrite E.
  destruct Hpl as (P1 & P2 & P3 & P4 & P5 & P6).
  repeat split; congruence.
Qed.


Lemma inWindow_all timestamp hist :
  (forall a, In a hist -> timestamp - HOUR_MS <= a) ->
  inWindow timestamp hist = hist.
Proof.
  induction hist as [|h rest IH]; intros H; [reflexivity|].
  unfold inWindow in *. simpl.
  assert ((timestamp - HOUR_MS <=? h) = true) as ->
    by (apply Z.leb_le, H; left; reflexivity).
  f_equal. apply IH. intros a Ha. apply H. right. exact Ha.
Qed.

Lemma onSignals_cons env sg bar rest r :
  onSignals ((env, sg, bar) :: rest) r
  = (result (onSignal env sg bar) r
       :: fst (onSignals rest (after (onSignal env sg bar) r)),
     snd (onSignals rest (after (onSignal env sg bar) r))).
Proof.
  unfold result, after. cbn [onSignals].
  destruct (onSignal env sg bar r) as [c r1]. cbn [fst snd].
  destruct (onSignals rest r1) as [cs r2]. reflexivity.
Qed.

Lemma onSignals_app xs ys r :
  onSignals (xs ++ ys) r
  = ((fst (onSignals xs r) ++ fst (onSignals ys (snd (onSignals xs r))))%list,
     snd (onSignals ys (snd (onSignals xs r)))).
Proof.
  revert r. induction xs as [|[[env sg] bar] rest IH]; intros r.
  - cbn [onSignals fst snd app]. destruct (onSignals ys r). reflexivity.
  - rewrite <- app_comm_cons, !onSignals_cons. cbn [fst snd]. rewrite IH.
    reflexivity.
Qed.

Lemma all_otherwise_valid_app xs ys r :
  all_otherwise_valid (xs ++ ys) r ->
  all_otherwise_valid xs r /\ all_otherwise_valid ys (snd (onSignals xs r)).
Proof.
  revert r. induction xs as [|[[env sg] bar] rest IH]; intros r H.
  - cbn [all_otherwise_valid onSignals snd app]. auto.
  - rewrite <- app_comm_cons in H. cbn [all_otherwise_valid] in *.
    destruct H as [H1 H2]. destruct (IH _ H2) as [H3 H4].
    rewrite onSignals_cons. cbn [snd]. auto.
Qed.

Lemma run_applied inputs : forall r,
  (forall a b, In a (flipHistory r ++ map stamp inputs) -> In b (map stamp inputs) ->
               b - HOUR_MS <= a) ->
  Z.of_nat (List.length (flipHistory r)) + Z.of_nat (List.length inputs)
    <= maxFlipsPerHour (risk (config r)) ->
  all_otherwise_valid inputs r ->
  fst (onSignals inputs r) = map (fun _ => Normal true) inputs
  /\ flipHistory (snd (onSignals inputs r)) = (flipHistory r ++ map stamp inputs)%list
  /\ List.length (entry_orders (events (snd (onSignals inputs r))))
     = (List.length (entry_orders (events r)) + List.length inputs)%nat
  /\ skip_reasons (events (snd (onSignals inputs r))) = skip_reasons (events r)
  /\ config (snd (onSignals inputs r)) = config r.
Proof.
  induction inputs as [|[[env sg] bar] rest IH]; intros r Hw Hn Hv.
  - cbn [onSignals fst snd map List.length]. rewrite app_nil_r, Nat.add_0_r. auto.
  - cbn [all_otherwise_valid] in Hv. destruct Hv as [Hv1 Hv2].
    assert (Hall : inWindow (endTime bar) (flipHistory r) = flipHistory r).
    { apply inWindow_all. intros a Ha. apply Hw.
      - apply in_or_app. left. exact Ha.
      - left. reflexivity. }
    assert (Hb : flipsInWindow (endTime bar) r < maxFlipsPerHour (risk (config r))).
    { unfold flipsInWindow.
      rewrite Hall. cbn [List.length] in Hn. lia. }
    pose proof (onSignal_applied env sg bar r Hv1 Hb) as Ha. cbv zeta in Ha.
    destruct Ha as (A1 & A2 & [o A3] & A4 & A5 & A6).
    rewrite Hall in A2.
    set (r1 := after (onSignal env sg bar) r) in *.
    assert (Hw1 : forall a b, In a (flipHistory r1 ++ map stamp rest) ->
                              In b (map stamp rest) -> b - HOUR_MS <= a).
    { intros a b Ha Hb'. apply Hw.
      - rewrite A2, <- app_assoc in Ha. exact Ha.
      - right. exact Hb'. }
    assert (Hn1 : Z.of_nat (List.length (flipHistory r1)) + Z.of_nat (List.length rest)
                  <= maxFlipsPerHour (risk (config r1))).
    { rewrite A2, A5, length_app. cbn [List.length] in *. lia. }
    destruct (IH r1 Hw1 Hn1 Hv2) as (I1 & I2 & I3 & I4 & I5).
    rewrite onSignals_cons. fold r1. cbn [fst snd map].
    rewrite A1, I1, I2, I3, I4, I5, A2, A3, A4, A5, length_app, <- app_assoc.
    cbn [List.length app]. repeat split; try reflexivity. lia.
Qed.

Lemma applySignal_exhausted env sg bar r :
  maxFlipsPerHour (risk (config r)) <= flipsInWindow (endTime bar) r ->
  entry_orders (events (after (applySignal env (Some sg) bar) r))
  = entry_orders (events r).
Proof.
  intros Hb. unfold applySignal, gateAndPlace. unfold_m.
  pose proof (lossCooldown_quiet env sg r) as [Qc1 _ _ Qf1 Qo1].
  unfold after in *.
  destruct (lossCooldown env sg r) as [[[|]|e] r1]; cbn [fst snd] in *;
    try congruence.
  pose proof (peachGate_quiet env sg bar r1) as [Qc2 _ _ Qf2 Qo2].
  unfold after in *.
  destruct (peachGate env sg bar r1) as [[[|]|e] r2]; cbn [fst snd] in *;
    try congruence.
  rewrite <- Qo1, <- Qo2. apply place_exhausted.
  rewrite Qc2, Qc1.
  rewrite (flipsInWindow_eq (endTime bar) r r2) by congruence. exact Hb.
Qed.

(** C3: an order is handed to the executor only when fewer than
    [maxFlipsPerHour] flip timestamps lie in the hour that ends at the
    bar; and with an empty flip history and [maxFlipsPerHour = N], of
    [N+1] otherwise valid signals whose bars lie within one hour the
    first [N] are applied and recorded and the last one is skipped with
    "Flip budget exhausted". *)
Theorem C3_flip_budget :
(forall env sg bar r,
   entry_orders (events (after (applySignal env (Some sg) bar) r))
     <> entry_orders (events r) ->
   flipsInWindow (endTime bar) r < maxFlipsPerHour (risk (config r)))
/\
(forall N firsts last r,
   maxFlipsPerHour (risk (config r)) = N ->
   flipHistory r = [] ->
   Z.of_nat (List.length firsts) = N ->
   (forall a b, In a (map stamp (firsts ++ [last])) ->
                In b (map stamp (firsts ++ [last])) -> b - HOUR_MS <= a) ->
   all_otherwise_valid (firsts ++ [last]) r ->
   let run := onSignals (firsts ++ [last]) r in
   fst run = (map (fun _ => Normal true) firsts ++ [Normal false])%list
   /\ List.length (entry_orders (events (snd run)))
      = (List.length (entry_orders (events r)) + List.length firsts)%nat
   /\ skip_reasons (events (snd run))
      = (skip_reasons (events r) ++ [FlipBudgetExhausted])%list
   /\ flipHistory (snd run) = map stamp firsts).
Proof.
split.
- intros env sg bar r Hne.
  destruct (Z_lt_le_dec (flipsInWindow (endTime bar) r)
                        (maxFlipsPerHour (risk (config r)))) as [H|H];
    [exact H|].
  exfalso. apply Hne. apply applySignal_exhausted. exact H.
- intros N firsts [[env sg] bar] r HN Hempty Hlen Hw Hv run.
  destruct (all_otherwise_valid_app _ _ _ Hv) as [Hv1 Hv2].
  assert (Hw1 : forall a b, In a (flipHistory r ++ map stamp firsts) ->
                            In b (map stamp firsts) -> b - HOUR_MS <= a).
  { rewrite Hempty. cbn [app]. intros a b Ha Hb.
    apply Hw; rewrite map_app; apply in_or_app; left; assumption. }
  assert (Hn1 : Z.of_nat (List.length (flipHistory r)) + Z.of_nat (List.length firsts)
                <= maxFlipsPerHour (risk (config r))).
  { rewrite Hempty. cbn [List.length]. lia. }
  destruct (run_applied firsts r Hw1 Hn1 Hv1) as (I1 & I2 & I3 & I4 & I5).
  set (r1 := snd (onSignals firsts r)) in *.
  cbn [all_otherwise_valid] in Hv2. destruct Hv2 as [Hv2 _].
  rewrite Hempty in I2. cbn [app] in I2.
  assert (Hall : inWindow (endTime bar) (flipHistory r1) = flipHistory r1).
  { apply inWindow_all. intros a Ha. rewrite I2 in Ha. apply Hw.
    - rewrite map_app. apply in_or_app. left. exact Ha.
    - rewrite map_app. apply in_or_app. right. left. reflexivity. }
  assert (Hb : maxFlipsPerHour (risk (config r1)) <= flipsInWindow (endTime bar) r1).
  { unfold flipsInWindow.
    rewrite Hall, I2, I5, length_map. lia. }
  pose proof (onSignal_refused env sg bar r1 Hv2 Hb) as R. cbv zeta in R.
  destruct R as (R1 & R2 & R3 & R4 & R5 & R6).
  subst run. rewrite onSignals_app. fold r1. cbn [fst snd].
  rewrite onSignals_cons. cbn [fst snd onSignals].
  rewrite I1, R1, R2, R3, R4, Hall, I2, I3, I4. repeat split; reflexivity.
Qed.

(** A budget of two: long, short, long within ten minutes. *)
Lemma C3_flip_budget_witness :
  fst (onSignals (Samples.firstTwoFlips ++ [Samples.thirdFlip]) Samples.peachRunner)
  = [Normal true; Normal true; Normal false]
  /\ flipHistory (snd (onSignals (Samples.firstTwoFlips ++ [Samples.thirdFlip])
                         Samples.peachRunner))
     = [1000000; 1300000].
Proof.
  destruct (proj2 C3_flip_budget 2 Samples.firstTwoFlips Samples.thirdFlip
              Samples.peachRunner) as (Hres & _ & _ & Hhist).
  - reflexivity.
  - reflexivity.
  - reflexivity.
  - intros a b Ha Hb. cbn in Ha, Hb. unfold HOUR_MS. lia.
  - vm_compute. repeat split.
  - split; [exact Hres | exact Hhist].
Defined.

Lemma applySignal_submits env sg bar r :
  exists submitted,
    entry_orders (events (after (applySignal env (Some sg) bar) r))
    = (entry_orders (events r) ++ submitted)%list
    /\ Forall (fun o => exists r2, config r2 = config r /\ o = orderFor r2 sg bar)
              submitted.
Proof.
  unfold applySignal, gateAndPlace. unfold_m.
  pose proof (lossCooldown_quiet env sg r) as [Qc1 _ _ _ Qo1]. unfold after in *.
  destruct (lossCooldown env sg r) as [[[|]|e] r1]; cbn [fst snd] in *;
    try (exists []; rewrite app_nil_r; split; [congruence|constructor]).
  pose proof (peachGate_quiet env sg bar r1) as [Qc2 _ _ _ Qo2]. unfold after in *.
  destruct (peachGate env sg bar r1) as [[[|]|e] r2]; cbn [fst snd] in *;
    try (exists []; rewrite app_nil_r; split; [congruence|constructor]).
  pose proof (place_orders env sg bar r2) as [_ Hp]. unfold after in Hp.
  destruct Hp as [Hp|Hp].
  - exists []. rewrite app_nil_r. split; [congruence|constructor].
  - exists [orderFor r2 sg bar]. split; [congruence|].
    constructor; [|constructor]. exists r2. split; congruence.
Qed.

(** C10: every order that [applySignal] hands to the executor has size
    [Math.max(maxPositionSize, 1)]; when [maxPositionSize < 1] that size
    is 1, which exceeds [maxPositionSize]. *)
Theorem C10_order_size (env : Env) (sg : StrategySignal) (bar : SyntheticBar) (r : t) :
  exists submitted,
    entry_orders (events (after (applySignal env (Some sg) bar) r))
    = (entry_orders (events r) ++ submitted)%list
    /\ Forall (fun o =>
         order_size o = Math_max (maxPositionSize (risk (config r))) 1%float
         /\ (lt (maxPositionSize (risk (config r))) 1%float = true ->
             order_size o = 1%float
             /\ gt (order_size o) (maxPositionSize (risk (config r))) = true))
       submitted.
Proof.
  destruct (applySignal_submits env sg bar r) as (submitted & E & F).
  exists submitted. split; [exact E|].
  apply Forall_impl with (2 := F).
  intros o (r2 & Hc & ->). unfold orderFor. cbn [order_size]. rewrite Hc.
  split; [reflexivity|]. apply Math_max_below.
Qed.


















Lemma close_reasons_app xs ys :
  close_reasons (xs ++ ys) = (close_reasons xs ++ close_reasons ys)%list.
Proof.
  induction xs as [|x xs IH]; [reflexivity|].
  destruct x; simpl; rewrite ?IH; reflexivity.
Qed.

Lemma closePosition_reasons env reason meta r :
  side (position r) <> flat ->
  close_reasons (events (after (closePosition env reason meta) r))
  = (close_reasons (events r) ++ [reason])%list.
Proof.
  intros Hside. apply side_eqb_neq in Hside.
  unfold closePosition. unfold_m. rewrite Hside.
  destruct (closeResult env) as [|err].
  - destruct (isPeachHybrid r); destruct (lt _ _); rsimpl;
      rewrite !close_reasons_app; cbn [close_reasons app];
      rewrite ?app_nil_r; reflexivity.
  - destruct (isReduceOnlyRejection err); rsimpl;
      rewrite !close_reasons_app; cbn [close_reasons app];
      rewrite ?app_nil_r; reflexivity.
Qed.

Lemma leave_reasons env x r :
  side (position r) <> flat ->
  close_reasons (events (after (leave env x) r))
  = (close_reasons (events r) ++ [exit_reason x])%list.
Proof.
  intros Hside. unfold leave. unfold after, bind at 1, log, emit, modify.
  cbn [fst snd].
  set (r1 := set_events _ r).
  change (snd (closePosition env (exit_reason x) (Some (exit_meta x)) r1))
    with (after (closePosition env (exit_reason x) (Some (exit_meta x))) r1).
  rewrite closePosition_reasons by exact Hside.
  unfold r1. rsimpl. rewrite close_reasons_app. cbn [close_reasons app].
  rewrite app_nil_r. reflexivity.
Qed.

(** [trackWaterMarks] only moves the water marks. *)
Lemma trackWaterMarks_frame bar r :
  config (trackWaterMarks bar r) = config r
  /\ isPeachHybrid (trackWaterMarks bar r) = isPeachHybrid r
  /\ position (trackWaterMarks bar r) = position r
  /\ lastPositionEntryTime (trackWaterMarks bar r) = lastPositionEntryTime r
  /\ events (trackWaterMarks bar r) = events r.
Proof.
  unfold trackWaterMarks.
  destruct (side (position r)).
  - destruct (highestPrice r) as [hp|]; [destruct (gt _ hp)|]; rsimpl; auto.
  - destruct (lowestPrice r) as [lp|]; [destruct (lt _ lp)|]; rsimpl; auto.
  - auto.
Qed.

Lemma emergencyStopExit_tracked bar r entry :
  emergencyStopExit (trackWaterMarks bar r) bar entry = emergencyStopExit r bar entry.
Proof.
  destruct (trackWaterMarks_frame bar r) as (Hc & Hp & Hpos & _ & _).
  unfold emergencyStopExit, reached, emergencyThreshold, effectiveStopLoss.
  rewrite Hc, Hp, Hpos. reflexivity.
Qed.

Lemma timeSinceEntry_tracked bar r :
  timeSinceEntry (trackWaterMarks bar r) bar = timeSinceEntry r bar.
Proof.
  destruct (trackWaterMarks_frame bar r) as (_ & _ & Hpos & Ht & _).
  unfold timeSinceEntry. rewrite Hpos, Ht. reflexivity.
Qed.

Lemma emergency_stop_fires env bar r entry :
  side (position r) <> flat ->
  entryPrice (position r) = Some entry ->
  truthy entry = true ->
  rsiExtremityExit r env bar entry = None ->
  watermelonExit r env bar entry = None ->
  trailingStopExit (trackWaterMarks bar r) bar entry = None ->
  gt (effectiveStopLoss r) 0%float = true ->
  (isPeachHybrid r || is_true (useStopLoss (risk (config r))))%bool = true ->
  reached r bar (emergencyThreshold r entry) = true ->
  close_reasons (events (after (evaluateProtectiveExits env bar) r))
  = (close_reasons (events r) ++ ["emergency-stop"%string])%list.
Proof.
  intros Hside Hentry Htruthy Hrsi Hwm Htrail Hpos Hon Hreach.
  pose proof Hside as Hside'. apply side_eqb_neq in Hside'.
  unfold evaluateProtectiveExits. unfold after, bind at 1, get. cbn [fst snd].
  rewrite Hentry, Hside', Htruthy. cbn [orb negb]. rewrite Hrsi, Hwm.
  unfold bind at 1, modify. cbn [fst snd]. unfold bind at 1, get. cbn [fst snd].
  rewrite Htrail, emergencyStopExit_tracked.
  unfold emergencyStopExit. rewrite Hpos, Hon, Hreach. cbn [andb].
  destruct (trackWaterMarks_frame bar r) as (_ & _ & Hp & _ & He).
  set (x := mkExit _ _ _).
  change (snd (leave env x (trackWaterMarks bar r)))
    with (after (leave env x) (trackWaterMarks bar r)).
  rewrite leave_reasons by (rewrite Hp; exact Hside).
  rewrite He. reflexivity.
Qed.

Lemma peach_young_position_has_no_earlier_exit env bar r entry :
  isPeachHybrid r = true ->
  timeSinceEntry r bar < minTimeBeforeExit ->
  rsiExtremityExit r env bar entry = None
  /\ watermelonExit r env bar entry = None
  /\ trailingStopExit (trackWaterMarks bar r) bar entry = None.
Proof.
  intros Hp Ht.
  assert (Hd : (minTimeBeforeExit <=? timeSinceEntry r bar) = false)
    by (apply Z.leb_gt; exact Ht).
  repeat split.
  - unfold rsiExtremityExit. rewrite Hp, Hd.
    destruct (view_v2Rsi (view env)); reflexivity.
  - unfold watermelonExit. rewrite Hp. reflexivity.
  - unfold trailingStopExit.
    destruct (trackWaterMarks_frame bar r) as (_ & Hp' & _ & _ & _).
    rewrite Hp', Hp, timeSinceEntry_tracked, Hd. reflexivity.
Qed.

Lemma reached_exactly r bar threshold :
  side (position r) <> flat ->
  is_nan threshold = false ->
  close bar = threshold ->
  reached r bar threshold = true.
Proof.
  intros Hside Hn Hc. unfold reached, le, ge. rewrite Hc.
  rewrite (leb_refl_not_nan _ Hn).
  destruct (side (position r)); try reflexivity. congruence.
Qed.

(** A long position opened at 100 ten seconds ago, on a bar that closes
    at the emergency threshold 99 = 100 * (1 - 1/100): the close is
    requested with the reason "emergency-stop". *)
Lemma young_long_is_stopped :
  timeSinceEntry Samples.youngLong (Samples.barAt 1010000 99%float) = 10000
  /\ emergencyThreshold Samples.youngLong 100%float = 99%float
  /\ close_reasons
       (events (after (evaluateProtectiveExits (Samples.envAt 1010000)
                         (Samples.barAt 1010000 99%float)) Samples.youngLong))
     = ["emergency-stop"%string].
Proof. repeat split; vm_compute; reflexivity. Qed.

(** C1, as the specification words it, fails on that bar: the emergency
    stop closes a position that is ten seconds old. *)
Lemma C1_emergency_stop_ignores_dwell : ~ AsSpecified.emergency_stop_waits_for_dwell.
Proof.
  intros H.
  destruct young_long_is_stopped as (Ht & _ & Hc).
  specialize (H (Samples.envAt 1010000) (Samples.barAt 1010000 99%float) Samples.youngLong Hc).
  rewrite Ht in H. unfold minTimeBeforeExit in H. lia.
Qed.

(** C1 (amended): with [S] the effective percentage (1 for the
    dual-system variant, [emergencyStopLoss || 2] for the trend-following
    one), the emergency threshold of a position entered at [P] is
    [P*(1-S/100)] for a long and [P*(1+S/100)] for a short.  When the
    check is enabled ([S > 0], and [useStopLoss] for the trend-following
    variant) and no earlier protective check fires, a bar whose close
    reaches the threshold, in particular one that equals it, requests a
    close with the reason "emergency-stop".  The check does not wait for
    the 30-second dwell: for the dual-system variant every bar of the
    first 30 seconds whose close reaches the threshold is closed by it. *)
Theorem C1_emergency_stop :
  (forall r entry,
     effectiveStopLoss r
     = (if isPeachHybrid r then 1 else or_default (emergencyStopLoss (risk (config r))) 2)%float
     /\ emergencyThreshold r entry
        = (if PositionSide_eqb (side (position r)) long
           then entry * (1 - effectiveStopLoss r / 100)
           else entry * (1 + effectiveStopLoss r / 100))%float)
  /\ (forall env bar r entry,
        side (position r) <> flat ->
        entryPrice (position r) = Some entry ->
        truthy entry = true ->
        rsiExtremityExit r env bar entry = None ->
        watermelonExit r env bar entry = None ->
        trailingStopExit (trackWaterMarks bar r) bar entry = None ->
        gt (effectiveStopLoss r) 0%float = true ->
        (isPeachHybrid r || is_true (useStopLoss (risk (config r))))%bool = true ->
        reached r bar (emergencyThreshold r entry) = true ->
        close_reasons (events (after (evaluateProtectiveExits env bar) r))
        = (close_reasons (events r) ++ ["emergency-stop"%string])%list)
  /\ (forall r bar entry,
        side (position r) <> flat ->
        is_nan (emergencyThreshold r entry) = false ->
        close bar = emergencyThreshold r entry ->
        reached r bar (emergencyThreshold r entry) = true)
  /\ (forall env bar r entry,
        isPeachHybrid r = true ->
        side (position r) <> flat ->
        entryPrice (position r) = Some entry ->
        truthy entry = true ->
        timeSinceEntry r bar < minTimeBeforeExit ->
        reached r bar (emergencyThreshold r entry) = true ->
        close_reasons (events (after (evaluateProtectiveExits env bar) r))
        = (close_reasons (events r) ++ ["emergency-stop"%string])%list).
Proof.
  split; [|split; [|split]].
  - intros r entry. split; reflexivity.
  - exact emergency_stop_fires.
  - intros r bar entry. apply reached_exactly.
  - intros env bar r entry Hp Hside Hentry Htruthy Ht Hreach.
    destruct (peach_young_position_has_no_earlier_exit env bar r entry Hp Ht)
      as (H1 & H2 & H3).
    apply (emergency_stop_fires env bar r entry); try assumption.
    + unfold effectiveStopLoss. rewrite Hp. reflexivity.
    + rewrite Hp. reflexivity.
Qed.

Lemma C1_emergency_stop_witness :
  close_reasons
    (events (after (evaluateProtectiveExits (Samples.envAt 1010000)
                      (Samples.barAt 1010000 99%float)) Samples.youngLong))
  = ["emergency-stop"%string].
Proof.
  destruct C1_emergency_stop as (_ & _ & Hexact & Hyoung).
  apply (Hyoung (Samples.envAt 1010000) (Samples.barAt 1010000 99%float)
           Samples.youngLong 100%float).
  - reflexivity.
  - discriminate.
  - reflexivity.
  - reflexivity.
  - vm_compute. reflexivity.
  - apply Hexact; [discriminate | reflexivity | reflexivity].
Defined.

Lemma onRestPosition_failed now rep r :
  snd (PositionStateManager.updateFromRest (stateManager r) rep now) = false ->
  let r' := after (onRestPosition now rep) r in
  onRestPosition now rep r = (Normal tt, r')
  /\ stateManager r' =
     PositionStateManager.mk (PositionStateManager.state (stateManager r))
       (PositionStateManager.reconciliationFailures (stateManager r) + 1)
  /\ position r' = position r
  /\ (2 <= PositionStateManager.reconciliationFailures (stateManager r) + 1 ->
       tradingFrozen r' = true /\ freezeUntil r' = now + 60000
       /\ timers r' = (timers r ++ [now + 60000])%list)
  /\ (PositionStateManager.reconciliationFailures (stateManager r) + 1 < 2 ->
       tradingFrozen r' = tradingFrozen r /\ freezeUntil r' = freezeUntil r
       /\ timers r' = timers r).
Proof.
  intros H. destruct (PSMFacts.updateFromRest_false _ _ _ H) as (E & _ & _).
  unfold onRestPosition, freezeTrading. unfold_m. rewrite E.
  cbn [negb]. unfold PositionStateManager.shouldFreezeTrading, PositionStateManager.maxReconciliationFailures.
  cbn [PositionStateManager.reconciliationFailures].
  destruct (2 <=? PositionStateManager.reconciliationFailures (stateManager r) + 1) eqn:E2.
  - apply Z.leb_le in E2. rsimpl. repeat split; try reflexivity; lia.
  - apply Z.leb_gt in E2. rsimpl. repeat split; try reflexivity; lia.
Qed.





End RunnerFacts.

(* ===================================================================== *)
(** * Further properties of the embedded code *)
(* ===================================================================== *)

Section Windows.

Import JS.
Local Open Scope Z_scope.

Lemma push_capped_length cap xs x :
  0 <= cap ->
  Z.of_nat (List.length xs) <= cap ->
  Z.of_nat (List.length (push_capped cap xs x))
  = Z.min (Z.of_nat (List.length xs) + 1) cap.
Proof.
  intros Hc Hl. unfold push_capped.
  assert (Happ : Z.of_nat (List.length (xs ++ [x])) = Z.of_nat (List.length xs) + 1)
    by (rewrite length_app; cbn [List.length]; lia).
  destruct (cap <? Z.of_nat (List.length (xs ++ [x]))) eqn:E.
  - apply Z.ltb_lt in E.
    destruct (xs ++ [x]) as [|y ys] eqn:Eys; cbn [List.length tl] in *; lia.
  - apply Z.ltb_ge in E. lia.
Qed.

End Windows.

Section FloatEquality.

Local Open Scope float_scope.

Lemma SFcompare_Eq_finite x s m e :
  SFcompare x (S754_finite s m e) = Some Eq -> x = S754_finite s m e.
Proof.
  destruct x as [sx| sx | | sx mx ex]; cbn [SFcompare];
    try (destruct s; discriminate); try (destruct sx, s; discriminate);
    try discriminate.
  destruct sx, s; try discriminate;
    destruct (ex ?= e)%Z eqn:E; try discriminate;
    intros H; apply Z.compare_eq in E; subst ex; injection H as H.
  - destruct (PosDef.Pos.compare_cont Eq mx m) eqn:Em; try discriminate.
    change (PosDef.Pos.compare_cont Eq mx m) with (Pos.compare mx m) in Em.
    apply Pos.compare_eq in Em. subst. reflexivity.
  - change (PosDef.Pos.compare_cont Eq mx m) with (Pos.compare mx m) in H.
    apply Pos.compare_eq in H. subst. reflexivity.
Qed.

Lemma eqb_finite_eq (x c : float) s m e :
  Prim2SF c = S754_finite s m e -> (x =? c) = true -> x = c.
Proof.
  intros Hc H. rewrite FloatAxioms.eqb_spec in H. unfold SFeqb in H. rewrite Hc in H.
  destruct (SFcompare (Prim2SF x) (S754_finite s m e)) as [[]|] eqn:E; try discriminate.
  apply SFcompare_Eq_finite in E.
  rewrite <- (FloatAxioms.SF2Prim_Prim2SF x), <- (FloatAxioms.SF2Prim_Prim2SF c).
  rewrite E, Hc. reflexivity.
Qed.

Lemma Math_min_capped (x c : float) :
  (c <? JS.Math_min x c) = false.
Proof.
  unfold JS.Math_min.
  destruct (is_nan x || is_nan c) eqn:En.
  - destruct (c <? nan) eqn:E; [|reflexivity].
    apply ltb_right_not_nan in E. vm_compute in E. discriminate.
  - destruct (x <? c) eqn:E1; [apply ltb_asym; exact E1|].
    destruct (c <? x) eqn:E2.
    + destruct (c <? c) eqn:E; [|reflexivity].
      rewrite (ltb_asym _ _ E) in E. discriminate.
    + destruct (get_sign x); [exact E2|].
      destruct (c <? c) eqn:E; [|reflexivity].
      rewrite (ltb_asym _ _ E) in E. discriminate.
Qed.

End FloatEquality.


(* ===================================================================== *)
(** ** ATR: warm-up *)
(* ===================================================================== *)

Module ATRFacts.

Import JS.
Import ATR.

Lemma warm_create L a :
  create L = inr a -> 2 <= L /\ ATR.warm L 0 a.
Proof.
  unfold create. destruct (L <? 2) eqn:E; [discriminate|].
  intros H. injection H as <-. apply Z.ltb_ge in E.
  split; [exact E|]. constructor; cbn; intros; try lia; auto.
Qed.

Ltac atr_fields :=
  cbn [fst length prevHigh prevLow prevClose atrValue updateCount trValues].

Lemma warm_update L n a h l c :
  2 <= L -> 0 <= n -> warm L n a -> warm L (n + 1) (fst (update a h l c)).
Proof.
  intros HL Hn [Hlen Hfresh Hprev Hnull Hready Hwin].
  unfold update.
  destruct (Z.eq_dec n 0) as [->|Hpos].
  - destruct (Hfresh eq_refl) as (Hp & Hu). rewrite Hp.
    constructor; atr_fields.
    + exact Hlen.
    + intros; lia.
    + intros _. repeat split; try discriminate. lia.
    + intros _. apply Hnull. lia.
    + intros; lia.
    + exact Hwin.
  - assert (Hn' : 0 < n) by lia.
    destruct (Hprev Hn') as (Hh & Hl & Hc & Hu).
    destruct (prevHigh a) as [pH|]; [|congruence].
    destruct (prevLow a) as [pL|]; [|congruence].
    destruct (prevClose a) as [pC|]; [|congruence].
    assert (Hw : forall x,
               Z.of_nat (List.length (push_capped (length a) (trValues a) x))
               = Z.min (updateCount a + 1) L).
    { intros x. rewrite push_capped_length by lia. rewrite Hlen. lia. }
    destruct (updateCount a + 1 <? length a) eqn:E.
    + apply Z.ltb_lt in E.
      constructor; atr_fields.
      * exact Hlen.
      * intros; lia.
      * intros _. repeat split; try discriminate. lia.
      * intros _. apply Hnull. lia.
      * intros; lia.
      * apply Hw.
    + apply Z.ltb_ge in E.
      constructor; atr_fields.
      * exact Hlen.
      * intros; lia.
      * intros _. repeat split; try discriminate. lia.
      * intros; lia.
      * intros _. discriminate.
      * apply Hw.
Qed.

Lemma warm_feed L bars : forall n a,
  2 <= L -> 0 <= n -> warm L n a ->
  warm L (n + Z.of_nat (List.length bars)) (feed a bars).
Proof.
  induction bars as [|[[h l] c] rest IH]; intros n a HL Hn Hw.
  - cbn [List.length feed fold_left]. replace (n + Z.of_nat 0) with n by lia. exact Hw.
  - unfold feed. cbn [fold_left List.length].
    replace (n + Z.of_nat (S (List.length rest)))
      with ((n + 1) + Z.of_nat (List.length rest)) by lia.
    apply IH; [exact HL | lia |]. apply warm_update; assumption.
Qed.

(** X1: a fresh [ATR(length)] reports [null] after each of its first
    [length] calls of [update] and a number after every later call,
    whatever the bars; its window holds the last [min(calls - 1, length)]
    true ranges. *)
Theorem atr_warmup (L : Z) (a : t) (bars : list (number * number * number)) :
  create L = inr a ->
  (Z.of_nat (List.length bars) <= L -> value (feed a bars) = None)
  /\ (L + 1 <= Z.of_nat (List.length bars) -> isReady (feed a bars) = true)
  /\ Z.of_nat (List.length (trValues (feed a bars)))
     = Z.min (Z.max 0 (Z.of_nat (List.length bars) - 1)) L.
Proof.
  intros Hc. destruct (warm_create L a Hc) as [HL Hw].
  pose proof (warm_feed L bars 0 a HL (Z.le_refl 0) Hw) as Hf.
  rewrite Z.add_0_l in Hf.
  destruct Hf as [Hlen Hfresh Hprev Hnull Hready Hwin].
  set (n := Z.of_nat (List.length bars)) in *.
  assert (Hcount : updateCount (feed a bars) = Z.max 0 (n - 1)).
  { destruct (Z.eq_dec n 0) as [E|E].
    - rewrite E. apply (Hfresh E).
    - destruct Hprev as (_ & _ & _ & Hu); lia. }
  repeat split.
  - intros Hle. unfold value. apply Hnull. lia.
  - intros Hge. unfold isReady.
    destruct (atrValue (feed a bars)) eqn:E; [reflexivity|].
    exfalso. apply Hready; [lia | reflexivity].
  - rewrite Hwin, Hcount. reflexivity.
Qed.

Lemma atr_warmup_witness :
  create 2 = inr (mk 2 [] None None None None 0)
  /\ value (feed (mk 2 [] None None None None 0) (Samples.risingBars 2)) = None
  /\ isReady (feed (mk 2 [] None None None None 0) (Samples.risingBars 3)) = true.
Proof.
  destruct (atr_warmup 2 (mk 2 [] None None None None 0) (Samples.risingBars 2) eq_refl)
    as (Hnull & _ & _).
  destruct (atr_warmup 2 (mk 2 [] None None None None 0) (Samples.risingBars 3) eq_refl)
    as (_ & Hready & _).
  split; [reflexivity|]. split.
  - apply Hnull. vm_compute. discriminate.
  - apply Hready. vm_compute. discriminate.
Defined.

End ATRFacts.

(* ===================================================================== *)
(** ** ADX: windows and readiness reports *)
(* ===================================================================== *)

Module ADXWindows.

Import JS.
Import ADX.
Import ADXFacts.

Lemma aligned_update a h l c :
  0 <= length a -> aligned a -> aligned (fst (update a h l c)) .
Proof.
  intros HL (Htr & Hp & Hm). unfold update.
  destruct (prevHigh a) as [pH|]; [|exact (conj Htr (conj Hp Hm))].
  destruct (prevLow a) as [pL|]; [|exact (conj Htr (conj Hp Hm))].
  destruct (prevClose a) as [pC|]; [|exact (conj Htr (conj Hp Hm))].
  set (tr := trueRange pC h l). set (pdm := plusDM pH pL h l).
  set (mdm := minusDM pH pL h l).
  assert (Hw : Z.of_nat (List.length (push_capped (length a) (trValues a) tr))
               = Z.min (updateCount a + 1) (length a)).
  { rewrite push_capped_length by lia. lia. }
  assert (Hshape :
    let trs := push_capped (length a) (trValues a) tr in
    let pdms := if length a <? Z.of_nat (List.length (trValues a ++ [tr]))
                then tl (plusDMValues a ++ [pdm]) else plusDMValues a ++ [pdm] in
    let mdms := if length a <? Z.of_nat (List.length (trValues a ++ [tr]))
                then tl (minusDMValues a ++ [mdm]) else minusDMValues a ++ [mdm] in
    List.length pdms = List.length trs /\ List.length mdms = List.length trs).
  { cbv zeta. unfold push_capped.
    destruct (length a <? Z.of_nat (List.length (trValues a ++ [tr]))).
    - destruct (trValues a) as [|x xs], (plusDMValues a) as [|y ys],
               (minusDMValues a) as [|z zs]; cbn [List.length] in Hp, Hm;
        try discriminate; cbn [app tl List.length];
        rewrite ?length_app; cbn [List.length]; split; congruence.
    - rewrite !length_app. cbn [List.length]. split; congruence. }
  cbv zeta in Hshape. destruct Hshape as [Hp' Hm'].
  destruct (updateCount a + 1 <? length a + 1).
  { unfold aligned, remember.
    cbn [fst length trValues plusDMValues minusDMValues updateCount].
    exact (conj Hw (conj Hp' Hm')). }
  destruct (directional _ _ _ _ _ _ _ _) as [[atr pdi] mdi].
  destruct (seq _ _).
  { unfold aligned, remember.
    cbn [fst length trValues plusDMValues minusDMValues updateCount].
    exact (conj Hw (conj Hp' Hm')). }
  destruct (absorb_dx _ _ _) as [dxs adx].
  unfold aligned.
  cbn [fst length trValues plusDMValues minusDMValues updateCount].
  exact (conj Hw (conj Hp' Hm')).
Qed.

Lemma length_update a h l c : length (fst (update a h l c)) = length a.
Proof.
  unfold update.
  destruct (prevHigh a); [|reflexivity].
  destruct (prevLow a); [|reflexivity].
  destruct (prevClose a); [|reflexivity].
  destruct (_ <? _); [reflexivity|].
  destruct (directional _ _ _ _ _ _ _ _) as [[atr pdi] mdi].
  destruct (seq _ _); [reflexivity|].
  destruct (absorb_dx _ _ _). reflexivity.
Qed.

Lemma aligned_feed bars : forall a,
  0 <= length a -> aligned a -> aligned (feed a bars).
Proof.
  induction bars as [|[[h l] c] rest IH]; intros a HL Ha; [exact Ha|].
  unfold feed. cbn [fold_left]. apply IH.
  - rewrite length_update. exact HL.
  - apply aligned_update; assumption.
Qed.

(** X2: on a fresh [ADX(length)] the windows of true ranges, [+DM]
    and [-DM] values always hold the same number of entries, namely
    [min(calls - 1, length)] after any number of calls of [update]: the
    first call only stores the bar, and the windows never grow past
    [length]. *)
Theorem adx_windows (L : Z) (a : t) (bars : list (number * number * number)) :
  create L = inr a ->
  let n := Z.min (Z.max 0 (Z.of_nat (List.length bars) - 1)) L in
  Z.of_nat (List.length (trValues (feed a bars))) = n
  /\ Z.of_nat (List.length (plusDMValues (feed a bars))) = n
  /\ Z.of_nat (List.length (minusDMValues (feed a bars))) = n.
Proof.
  intros Hc. destruct (inv_create L a Hc) as [HL Hi].
  pose proof (inv_feed L bars 0 a HL (Z.le_refl 0) Hi) as Hf.
  rewrite Z.add_0_l in Hf.
  assert (Ha : aligned a).
  { unfold create in Hc. destruct (L <? 2); [discriminate|].
    injection Hc as <-. unfold aligned. cbn. lia. }
  assert (Hlen : length a = L) by apply Hi.
  pose proof (aligned_feed bars a ltac:(lia) Ha) as (Htr & Hp & Hm).
  assert (Hcount : updateCount (feed a bars) = Z.max 0 (Z.of_nat (List.length bars) - 1)).
  { destruct (Z.eq_dec (Z.of_nat (List.length bars)) 0) as [E|E].
    - rewrite E. apply (inv_fresh _ _ _ Hf E).
    - destruct (inv_prev _ _ _ Hf) as (_ & _ & _ & Hu); lia. }
  cbv zeta. rewrite Hp, Hm, Htr, Hcount, (inv_len _ _ _ Hf). auto.
Qed.

Lemma adx_windows_witness :
  List.length (trValues (feed Samples.adx2 (Samples.risingBars 2))) = 1%nat
  /\ List.length (plusDMValues (feed Samples.adx2 (Samples.risingBars 9))) = 2%nat.
Proof.
  destruct (adx_windows 2 Samples.adx2 (Samples.risingBars 2) eq_refl) as (H1 & _).
  destruct (adx_windows 2 Samples.adx2 (Samples.risingBars 9) eq_refl) as (_ & H2 & _).
  split.
  - apply Nat2Z.inj. rewrite H1. vm_compute. reflexivity.
  - apply Nat2Z.inj. rewrite H2. vm_compute. reflexivity.
Defined.

(** X3: the three readiness reports of an [ADX] agree.  While the
    value is [null], [isTrending] is false for every threshold and
    [warmupProgress] is neither above 0.99 nor equal to 1; once the value
    is a number, [warmupProgress] is exactly 1.  On a fresh [ADX(length)]
    this is the case for the first [2*length] calls of [update]. *)
Theorem adx_readiness (a : t) (threshold : option number) :
  (isReady a = false ->
     isTrending a threshold = false
     /\ gt (warmupProgress a) 0.99%float = false
     /\ seq (warmupProgress a) 1%float = false)
  /\ (isReady a = true -> warmupProgress a = 1%float)
  /\ (forall L fresh bars,
        create L = inr fresh -> a = feed fresh bars ->
        Z.of_nat (List.length bars) <= 2 * L -> isReady a = false).
Proof.
  unfold isReady, isTrending, warmupProgress.
  repeat split.
  - destruct (adxValue a); [discriminate|reflexivity].
  - destruct (adxValue a); [discriminate|]. unfold gt. apply Math_min_capped.
  - destruct (adxValue a); [discriminate|]. unfold seq.
    destruct (_ =? 1)%float eqn:E; [|reflexivity].
    apply (eqb_finite_eq _ 1%float false 4503599627370496%positive (-52)) in E;
      [|vm_compute; reflexivity].
    pose proof (Math_min_capped
                  (of_Z (updateCount a) / of_Z (2 * length a + 2))%float 0.99%float) as Hcap.
    rewrite E in Hcap. vm_compute in Hcap. discriminate.
  - destruct (adxValue a); [reflexivity|discriminate].
  - intros L fresh bars Hc -> Hn.
    pose proof (null_before L fresh bars Hc Hn) as Hv. unfold value in Hv.
    rewrite Hv. reflexivity.
Qed.

End ADXWindows.

(* ===================================================================== *)
(** ** WatermellonEngine: warm-up, what a signal guarantees, re-arming *)
(* ===================================================================== *)

Module WatermellonFacts.

Import JS.
Import WatermellonEngine.
Import EngineFacts.

Lemma adx_update_null a h l c :
  ADX.adxValue (fst (ADX.update a h l c)) = None -> snd (ADX.update a h l c) = None.
Proof.
  unfold ADX.update.
  destruct (ADX.prevHigh a); [|reflexivity].
  destruct (ADX.prevLow a); [|reflexivity].
  destruct (ADX.prevClose a); [|reflexivity].
  destruct (_ <? _); [reflexivity|].
  destruct (ADX.directional _ _ _ _ _ _ _ _) as [[atr pdi] mdi].
  destruct (seq _ _); [unfold ADX.remember; cbn [fst snd ADX.adxValue]; auto|].
  destruct (ADX.absorb_dx _ _ _) as [dxs adx']. cbn [fst snd ADX.adxValue]. auto.
Qed.

Lemma update_blocked e bar r :
  adxBlocks (config e) (snd (ADX.update (adx e) (high bar) (low bar) (close bar))) = true ->
  update e bar r
  = (mk (config e) (fst (ADX.update (adx e) (high bar) (low bar) (close bar))) false false,
     None).
Proof.
  unfold update. destruct (ADX.update _ _ _ _) as [adx' v]. cbn [fst snd].
  intros ->. reflexivity.
Qed.

Lemma adx_of_update e bar r :
  adx (fst (update e bar r)) = fst (ADX.update (adx e) (high bar) (low bar) (close bar)).
Proof.
  unfold update. destruct (ADX.update _ _ _ _) as [adx' v]. cbn [fst].
  destruct (adxBlocks _ _); [reflexivity|].
  destruct (_ && negb (lastLongLook e)); [reflexivity|].
  destruct (_ && negb (lastShortLook e)); reflexivity.
Qed.

Lemma feed_cons e bar r rest :
  feed e ((bar, r) :: rest) = feed (fst (update e bar r)) rest.
Proof. reflexivity. Qed.

Lemma silent_while_null input : forall e,
  lastLongLook e = false -> lastShortLook e = false ->
  (forall k, (k <= List.length input)%nat ->
     ADX.value (ADX.feed (adx e) (firstn k (fedToAdx input))) = None) ->
  Forall (fun s => s = None) (run e input)
  /\ lastLongLook (feed e input) = false
  /\ lastShortLook (feed e input) = false.
Proof.
  induction input as [|[bar r] rest IH]; intros e Hl Hs Hnull.
  - cbn [run feed fold_left]. auto.
  - assert (Hb : adxBlocks (config e)
                   (snd (ADX.update (adx e) (high bar) (low bar) (close bar))) = true).
    { rewrite adx_update_null; [reflexivity|].
      apply (Hnull 1%nat). cbn [List.length]. lia. }
    rewrite run_cons, feed_cons. rewrite (update_blocked e bar r Hb). cbn [fst snd].
    destruct (IH (mk (config e)
                     (fst (ADX.update (adx e) (high bar) (low bar) (close bar)))
                     false false)) as (Hrun & Hl' & Hs'); try reflexivity.
    + intros k Hk. cbn [adx].
      apply (Hnull (S k)). cbn [List.length]. lia.
    + split; [constructor; [reflexivity | exact Hrun] | split; assumption].
Qed.

(** X4: a trend-following engine built by [new WatermellonEngine(config)]
    returns [null] on each of its first [2 * adxLength] bars, whatever the
    bars and the EMA and RSI readings are, and remembers no look from
    them. *)
Theorem watermellon_silent_during_warmup
    (cfg : WatermellonConfig) (e : t) (input : list (SyntheticBar * Readings)) :
  create cfg = inr e ->
  Z.of_nat (List.length input) <= 2 * adxLength cfg ->
  Forall (fun s => s = None) (run e input)
  /\ lastLongLook (feed e input) = false
  /\ lastShortLook (feed e input) = false.
Proof.
  unfold create. destruct (ADX.create (adxLength cfg)) as [msg|a] eqn:Ha; [discriminate|].
  intros H Hn. injection H as <-.
  apply silent_while_null; try reflexivity.
  intros k Hk. cbn [adx].
  apply (ADXFacts.null_before (adxLength cfg) a _ Ha).
  rewrite length_firstn. unfold fedToAdx. rewrite length_map. lia.
Qed.

Lemma watermellon_silent_during_warmup_witness :
  run Samples.melonEngine (Samples.melonBars 0 4) = [None; None; None; None].
Proof.
  destruct (watermellon_silent_during_warmup Samples.melonConfig Samples.melonEngine
              (Samples.melonBars 0 4) eq_refl) as (H & _).
  - vm_compute. discriminate.
  - remember (run Samples.melonEngine (Samples.melonBars 0 4)) as out eqn:E.
    assert (Hlen : List.length out = 4%nat) by (rewrite E; vm_compute; reflexivity).
    destruct out as [|a [|b [|c [|d [|x xs]]]]]; try discriminate.
    pose proof (Forall_inv H) as Ea. apply Forall_inv_tail in H.
    pose proof (Forall_inv H) as Eb. apply Forall_inv_tail in H.
    pose proof (Forall_inv H) as Ec. apply Forall_inv_tail in H.
    pose proof (Forall_inv H) as Ed.
    cbn beta in Ea, Eb, Ec, Ed. subst a b c d. reflexivity.
Defined.

(** X5: what a signal returned by the trend-following engine
    guarantees.  The ADX value of the bar is a number not below
    [adxThreshold]; a long signal comes with a bullish EMA stack, an RSI
    above both [rsiMinLong] and 55, and a long look that was not remembered
    from the call before; a short signal symmetrically, and only when no
    long signal is due.  Reason and trend flags agree with the type. *)
Theorem watermellon_signal_sound (e : t) (bar : SyntheticBar) (r : Readings)
    (s : StrategySignal) :
  snd (update e bar r) = Some s ->
  (exists v, snd (ADX.update (adx e) (high bar) (low bar) (close bar)) = Some v
             /\ lt v (adxThreshold (config e)) = false
             /\ adxOf s = Some v)
  /\ match type s with
     | Long =>
         reason s = "long-trigger"%string
         /\ bullStackOf r = true
         /\ gt (of_null (rsiValue r)) (rsiMinLong (config e)) = true
         /\ gt (of_null (rsiValue r)) 55%float = true
         /\ lastLongLook e = false
         /\ longTrig (trend s) = true
     | Short =>
         reason s = "short-trigger"%string
         /\ bearStackOf r = true
         /\ lt (of_null (rsiValue r)) (rsiMaxShort (config e)) = true
         /\ lt (of_null (rsiValue r)) 45%float = true
         /\ lastShortLook e = false
         /\ shortTrig (trend s) = true
         /\ longTrig (trend s) = false
     end.
Proof.
  unfold update. destruct (ADX.update _ _ _ _) as [adx' v]. cbn [snd].
  unfold adxBlocks. destruct v as [v|]; [|discriminate].
  destruct (lt v (adxThreshold (config e))) eqn:Hv; [discriminate|].
  destruct (longLookOf (config e) r && negb (lastLongLook e)) eqn:Hl.
  - cbn [snd]. intros H. injection H as <-. cbn [type reason trend indicators longTrig].
    split; [exists v; unfold adxOf; cbn; auto|].
    apply andb_true_iff in Hl. destruct Hl as [Hl Hn].
    apply negb_true_iff in Hn. unfold longLookOf in Hl.
    apply andb_true_iff in Hl. destruct Hl as [Hl H55].
    apply andb_true_iff in Hl. destruct Hl as [Hb Hmin]. auto 10.
  - destruct (shortLookOf (config e) r && negb (lastShortLook e)) eqn:Hs;
      [|discriminate].
    cbn [snd]. intros H. injection H as <-.
    cbn [type reason trend indicators longTrig shortTrig].
    split; [exists v; unfold adxOf; cbn; auto|].
    apply andb_true_iff in Hs. destruct Hs as [Hs Hn].
    apply negb_true_iff in Hn. unfold shortLookOf in Hs.
    apply andb_true_iff in Hs. destruct Hs as [Hs H45].
    apply andb_true_iff in Hs. destruct Hs as [Hb Hmax]. auto 10.
Qed.

Lemma watermellon_signal_sound_witness :
  exists s, snd (update Samples.warmMelonEngine
                   (fst (hd (Samples.noBar, Samples.melonReadings)
                            (Samples.melonBars 4 1)))
                   Samples.melonReadings) = Some s
            /\ type s = Long /\ reason s = "long-trigger"%string.
Proof.
  destruct (snd (update Samples.warmMelonEngine
                   (fst (hd (Samples.noBar, Samples.melonReadings)
                            (Samples.melonBars 4 1)))
                   Samples.melonReadings)) as [s|] eqn:E;
    [|vm_compute in E; discriminate].
  exists s. split; [reflexivity|].
  pose proof (watermellon_signal_sound _ _ _ s E) as [_ H].
  destruct (type s) eqn:Et.
  - split; [reflexivity | apply H].
  - exfalso. destruct H as (_ & Hbear & _).
    vm_compute in Hbear. discriminate.
Defined.

(** X6: a bar on which the ADX gate is closed makes the engine
    forget both looks, so the look that persists through it triggers
    again on the next bar on which the gate is open: two signals of the
    same side can follow each other while EMA stack and RSI never
    changed. *)
Theorem watermellon_rearms_after_gate
    (e : t) (bar1 : SyntheticBar) (r1 : Readings) (bar2 : SyntheticBar) (r2 : Readings) :
  adxBlocks (config e)
    (snd (ADX.update (adx e) (high bar1) (low bar1) (close bar1))) = true ->
  let e1 := fst (update e bar1 r1) in
  snd (update e bar1 r1) = None
  /\ lastLongLook e1 = false /\ lastShortLook e1 = false
  /\ (looksLong e1 bar2 r2 = true ->
      is_signal_of Long (snd (update e1 bar2 r2)) = true)
  /\ (looksShort e1 bar2 r2 = true ->
      is_signal_of Short (snd (update e1 bar2 r2)) = true).
Proof.
  intros Hb. cbv zeta. rewrite (update_blocked e bar1 r1 Hb). cbn [fst snd].
  set (e1 := mk _ _ false false).
  repeat split.
  - intros Hl. destruct (long_look_rising e1 bar2 r2 Hl) as [_ Hs].
    destruct (Hs eq_refl) as (s & -> & Ht & _). cbn [is_signal_of]. rewrite Ht. reflexivity.
  - intros Hl. destruct (short_look_rising e1 bar2 r2 Hl) as [_ Hs].
    destruct (Hs eq_refl) as (s & -> & Ht & _). cbn [is_signal_of]. rewrite Ht. reflexivity.
Qed.

Lemma watermellon_rearms_after_gate_witness :
  let e := feed Samples.strictEngine (firstn 7 Samples.choppyBars) in
  let bar1 := fst (nth 7 Samples.choppyBars
                     (Samples.noBar, Samples.melonReadings)) in
  let bar2 := Samples.surgeBar in
  lastLongLook e = true
  /\ is_signal_of Long
       (snd (update (fst (update e bar1 Samples.melonReadings)) bar2 Samples.melonReadings))
     = true
  /\ map (option_map type) (run Samples.strictEngine Samples.choppyBars)
     = [None; None; None; None; Some Long; None; None; None; None; None;
        None; None; None; None; None; Some Long; None; None].
Proof.
  cbv zeta. split; [vm_compute; reflexivity|]. split; [|vm_compute; reflexivity].
  refine (proj1 (proj2 (proj2 (proj2
            (watermellon_rearms_after_gate _ _ Samples.melonReadings _ Samples.melonReadings
               _)))) _); vm_compute; reflexivity.
Defined.

End WatermellonFacts.

(* ===================================================================== *)
(** ** PeachHybridEngine: spacing, bounds, tags, momentum system, exits *)
(* ===================================================================== *)

Module PeachFacts.

Import JS.
Import PeachHybridEngine.
Import EngineFacts.

Lemma v1Step_waiting e bar r :
  v1BarsSinceLastSignal e + 1 < minBarsBetween (v1 (config e)) ->
  v1Step e bar r = (absorb_bar e bar r, None).
Proof.
  intros H. unfold v1Step, checkV1System.
  destruct (v1Rsi r); [|reflexivity].
  change (config (absorb_bar e bar r)) with (config e).
  change (v1BarsSinceLastSignal (absorb_bar e bar r)) with (v1BarsSinceLastSignal e + 1).
  apply Z.ltb_lt in H. rewrite H. reflexivity.
Qed.

Lemma runV1_waiting input : forall e,
  v1BarsSinceLastSignal e + Z.of_nat (List.length input) < minBarsBetween (v1 (config e)) ->
  Forall (fun s => s = None) (runV1 e input).
Proof.
  induction input as [|[bar r] rest IH]; intros e H; [constructor|].
  cbn [List.length] in H.
  rewrite runV1_cons, v1Step_waiting by lia. cbn [fst snd].
  constructor; [reflexivity|]. apply IH.
  change (config (absorb_bar e bar r)) with (config e).
  change (v1BarsSinceLastSignal (absorb_bar e bar r)) with (v1BarsSinceLastSignal e + 1).
  lia.
Qed.

Lemma v1Step_signal e bar r s :
  snd (v1Step e bar r) = Some s ->
  config (fst (v1Step e bar r)) = config e
  /\ v1BarsSinceLastSignal (fst (v1Step e bar r)) = 0
  /\ minBarsBetween (v1 (config e)) <= v1BarsSinceLastSignal e + 1
  /\ priceMoveMet (absorb_bar e bar r) (close bar) = true
  /\ system s = Some "v1"%string
  /\ match type s with
     | Long =>
         reason s = "v1-long"%string
         /\ v1LooksLong (config e) r = true /\ v1LastLongLook e = false
         /\ v1LastLongPrice (fst (v1Step e bar r)) = close bar
         /\ v1LastShortPrice (fst (v1Step e bar r)) = v1LastShortPrice e
     | Short =>
         reason s = "v1-short"%string
         /\ v1LooksShort (config e) r = true /\ v1LastShortLook e = false
         /\ v1LastShortPrice (fst (v1Step e bar r)) = close bar
         /\ v1LastLongPrice (fst (v1Step e bar r)) = v1LastLongPrice e
     end.
Proof.
  unfold v1Step, checkV1System, v1LooksLong, v1LooksShort.
  destruct (v1Rsi r) as [rsi|]; [|discriminate].
  change (config (absorb_bar e bar r)) with (config e).
  change (v1BarsSinceLastSignal (absorb_bar e bar r)) with (v1BarsSinceLastSignal e + 1).
  change (v1LastLongLook (absorb_bar e bar r)) with (v1LastLongLook e).
  change (v1LastShortLook (absorb_bar e bar r)) with (v1LastShortLook e).
  change (v1LastLongPrice (absorb_bar e bar r)) with (v1LastLongPrice e).
  change (v1LastShortPrice (absorb_bar e bar r)) with (v1LastShortPrice e).
  destruct (_ <? _) eqn:Eb; [discriminate|]. apply Z.ltb_ge in Eb.
  destruct (priceMoveMet _ _) eqn:Ep; [|discriminate]. cbn [negb].
  destruct (v1LongLookOf (config e) r rsi && negb (v1LastLongLook e)) eqn:El.
  - cbn [fst snd]. intros H. injection H as <-.
    cbn [type reason system with_v1 config v1BarsSinceLastSignal v1LastLongPrice
         v1LastShortPrice].
    apply andb_true_iff in El. destruct El as [El En]. apply negb_true_iff in En.
    repeat split; auto.
  - destruct (v1ShortLookOf (config e) r rsi && negb (v1LastShortLook e)) eqn:Es;
      [|discriminate].
    cbn [fst snd]. intros H. injection H as <-.
    cbn [type reason system with_v1 config v1BarsSinceLastSignal v1LastLongPrice
         v1LastShortPrice].
    apply andb_true_iff in Es. destruct Es as [Es En]. apply negb_true_iff in En.
    repeat split; auto.
Qed.

(** X7: after the trend-bias system has returned a signal, it
    returns none on the next [minBarsBetween - 1] bars, whatever their
    readings: two of its signals are at least [minBarsBetween] bars
    apart. *)
Theorem v1_spacing (e : t) (bar : SyntheticBar) (r : Readings) (s : StrategySignal)
    (rest : list (SyntheticBar * Readings)) :
  snd (v1Step e bar r) = Some s ->
  Z.of_nat (List.length rest) < minBarsBetween (v1 (config e)) ->
  Forall (fun out => out = None) (runV1 (fst (v1Step e bar r)) rest).
Proof.
  intros Hs Hn. destruct (v1Step_signal e bar r s Hs) as (Hc & Hz & _).
  apply runV1_waiting. rewrite Hc, Hz. lia.
Qed.

(** X8: what a signal of the trend-bias system guarantees: at
    least [minBarsBetween] bars since its last signal, the price-move
    guard met, the look of that side holding on the bar and not
    remembered from before; the bar counter is back to zero and the bar's
    close is stored as the last price of that side only. *)
Theorem v1_signal_sound (e : t) (bar : SyntheticBar) (r : Readings) (s : StrategySignal) :
  snd (v1Step e bar r) = Some s ->
  v1BarsSinceLastSignal (fst (v1Step e bar r)) = 0
  /\ minBarsBetween (v1 (config e)) <= v1BarsSinceLastSignal e + 1
  /\ priceMoveMet (absorb_bar e bar r) (close bar) = true
  /\ system s = Some "v1"%string
  /\ match type s with
     | Long =>
         reason s = "v1-long"%string
         /\ v1LooksLong (config e) r = true /\ v1LastLongLook e = false
         /\ v1LastLongPrice (fst (v1Step e bar r)) = close bar
         /\ v1LastShortPrice (fst (v1Step e bar r)) = v1LastShortPrice e
     | Short =>
         reason s = "v1-short"%string
         /\ v1LooksShort (config e) r = true /\ v1LastShortLook e = false
         /\ v1LastShortPrice (fst (v1Step e bar r)) = close bar
         /\ v1LastLongPrice (fst (v1Step e bar r)) = v1LastLongPrice e
     end.
Proof. intros Hs. apply (v1Step_signal e bar r s Hs). Qed.

Lemma v1_spacing_witness :
  let e := feed Samples.spacedEngine (Samples.bullishRun 2) in
  let bar := Samples.barAt 30000 100%float in
  is_signal_of Long (snd (v1Step e bar Samples.bullishReadings)) = true
  /\ Forall (fun out => out = None)
       (runV1 (fst (v1Step e bar Samples.bullishReadings)) (Samples.bullishRun 2)).
Proof.
  cbv zeta. split; [vm_compute; reflexivity|].
  destruct (snd (v1Step (feed Samples.spacedEngine (Samples.bullishRun 2))
                   (Samples.barAt 30000 100%float) Samples.bullishReadings))
    as [s|] eqn:E; [|vm_compute in E; discriminate].
  apply (v1_spacing _ _ _ s _ E). vm_compute. reflexivity.
Defined.

Lemma v1_signal_sound_witness :
  let e := feed Samples.spacedEngine (Samples.bullishRun 2) in
  let bar := Samples.barAt 30000 100%float in
  exists s, snd (v1Step e bar Samples.bullishReadings) = Some s
            /\ v1BarsSinceLastSignal (fst (v1Step e bar Samples.bullishReadings)) = 0
            /\ system s = Some "v1"%string.
Proof.
  cbv zeta.
  destruct (snd (v1Step (feed Samples.spacedEngine (Samples.bullishRun 2))
                   (Samples.barAt 30000 100%float) Samples.bullishReadings))
    as [s|] eqn:E; [|vm_compute in E; discriminate].
  exists s. split; [reflexivity|].
  destruct (v1_signal_sound _ _ _ s E) as (Hz & _ & _ & Hsys & _).
  split; [exact Hz | exact Hsys].
Defined.

Lemma absorb_bar_bounded e bar r : bounded e -> bounded (absorb_bar e bar r).
Proof.
  intros [Hr Hv Hh Hl]. unfold absorb_bar, lookbackPeriod in *.
  constructor;
    cbn [v2RsiHistory volumeHistory recentHighs recentLows config].
  - destruct (v2Rsi r) as [x|]; [|exact Hr].
    change (Z.of_nat (List.length (push_capped 3 (v2RsiHistory e) x)) <= 3).
    rewrite push_capped_length by lia. lia.
  - rewrite push_capped_length by lia. lia.
  - change (Z.of_nat (List.length (push_capped 20 (recentHighs e) (high bar))) <= 20).
    rewrite push_capped_length by lia. lia.
  - destruct (20 <? _).
    + destruct (recentHighs e) as [|x xs], (recentLows e) as [|y ys];
        cbn [List.length] in Hl; try discriminate; cbn [app tl];
        rewrite ?length_app; cbn [List.length]; congruence.
    + rewrite !length_app. cbn [List.length]. congruence.
Qed.

Lemma checkV1System_histories e price r :
  let e' := fst (checkV1System e price r) in
  config e' = config e /\ v2RsiHistory e' = v2RsiHistory e
  /\ volumeHistory e' = volumeHistory e /\ recentHighs e' = recentHighs e
  /\ recentLows e' = recentLows e /\ position e' = position e
  /\ adx e' = adx e /\ atr e' = atr e.
Proof.
  cbv zeta. unfold checkV1System.
  destruct (v1Rsi r); [|cbn; auto 10].
  destruct (_ <? _); [cbn; auto 10|].
  destruct (negb _); [cbn; auto 10|].
  destruct (_ && negb (v1LastLongLook e)); [cbn; auto 10|].
  destruct (_ && negb (v1LastShortLook e)); cbn; auto 10.
Qed.

Lemma state_of_update e bar r :
  fst (update e bar r) = fst (v1Step e bar r).
Proof.
  unfold update, v1Step. destruct (checkV1System _ _ _) as [e2 [s|]]; [reflexivity|].
  destruct (checkV2System _ _ _ _ _); reflexivity.
Qed.

Lemma update_bounded e bar r : bounded e -> bounded (fst (update e bar r)).
Proof.
  intros Hb. rewrite state_of_update. unfold v1Step.
  pose proof (absorb_bar_bounded e bar r Hb) as [Hr Hv Hh Hl].
  destruct (checkV1System_histories (absorb_bar e bar r) (close bar) r)
    as (Hc & H1 & H2 & H3 & H4 & _).
  constructor; rewrite ?Hc, ?H1, ?H2, ?H3, ?H4; assumption.
Qed.

Lemma feed_bounded input : forall e, bounded e -> bounded (feed e input).
Proof.
  induction input as [|[bar r] rest IH]; intros e Hb; [exact Hb|].
  unfold feed. cbn [fold_left fst snd]. apply IH. apply update_bounded. exact Hb.
Qed.

(** X9: the histories of the dual-system engine stay bounded
    over any run of bars: at most 3 RSI values, at most
    [max(volumeLookback, 10)] volumes, at most 20 recent highs, and as
    many recent lows as recent highs. *)
Theorem peach_histories_bounded
    (cfg : PeachConfig) (e : t) (input : list (SyntheticBar * Readings)) :
  create cfg = inr e -> bounded (feed e input).
Proof.
  unfold create.
  destruct (ADX.create 14) as [|a]; [discriminate|].
  destruct (ATR.create 14) as [|b]; [discriminate|].
  intros H. injection H as <-. apply feed_bounded.
  constructor; cbn; unfold lookbackPeriod; lia.
Qed.

Lemma peach_histories_bounded_witness :
  bounded (feed Samples.peachEngine (Samples.bullishRun 30)).
Proof. apply (peach_histories_bounded Samples.peachConfig). reflexivity. Defined.

Lemma checkV2System_sound e r vol o c s :
  checkV2System e r vol o c = Some s ->
  v2Rsi r <> None
  /\ 3 <= Z.of_nat (List.length (v2RsiHistory e))
  /\ volumeHistory e <> []
  /\ system s = Some "v2"%string
  /\ match type s with
     | Long =>
         reason s = "v2-long"%string /\ gt c o = true
         /\ gt (v2EmaFast r) (v2EmaMid r) && gt (v2EmaMid r) (v2EmaSlow r) = true
     | Short =>
         reason s = "v2-short"%string /\ gt c o = false
         /\ lt (v2EmaFast r) (v2EmaMid r) && lt (v2EmaMid r) (v2EmaSlow r) = true
     end.
Proof.
  unfold checkV2System.
  destruct (v2Rsi r) as [rsi|]; [|discriminate].
  destruct (_ <? 3) eqn:E3; [discriminate|]. apply Z.ltb_ge in E3.
  destruct (_ =? 0) eqn:E0; [discriminate|].
  assert (Hne : volumeHistory e <> []).
  { intros Hnil. rewrite Hnil in E0. discriminate. }
  match goal with
  | |- (if ?b then _ else _) = _ -> _ => destruct b eqn:El
  end.
  - intros H. injection H as <-. cbn [type reason system].
    repeat (apply andb_true_iff in El; destruct El as [El ?]).
    repeat split; auto; discriminate.
  - match goal with
    | |- (if ?b then _ else _) = _ -> _ => destruct b eqn:Es
    end; [|discriminate].
    intros H. injection H as <-. cbn [type reason system].
    repeat (apply andb_true_iff in Es; destruct Es as [Es ?]).
    repeat split; auto; try discriminate.
    apply negb_true_iff. assumption.
Qed.

Lemma peach_tags_of e bar r s :
  snd (update e bar r) = Some s ->
  (type s, reason s, system s) = (Long, "v1-long"%string, Some "v1"%string)
  \/ (type s, reason s, system s) = (Short, "v1-short"%string, Some "v1"%string)
  \/ (type s, reason s, system s) = (Long, "v2-long"%string, Some "v2"%string)
  \/ (type s, reason s, system s) = (Short, "v2-short"%string, Some "v2"%string).
Proof.
  unfold update.
  destruct (checkV1System (absorb_bar e bar r) (close bar) r) as [e2 v1Signal] eqn:E1.
  destruct v1Signal as [s1|].
  - cbn [snd]. intros H. injection H as <-.
    assert (Hs : snd (v1Step e bar r) = Some s1) by (unfold v1Step; rewrite E1; reflexivity).
    destruct (v1Step_signal e bar r s1 Hs) as (_ & _ & _ & _ & Hsys & Ht).
    destruct (type s1); destruct Ht as (Hr & _); rewrite Hr, Hsys; auto.
  - destruct (checkV2System e2 r (volume bar) (open bar) (close bar)) as [s2|] eqn:E2;
      [|discriminate].
    cbn [snd]. intros H. injection H as <-.
    destruct (checkV2System_sound _ _ _ _ _ _ E2) as (_ & _ & _ & Hsys & Ht).
    destruct (type s2); destruct Ht as (Hr & _); rewrite Hr, Hsys; auto.
Qed.

(** X10: every signal that [update] of the dual-system engine
    returns is tagged consistently: a signal of the trend-bias system is
    ("long", "v1-long", "v1") or ("short", "v1-short", "v1"), one of the
    momentum system ("long", "v2-long", "v2") or ("short", "v2-short",
    "v2"); and when the trend-bias system returns a signal, [update] returns
    that signal without consulting the momentum system. *)
Theorem peach_signal_tags (e : t) (bar : SyntheticBar) (r : Readings) :
  (forall s, snd (update e bar r) = Some s ->
     (type s, reason s, system s) = (Long, "v1-long"%string, Some "v1"%string)
     \/ (type s, reason s, system s) = (Short, "v1-short"%string, Some "v1"%string)
     \/ (type s, reason s, system s) = (Long, "v2-long"%string, Some "v2"%string)
     \/ (type s, reason s, system s) = (Short, "v2-short"%string, Some "v2"%string))
  /\ (forall s, snd (v1Step e bar r) = Some s -> snd (update e bar r) = Some s).
Proof.
  split.
  - intros s. apply peach_tags_of.
  - intros s. unfold update, v1Step.
    destruct (checkV1System _ _ _) as [e2 v1Signal]. cbn [snd].
    intros ->. reflexivity.
Qed.

Lemma v2History_grows e bar r :
  Z.of_nat (List.length (v2RsiHistory (fst (update e bar r))))
  <= Z.of_nat (List.length (v2RsiHistory e)) + 1.
Proof.
  rewrite state_of_update. unfold v1Step.
  destruct (checkV1System_histories (absorb_bar e bar r) (close bar) r)
    as (_ & H1 & _). rewrite H1.
  unfold absorb_bar. cbn [v2RsiHistory].
  destruct (v2Rsi r) as [x|]; [|lia].
  destruct (3 <? _).
  - destruct (v2RsiHistory e) as [|y ys]; cbn [app tl List.length]; [lia|].
    rewrite length_app. cbn [List.length]. lia.
  - rewrite length_app. cbn [List.length]. lia.
Qed.

Lemma update_needs_history e bar r s :
  snd (update e bar r) = Some s -> system s = Some "v2"%string ->
  3 <= Z.of_nat (List.length (v2RsiHistory (fst (update e bar r)))).
Proof.
  rewrite state_of_update. unfold update, v1Step.
  destruct (checkV1System (absorb_bar e bar r) (close bar) r) as [e2 v1Signal] eqn:E1.
  destruct v1Signal as [s1|].
  - cbn [snd fst]. intros H Hsys. injection H as <-.
    assert (Hs : snd (v1Step e bar r) = Some s1) by (unfold v1Step; rewrite E1; reflexivity).
    destruct (v1Step_signal e bar r s1 Hs) as (_ & _ & _ & _ & Hv1 & _).
    rewrite Hv1 in Hsys. discriminate.
  - destruct (checkV2System e2 r (volume bar) (open bar) (close bar)) as [s2|] eqn:E2;
      [|discriminate].
    cbn [snd fst]. intros _ _.
    apply (checkV2System_sound _ _ _ _ _ _ E2).
Qed.

(** X11: what a signal of the momentum system guarantees, and when
    it cannot occur.  It needs a non-null RSI, three stored RSI values and
    a non-empty volume history; a long one comes only on a bar that closed
    above its open with a bullish EMA stack, a short one only on a bar
    that did not close above its open with a bearish stack.  A newly
    built engine therefore returns no momentum signal on its first two
    bars. *)
Theorem v2_signal_sound :
  (forall e r vol o c s,
     checkV2System e r vol o c = Some s ->
     v2Rsi r <> None
     /\ 3 <= Z.of_nat (List.length (v2RsiHistory e))
     /\ volumeHistory e <> []
     /\ match type s with
        | Long =>
            gt c o = true
            /\ gt (v2EmaFast r) (v2EmaMid r) && gt (v2EmaMid r) (v2EmaSlow r) = true
        | Short =>
            gt c o = false
            /\ lt (v2EmaFast r) (v2EmaMid r) && lt (v2EmaMid r) (v2EmaSlow r) = true
        end)
  /\ (forall cfg e bar1 r1 bar2 r2 s,
        create cfg = inr e ->
        (snd (update e bar1 r1) = Some s
         \/ snd (update (fst (update e bar1 r1)) bar2 r2) = Some s) ->
        system s = Some "v1"%string).
Proof.
  split.
  - intros e r vol o c s H.
    destruct (checkV2System_sound _ _ _ _ _ _ H) as (H1 & H2 & H3 & _ & H4).
    repeat split; auto. destruct (type s); destruct H4 as (_ & H5 & H6); auto.
  - intros cfg e bar1 r1 bar2 r2 s Hc Hs.
    assert (Hempty : v2RsiHistory e = []).
    { unfold create in Hc.
      destruct (ADX.create 14); [discriminate|]. destruct (ATR.create 14); [discriminate|].
      injection Hc as <-. reflexivity. }
    pose proof (v2History_grows e bar1 r1) as G1.
    pose proof (v2History_grows (fst (update e bar1 r1)) bar2 r2) as G2.
    rewrite Hempty in G1. cbn [List.length] in G1.
    destruct Hs as [Hs|Hs].
    + destruct (peach_tags_of _ _ _ _ Hs) as [H|[H|[H|H]]];
        injection H as _ _ Hsys; try exact Hsys;
        pose proof (update_needs_history _ _ _ _ Hs Hsys); lia.
    + destruct (peach_tags_of _ _ _ _ Hs) as [H|[H|[H|H]]];
        injection H as _ _ Hsys; try exact Hsys;
        pose proof (update_needs_history _ _ _ _ Hs Hsys); lia.
Qed.

Lemma v2_signal_sound_witness :
  map (option_map (fun s => (type s, reason s, system s)))
      (run Samples.peachEngine Samples.momentumRun)
  = [None; None; Some (Long, "v2-long"%string, Some "v2"%string)]
  /\ 3 <= Z.of_nat (List.length
                      (v2RsiHistory (feed Samples.peachEngine Samples.momentumRun))).
Proof.
  split; [vm_compute; reflexivity|].
  destruct (checkV2System (feed Samples.peachEngine Samples.momentumRun)
              (PeachHybridEngine.mkReadings 100 100 100 100 100 None 103 102 101
                 (Some 52%float)) 3 102 103)%float as [s|] eqn:E;
    [|vm_compute in E; discriminate].
  apply (proj1 v2_signal_sound _ _ _ _ _ s E).
Defined.

(** X12: [checkExitConditions] of the dual-system engine never
    asks for an exit while the engine holds no position or fewer than
    three RSI values are stored; when it does, the reason is
    "rsi-reversal" or "rsi-flattening-volume-drop".  With the stored
    values [a; b; c], a long position is left with "rsi-reversal"
    whenever [c < a] and a short one whenever [c > a], whatever the
    volume. *)
Theorem peach_exit_conditions (e : t) (bar : SyntheticBar) :
  (position e = None \/ position e = Some flat ->
     checkExitConditions e bar = mkDecision false "")
  /\ (Z.of_nat (List.length (v2RsiHistory e)) < 3 ->
      checkExitConditions e bar = mkDecision false "")
  /\ (shouldExit (checkExitConditions e bar) = true ->
      exitReason (checkExitConditions e bar) = "rsi-reversal"%string
      \/ exitReason (checkExitConditions e bar) = "rsi-flattening-volume-drop"%string)
  /\ (forall a b c,
        v2RsiHistory e = [a; b; c] ->
        (position e = Some long /\ lt c a = true)
        \/ (position e = Some short /\ gt c a = true) ->
        checkExitConditions e bar = mkDecision true "rsi-reversal").
Proof.
  unfold checkExitConditions.
  repeat split.
  - intros [-> | ->]; reflexivity.
  - intros H. apply Z.ltb_lt in H. rewrite Z.ltb_antisym in H.
    apply negb_true_iff in H. rewrite H.
    destruct (position e) as [[]|]; reflexivity.
  - destruct (position e) as [[]|]; cbn [shouldExit exitReason]; try discriminate;
      destruct (3 <=? _); cbn [shouldExit exitReason]; try discriminate;
      match goal with
      | |- shouldExit (if ?b then _ else _) = true -> _ => destruct b
      end; cbn [shouldExit exitReason]; try discriminate;
      match goal with
      | |- _ -> (if ?b then _ else _) = _ \/ _ => destruct b
      end; auto.
  - intros a b c Hh [[-> Hlt] | [-> Hgt]]; rewrite Hh;
      replace (slice (-3) [a; b; c]) with [a; b; c] by reflexivity;
      replace (3 <=? Z.of_nat (List.length [a; b; c])) with true by reflexivity;
      replace (at_index [a; b; c] (Z.of_nat (List.length [a; b; c]) - 1)) with c
        by reflexivity;
      replace (at_index [a; b; c] 0) with a by reflexivity;
      cbn [PositionSide_eqb andb orb].
    + rewrite Hlt. cbn [andb orb]. rewrite orb_true_r. reflexivity.
    + rewrite Hgt. cbn [andb orb]. rewrite orb_true_r. reflexivity.
Qed.

Lemma peach_exit_conditions_witness :
  checkExitConditions
    (setPosition (feed Samples.peachEngine Samples.momentumRun) short) Samples.noBar
  = mkDecision true "rsi-reversal".
Proof.
  destruct (peach_exit_conditions
              (setPosition (feed Samples.peachEngine Samples.momentumRun) short)
              Samples.noBar) as (_ & _ & _ & H).
  apply (H 40 45 52)%float; [vm_compute; reflexivity|].
  right. split; vm_compute; reflexivity.
Defined.

End PeachFacts.

(* ===================================================================== *)
(** ** PositionStateManager: frame, unparsable reports, runs of mismatches *)
(* ===================================================================== *)

Section FloatNaN.

Local Open Scope float_scope.

Lemma sub_nan_l (x : float) : nan - x = nan.
Proof.
  rewrite <- (FloatAxioms.SF2Prim_Prim2SF (nan - x)).
  rewrite FloatAxioms.sub_spec.
  replace (Prim2SF nan) with S754_nan by (vm_compute; reflexivity).
  unfold SF64sub, SFsub. vm_compute. reflexivity.
Qed.

End FloatNaN.

Module PSMMore.

Import JS.
Import PositionStateManager.
Import PSMFacts.

(** X13: what [updateFromRest] leaves alone.  It never touches
    [orderId] and [pendingOrder]; when it returns false the whole local
    state, [lastUpdate] included, is as before and only the failure counter
    has moved; when it returns true the local view is the normalised
    report, stamped with the time of the call. *)
Theorem updateFromRest_frame (m : t) (rest : RestState) (now : Z) :
  orderId (state (fst (updateFromRest m rest now))) = orderId (state m)
  /\ pendingOrder (state (fst (updateFromRest m rest now))) = pendingOrder (state m)
  /\ (snd (updateFromRest m rest now) = false ->
      state (fst (updateFromRest m rest now)) = state m)
  /\ (snd (updateFromRest m rest now) = true ->
      local_view (fst (updateFromRest m rest now)) = normalize rest
      /\ lastUpdate (state (fst (updateFromRest m rest now))) = now).
Proof.
  destruct (snd (updateFromRest m rest now)) eqn:E.
  - rewrite (updateFromRest_true m rest now E).
    unfold adopt, local_view. cbn [fst state orderId pendingOrder size side avgEntry
                                   unrealizedPnl lastUpdate].
    split; [reflexivity|]. split; [reflexivity|]. split; [discriminate|].
    intros _. split; [destruct (normalize rest); reflexivity | reflexivity].
  - destruct (updateFromRest_false m rest now E) as (-> & _).
    cbn [fst state]. split; [reflexivity|]. split; [reflexivity|].
    split; [reflexivity | discriminate].
Qed.

Lemma nan_report_normalized rest :
  positionAmt rest = nan ->
  n_side (normalize rest) = flat /\ n_size (normalize rest) = nan.
Proof.
  intros H. unfold normalize. rewrite H. cbn [n_side n_size].
  split; vm_compute; reflexivity.
Qed.

(** X14: a report whose [positionAmt] does not parse ([parseFloat]
    gives [NaN]) is read as a flat position of size [NaN].  While the
    local view is flat it never reconciles: every such report counts as a
    failure.  While the local view holds a position it is taken as
    authoritative: the local state becomes flat with size [NaN]. *)
Theorem unparsable_amount (m : t) (rest : RestState) (now : Z) :
  positionAmt rest = nan ->
  (side (state m) = flat ->
     updateFromRest m rest now = (mk (state m) (reconciliationFailures m + 1), false))
  /\ (side (state m) <> flat ->
      snd (updateFromRest m rest now) = true
      /\ side (state (fst (updateFromRest m rest now))) = flat
      /\ size (state (fst (updateFromRest m rest now))) = nan).
Proof.
  intros Hnan. destruct (nan_report_normalized rest Hnan) as [Hside Hsize].
  split.
  - intros Hflat. unfold updateFromRest, reconcile.
    cbn [n_side n_size n_avgEntry]. rewrite Hside, Hsize, Hflat.
    cbn [PositionSide_eqb andb negb]. unfold lt. rewrite sub_nan_l.
    replace (Math_abs nan <? 0.0001)%float with false by (vm_compute; reflexivity).
    reflexivity.
  - intros Hheld.
    rewrite (stale_adopted m rest now (or_introl (conj Hside Hheld))).
    unfold adopt. cbn [fst snd state side size]. auto.
Qed.

Lemma unparsable_amount_witness :
  snd (updateFromRest (create 0) Samples.garbledReport 7) = false
  /\ side (state (fst (updateFromRest Samples.heldLong Samples.garbledReport 7))) = flat.
Proof.
  destruct (unparsable_amount (create 0) Samples.garbledReport 7 eq_refl) as [Hflat _].
  destruct (unparsable_amount Samples.heldLong Samples.garbledReport 7 eq_refl) as [_ Hheld].
  split.
  - rewrite Hflat; reflexivity.
  - apply Hheld. vm_compute. discriminate.
Defined.

(** X15: a run of reports that each show a position that does not
    reconcile with the local one (both views hold a position; the sides
    differ, or the sizes are not within 0.0001, or the reported entry
    price is not zero and not within 1% of the local one) leaves the
    local state as it was and adds one failure per report;
    [shouldFreezeTrading] holds afterwards as soon as the counter was not
    negative and two reports came. *)
Theorem mismatch_run (m : t) (reports : list (RestState * Z)) :
  Forall (fun rn => position_mismatch m (fst rn)) reports ->
  refresh m reports
  = mk (state m) (reconciliationFailures m + Z.of_nat (List.length reports))
  /\ (0 <= reconciliationFailures m -> (2 <= List.length reports)%nat ->
      shouldFreezeTrading (refresh m reports) = true).
Proof.
  intros H.
  assert (Hrun : refresh m reports
                 = mk (state m) (reconciliationFailures m + Z.of_nat (List.length reports))).
  { revert m H. induction reports as [|[rep now] rest IH]; intros m H.
    - cbn [refresh fold_left List.length Z.of_nat]. rewrite Z.add_0_r.
      destruct m; reflexivity.
    - pose proof (Forall_inv H) as Hhd. apply Forall_inv_tail in H. cbn [fst] in Hhd.
      unfold refresh. cbn [fold_left fst snd].
      rewrite (position_mismatch_fails m rep now Hhd). cbn [fst].
      fold (refresh (mk (state m) (reconciliationFailures m + 1)) rest).
      rewrite IH.
      + cbn [state reconciliationFailures List.length]. f_equal. lia.
      + eapply Forall_impl; [|exact H]. intros rn Hrn. exact Hrn. }
  split; [exact Hrun|].
  intros H0 H2. rewrite Hrun. unfold shouldFreezeTrading, maxReconciliationFailures.
  cbn [reconciliationFailures]. apply Z.leb_le. lia.
Qed.

(** A local long of size 1 at 100 meets a report of a short position and
    then one of a long position of size 2. *)
Lemma mismatch_run_witness :
  reconciliationFailures
    (refresh Samples.heldLong [(Samples.shortReport, 10); (Samples.doubledReport, 20)]) = 2
  /\ state (refresh Samples.heldLong [(Samples.shortReport, 10); (Samples.doubledReport, 20)])
     = state Samples.heldLong
  /\ shouldFreezeTrading
       (refresh Samples.heldLong [(Samples.shortReport, 10); (Samples.doubledReport, 20)])
     = true.
Proof.
  destruct (mismatch_run Samples.heldLong
              [(Samples.shortReport, 10); (Samples.doubledReport, 20)]) as [Hrun Hfreeze].
  - constructor; [|constructor; [|constructor]]; cbn [fst]; unfold position_mismatch.
    + split; [vm_compute; discriminate|]. split; [vm_compute; discriminate|].
      left. vm_compute. discriminate.
    + split; [vm_compute; discriminate|]. split; [vm_compute; discriminate|].
      right. left. vm_compute. reflexivity.
  - split; [rewrite Hrun; reflexivity|]. split; [rewrite Hrun; reflexivity|].
    apply Hfreeze; [vm_compute; discriminate | cbn [List.length]; lia].
Defined.

End PSMMore.

(* ===================================================================== *)
(** ** TradeStatistics: recording and statistics *)
(* ===================================================================== *)

Section FloatSigns.

Local Open Scope float_scope.

Lemma zero_le_lt_trans (m d : float) :
  (0 <=? m) = true -> (m <? d) = true -> (0 <=? d) = true.
Proof.
  rewrite !FloatAxioms.leb_spec, FloatAxioms.ltb_spec.
  replace (Prim2SF 0) with (S754_zero false) by (vm_compute; reflexivity).
  unfold SFleb, SFltb.
  destruct (Prim2SF m) as [[]|[]| |[] mm em], (Prim2SF d) as [[]|[]| |[] md ed];
    cbn [SFcompare]; intros H1 H2; try discriminate; try reflexivity.
Qed.

Lemma pos_above_neg_infinity (x : float) :
  (0 <? x) = true -> (neg_infinity <? x) = true.
Proof.
  rewrite !FloatAxioms.ltb_spec.
  replace (Prim2SF 0) with (S754_zero false) by (vm_compute; reflexivity).
  replace (Prim2SF neg_infinity) with (S754_infinity true) by (vm_compute; reflexivity).
  unfold SFltb.
  destruct (Prim2SF x) as [sx|sx| |sx mx ex]; cbn [SFcompare]; try discriminate;
    destruct sx; try discriminate; reflexivity.
Qed.

Lemma neg_below_infinity (x : float) :
  (x <? 0) = true -> (x <? infinity) = true.
Proof.
  rewrite !FloatAxioms.ltb_spec.
  replace (Prim2SF 0) with (S754_zero false) by (vm_compute; reflexivity).
  replace (Prim2SF infinity) with (S754_infinity false) by (vm_compute; reflexivity).
  unfold SFltb.
  destruct (Prim2SF x) as [sx|sx| |sx mx ex]; cbn [SFcompare]; try discriminate;
    destruct sx; try discriminate; reflexivity.
Qed.

Lemma Math_max_picks (a b : float) :
  is_nan a = false -> is_nan b = false ->
  JS.Math_max a b = a \/ JS.Math_max a b = b.
Proof.
  intros Ha Hb. unfold JS.Math_max. rewrite Ha, Hb. cbn [orb].
  destruct (a <? b); [auto|]. destruct (b <? a); [auto|].
  destruct (get_sign a); auto.
Qed.

Lemma Math_min_picks (a b : float) :
  is_nan a = false -> is_nan b = false ->
  JS.Math_min a b = a \/ JS.Math_min a b = b.
Proof.
  intros Ha Hb. unfold JS.Math_min. rewrite Ha, Hb. cbn [orb].
  destruct (a <? b); [auto|]. destruct (b <? a); [auto|].
  destruct (get_sign a); auto.
Qed.

End FloatSigns.

Module TradeStatsFacts.

Import JS.
Import TradeStatistics.

(** X16: how trades get recorded.  [startTrade] never changes the
    list of trades; [closeTrade] without an open trade changes nothing;
    [closeTrade] after [startTrade] appends exactly one record, built from
    the arguments of both calls, and leaves no trade open, so that closing
    twice records once; a [startTrade] while a trade is open replaces it,
    and the replaced trade is never recorded. *)
Theorem trade_lifecycle (s : t) :
  (forall d entry sz lev t0, trades (startTrade s d entry sz lev t0) = trades s)
  /\ (forall x why t1, currentTrade s = None -> closeTrade s x why t1 = s)
  /\ (forall d entry sz lev t0 x why t1,
        closeTrade (startTrade s d entry sz lev t0) x why t1
        = mk (trades s ++
              [mkTrade t0 d entry x t0 t1 sz
                 (calculatePnL (mkOpen t0 d entry t0 sz lev) x)
                 (calculatePnLPercent (mkOpen t0 d entry t0 sz lev) x)
                 why lev])
             None)
  /\ (forall x why t1 x' why' t1',
        closeTrade (closeTrade s x why t1) x' why' t1' = closeTrade s x why t1)
  /\ (forall d entry sz lev t0 d' entry' sz' lev' t0',
        startTrade (startTrade s d entry sz lev t0) d' entry' sz' lev' t0'
        = startTrade s d' entry' sz' lev' t0').
Proof.
  repeat split.
  - intros x why t1 H. unfold closeTrade. rewrite H. reflexivity.
  - intros x why t1 x' why' t1'. unfold closeTrade.
    destruct (currentTrade s) eqn:E; cbn [currentTrade]; [reflexivity|].
    rewrite E. reflexivity.
Qed.

Lemma filter_exclusive {A} (p q : A -> bool) (xs : list A) :
  (forall x, p x = true -> q x = false) ->
  (List.length (filter p xs) + List.length (filter q xs) <= List.length xs)%nat.
Proof.
  intros H. induction xs as [|x xs IH]; [cbn; lia|].
  cbn [filter]. destruct (p x) eqn:Ep.
  - rewrite (H x Ep). cbn [List.length]. lia.
  - destruct (q x); cbn [List.length]; lia.
Qed.

Lemma drawdown_nonneg xs : forall peak dd run,
  (0 <=? dd)%float = true ->
  (0 <=? snd (fst (fold_left drawdownStep xs (peak, dd, run))))%float = true.
Proof.
  induction xs as [|x xs IH]; intros peak dd run H; [exact H|].
  cbn [fold_left]. unfold drawdownStep at 2.
  apply IH.
  match goal with |- (0 <=? (if ?b then _ else _))%float = true => destruct b eqn:E end;
    [|exact H].
  unfold gt in E. exact (zero_le_lt_trans _ _ H E).
Qed.

(** X17: the counts and the drawdown of [getStats].  [totalTrades]
    is the number of recorded trades; a trade counts as winning when its
    [pnl] is above zero and as losing when it is below, never as both, so
    that winning and losing trades together never exceed the total (a
    trade closed at break-even, or with a [NaN] pnl, is neither);
    [maxDrawdown] is never below zero and never [NaN]. *)
Theorem stats_counts (s : t) :
  totalTrades (getStats s) = count (trades s)
  /\ winningTrades (getStats s) = count (filter (fun t => gt (pnl t) 0%float) (trades s))
  /\ losingTrades (getStats s) = count (filter (fun t => lt (pnl t) 0%float) (trades s))
  /\ 0 <= winningTrades (getStats s)
  /\ 0 <= losingTrades (getStats s)
  /\ winningTrades (getStats s) + losingTrades (getStats s) <= totalTrades (getStats s)
  /\ le 0%float (maxDrawdown (getStats s)) = true.
Proof.
  assert (Hex : (List.length (filter (fun t => gt (pnl t) 0%float) (trades s))
                 + List.length (filter (fun t => lt (pnl t) 0%float) (trades s))
                 <= List.length (trades s))%nat).
  { apply filter_exclusive. intros x Hx. unfold gt, lt in *. apply ltb_asym. exact Hx. }
  unfold getStats, count in *.
  destruct (Z.of_nat (List.length (trades s)) =? 0) eqn:E.
  - apply Z.eqb_eq in E.
    cbn [totalTrades winningTrades losingTrades maxDrawdown].
    repeat split; try lia; vm_compute; reflexivity.
  - cbn [totalTrades winningTrades losingTrades maxDrawdown].
    repeat split; try lia;
      unfold le, drawdownOf; apply drawdown_nonneg; vm_compute; reflexivity.
Qed.

Lemma max_list_positive xs : forall acc,
  Forall (fun x => (0 <? x)%float = true) xs ->
  (0 <? acc)%float = true ->
  (0 <? fold_left Math_max xs acc)%float = true
  /\ (fold_left Math_max xs acc = acc \/ In (fold_left Math_max xs acc) xs).
Proof.
  induction xs as [|x xs IH]; intros acc Hall Hacc; [cbn; auto|].
  pose proof (Forall_inv Hall) as Hx. apply Forall_inv_tail in Hall.
  cbn [fold_left].
  destruct (Math_max_picks acc x (ltb_right_not_nan _ _ Hacc) (ltb_right_not_nan _ _ Hx))
    as [E|E]; rewrite E.
  - destruct (IH acc Hall Hacc) as [Hp [Hi|Hi]]; split; auto. right. right. exact Hi.
  - destruct (IH x Hall Hx) as [Hp [Hi|Hi]]; split; auto.
    + right. left. symmetry. exact Hi.
    + right. right. exact Hi.
Qed.

Lemma min_list_negative xs : forall acc,
  Forall (fun x => (x <? 0)%float = true) xs ->
  (acc <? 0)%float = true ->
  (fold_left Math_min xs acc <? 0)%float = true
  /\ (fold_left Math_min xs acc = acc \/ In (fold_left Math_min xs acc) xs).
Proof.
  induction xs as [|x xs IH]; intros acc Hall Hacc; [cbn; auto|].
  pose proof (Forall_inv Hall) as Hx. apply Forall_inv_tail in Hall.
  cbn [fold_left].
  destruct (Math_min_picks acc x (ltb_left_not_nan _ _ Hacc) (ltb_left_not_nan _ _ Hx))
    as [E|E]; rewrite E.
  - destruct (IH acc Hall Hacc) as [Hp [Hi|Hi]]; split; auto. right. right. exact Hi.
  - destruct (IH x Hall Hx) as [Hp [Hi|Hi]]; split; auto.
    + right. left. symmetry. exact Hi.
    + right. right. exact Hi.
Qed.

Lemma max_list_first (x : number) (xs : list number) :
  (0 <? x)%float = true -> fold_left Math_max (x :: xs) neg_infinity = fold_left Math_max xs x.
Proof.
  intros Hx. cbn [fold_left]. f_equal. unfold Math_max.
  replace (is_nan neg_infinity) with false by (vm_compute; reflexivity).
  rewrite (ltb_right_not_nan _ _ Hx). cbn [orb].
  rewrite (pos_above_neg_infinity x Hx). reflexivity.
Qed.

Lemma min_list_first (x : number) (xs : list number) :
  (x <? 0)%float = true -> fold_left Math_min (x :: xs) infinity = fold_left Math_min xs x.
Proof.
  intros Hx. cbn [fold_left]. f_equal. unfold Math_min.
  replace (is_nan infinity) with false by (vm_compute; reflexivity).
  rewrite (ltb_left_not_nan _ _ Hx). cbn [orb].
  rewrite (ltb_asym _ _ (neg_below_infinity x Hx)).
  rewrite (neg_below_infinity x Hx). reflexivity.
Qed.

(** X18: [largestWin] and [largestLoss] of [getStats].  Without a
    winning trade [largestWin] is 0; otherwise it is the [pnl] of a
    recorded trade and above zero.  Without a losing trade [largestLoss]
    is 0; otherwise it is the [pnl] of a recorded trade and below zero. *)
Theorem largest_win_and_loss (s : t) :
  (winningTrades (getStats s) = 0 -> largestWin (getStats s) = 0%float)
  /\ (0 < winningTrades (getStats s) ->
      gt (largestWin (getStats s)) 0%float = true
      /\ In (largestWin (getStats s)) (map pnl (trades s)))
  /\ (losingTrades (getStats s) = 0 -> largestLoss (getStats s) = 0%float)
  /\ (0 < losingTrades (getStats s) ->
      lt (largestLoss (getStats s)) 0%float = true
      /\ In (largestLoss (getStats s)) (map pnl (trades s))).
Proof.
  unfold getStats, count.
  destruct (Z.of_nat (List.length (trades s)) =? 0) eqn:E;
    cbn [winningTrades losingTrades largestWin largestLoss].
  { repeat split; intros; try reflexivity; lia. }
  set (winning := filter (fun t => gt (pnl t) 0%float) (trades s)).
  set (losing := filter (fun t => lt (pnl t) 0%float) (trades s)).
  assert (Hw : Forall (fun x => (0 <? x)%float = true) (map pnl winning)).
  { apply Forall_map. apply Forall_forall. intros x Hx.
    apply filter_In in Hx. exact (proj2 Hx). }
  assert (Hl : Forall (fun x => (x <? 0)%float = true) (map pnl losing)).
  { apply Forall_map. apply Forall_forall. intros x Hx.
    apply filter_In in Hx. exact (proj2 Hx). }
  assert (Hwin : forall x, In x (map pnl winning) -> In x (map pnl (trades s))).
  { intros x Hx. apply in_map_iff in Hx. destruct Hx as (tr & <- & Hin).
    apply in_map. apply filter_In in Hin. exact (proj1 Hin). }
  assert (Hlin : forall x, In x (map pnl losing) -> In x (map pnl (trades s))).
  { intros x Hx. apply in_map_iff in Hx. destruct Hx as (tr & <- & Hin).
    apply in_map. apply filter_In in Hin. exact (proj1 Hin). }
  split; [|split; [|split]].
  - intros H0. destruct (0 <? _) eqn:Ep; [apply Z.ltb_lt in Ep; lia | reflexivity].
  - intros Hp. apply Z.ltb_lt in Hp. rewrite Hp. unfold max_list, gt.
    destruct (map pnl winning) as [|x xs] eqn:Em.
    { apply (f_equal (@List.length _)) in Em. rewrite length_map in Em.
      apply Z.ltb_lt in Hp. cbn in Em. lia. }
    rewrite (max_list_first x xs (Forall_inv Hw)).
    destruct (max_list_positive xs x (Forall_inv_tail Hw) (Forall_inv Hw)) as [Hpos Hin].
    split; [exact Hpos|].
    destruct Hin as [Hi|Hi].
    + rewrite Hi. apply Hwin. left. reflexivity.
    + apply Hwin. right. exact Hi.
  - intros H0. destruct (0 <? _) eqn:Ep; [apply Z.ltb_lt in Ep; lia | reflexivity].
  - intros Hp. apply Z.ltb_lt in Hp. rewrite Hp. unfold min_list, lt.
    destruct (map pnl losing) as [|x xs] eqn:Em.
    { apply (f_equal (@List.length _)) in Em. rewrite length_map in Em.
      apply Z.ltb_lt in Hp. cbn in Em. lia. }
    rewrite (min_list_first x xs (Forall_inv Hl)).
    destruct (min_list_negative xs x (Forall_inv_tail Hl) (Forall_inv Hl)) as [Hneg Hin].
    split; [exact Hneg|].
    destruct Hin as [Hi|Hi].
    + rewrite Hi. apply Hlin. left. reflexivity.
    + apply Hlin. right. exact Hi.
Qed.

Lemma slice_suffix {A} (start : Z) (xs : list A) :
  exists front, xs = (front ++ slice start xs)%list.
Proof.
  unfold slice. exists (firstn (Z.to_nat
    (if start <? 0 then Z.max (Z.of_nat (List.length xs) + start) 0
     else Z.min start (Z.of_nat (List.length xs)))) xs).
  symmetry. apply firstn_skipn.
Qed.

(** X19: [getRecentTrades(limit)] returns the last
    [min(limit, number of trades)] recorded trades, in order, for a
    positive [limit] (10 when the argument is left out); for [limit = 0]
    it returns all of them, because [slice(-0)] is [slice(0)]. *)
Theorem recent_trades (s : t) :
  (forall limit, 0 < limit ->
     (exists front, trades s = (front ++ getRecentTrades s (Some limit))%list)
     /\ Z.of_nat (List.length (getRecentTrades s (Some limit)))
        = Z.min limit (count (trades s)))
  /\ getRecentTrades s None = getRecentTrades s (Some 10)
  /\ getRecentTrades s (Some 0) = trades s.
Proof.
  split; [|split].
  - intros limit Hpos. split; [apply slice_suffix|].
    unfold getRecentTrades, slice, count.
    assert (Hneg : ((- limit) <? 0) = true) by (apply Z.ltb_lt; lia).
    rewrite Hneg. rewrite length_skipn. lia.
  - reflexivity.
  - unfold getRecentTrades, slice.
    replace (- 0 <? 0) with false by reflexivity.
    rewrite Z.min_l by lia. reflexivity.
Qed.

Lemma largest_win_and_loss_witness :
  largestWin (TradeStatistics.getStats Samples.tradedTwice) = 1%float
  /\ largestLoss (TradeStatistics.getStats Samples.tradedTwice) = (-2)%float
  /\ gt (largestWin (TradeStatistics.getStats Samples.tradedTwice)) 0%float = true
  /\ lt (largestLoss (TradeStatistics.getStats Samples.tradedTwice)) 0%float = true.
Proof.
  destruct (largest_win_and_loss Samples.tradedTwice) as (_ & Hw & _ & Hl).
  split; [vm_compute; reflexivity|]. split; [vm_compute; reflexivity|].
  split; [apply Hw | apply Hl]; vm_compute; reflexivity.
Defined.

Lemma stats_counts_witness :
  totalTrades (getStats Samples.tradedTwice) = 2
  /\ winningTrades (getStats Samples.tradedTwice) = 1
  /\ losingTrades (getStats Samples.tradedTwice) = 1
  /\ maxDrawdown (getStats Samples.tradedTwice) = 2%float.
Proof.
  destruct (stats_counts Samples.tradedTwice) as (Ht & Hw & Hl & _).
  rewrite Ht, Hw, Hl. repeat split; vm_compute; reflexivity.
Defined.

End TradeStatsFacts.

(* ===================================================================== *)
(** ** BotRunner: order path, protective exits, freezing, polling *)
(* ===================================================================== *)

Module RunnerMore.

Import JS.
Import BotRunner.
Import RunnerFacts.

Lemma executor_calls_app xs ys :
  executor_calls (xs ++ ys) = (executor_calls xs ++ executor_calls ys)%list.
Proof.
  induction xs as [|x xs IH]; [reflexivity|].
  destruct x; cbn [app executor_calls]; rewrite IH; reflexivity.
Qed.

Ltac xsimpl :=
  rsimpl; rewrite ?executor_calls_app; cbn [executor_calls app]; rewrite ?app_nil_r.

Lemma still_refl r : still r r.
Proof. constructor; reflexivity. Qed.

Lemma still_trans r1 r2 r3 : still r1 r2 -> still r2 r3 -> still r1 r3.
Proof. intros [] []; constructor; congruence. Qed.

Lemma lossCooldown_still env sg r :
  still r (after (lossCooldown env sg) r)
  /\ exists b, result (lossCooldown env sg) r = Normal b.
Proof.
  unfold lossCooldown. unfold_m.
  destruct (2 <=? consecutiveLosses r); [|split; [apply still_refl | eexists; reflexivity]].
  destruct (_ <? cooldownPeriod); rsimpl;
    (split; [constructor; xsimpl; reflexivity | eexists; reflexivity]).
Qed.

Lemma peachGate_still env sg bar r :
  still r (after (peachGate env sg bar) r)
  /\ exists b, result (peachGate env sg bar) r = Normal b.
Proof.
  unfold peachGate. unfold_m.
  destruct (isPeachHybrid r); cbn [negb]; [|split; [apply still_refl | eexists; reflexivity]].
  destruct (view_adx (view env)) as [v|];
    [|rsimpl; split; [constructor; xsimpl; reflexivity | eexists; reflexivity]].
  destruct (shouldAllowTrading _ _); cbn [negb];
    [|rsimpl; split; [constructor; xsimpl; reflexivity | eexists; reflexivity]].
  destruct (view_atr (view env)) as [atr|].
  - destruct (truthy atr && gt atr _)%bool.
    + destruct (lt _ _); rsimpl.
      * split; [constructor; xsimpl; reflexivity | eexists; reflexivity].
      * destruct (view_v2Rsi (view env)) as [x|];
          [destruct (rsiTooExtreme _ x)|]; rsimpl;
          (split; [constructor; xsimpl; reflexivity | eexists; reflexivity]).
    + rsimpl. destruct (view_v2Rsi (view env)) as [x|];
        [destruct (rsiTooExtreme _ x)|]; rsimpl;
        (split; [constructor; xsimpl; reflexivity | eexists; reflexivity]).
  - rsimpl. destruct (view_v2Rsi (view env)) as [x|];
      [destruct (rsiTooExtreme _ x)|]; rsimpl;
      (split; [constructor; xsimpl; reflexivity | eexists; reflexivity]).
Qed.

(** What [applySignal] does once both gates are passed or not. *)
Lemma applySignal_unfolded env sg bar r :
  applySignal env (Some sg) bar r
  = match lossCooldown env sg r with
    | (Normal true, r1) => (Normal false, r1)
    | (Normal false, r1) =>
        match peachGate env sg bar r1 with
        | (Normal true, r2) => (Normal false, r2)
        | (Normal false, r2) => place env sg bar r2
        | (Throw e, r2) => (Throw e, r2)
        end
    | (Throw e, r1) => (Throw e, r1)
    end.
Proof.
  unfold applySignal, gateAndPlace, bind, ret.
  destruct (lossCooldown env sg r) as [[[]|e] r1]; try reflexivity.
  destruct (peachGate env sg bar r1) as [[[]|e] r2]; reflexivity.
Qed.

Lemma applySignal_through env sg bar r :
  exists r2,
    still r r2
    /\ (applySignal env (Some sg) bar r = (Normal false, r2)
        \/ applySignal env (Some sg) bar r = place env sg bar r2).
Proof.
  rewrite applySignal_unfolded.
  destruct (lossCooldown_still env sg r) as [S1 [b1 R1]].
  unfold result in R1. unfold after in S1.
  destruct (lossCooldown env sg r) as [c1 r1]. cbn [fst snd] in *. subst c1.
  destruct b1.
  { exists r1. split; [exact S1 | left; reflexivity]. }
  destruct (peachGate_still env sg bar r1) as [S2 [b2 R2]].
  unfold result in R2. unfold after in S2.
  destruct (peachGate env sg bar r1) as [c2 r2]. cbn [fst snd] in *. subst c2.
  exists r2. split; [exact (still_trans _ _ _ S1 S2)|].
  destruct b2; [left | right]; reflexivity.
Qed.

Lemma place_same_side env sg bar r :
  side (position r) = sideOf (type sg) -> place env sg bar r = (Normal false, r).
Proof.
  intros H. apply side_eqb_eq in H. unfold place. unfold_m. rewrite H. reflexivity.
Qed.

(** X20: a signal for the side that the runner already holds is
    dropped: [applySignal] returns false, calls the executor neither to
    close nor to enter, and leaves the position, the flip history and the
    times of entry and close as they are. *)
Theorem same_side_signal_ignored
    (env : Env) (sg : StrategySignal) (bar : SyntheticBar) (r : t) :
  side (position r) = sideOf (type sg) ->
  result (applySignal env (Some sg) bar) r = Normal false
  /\ still r (after (applySignal env (Some sg) bar) r).
Proof.
  intros Hside.
  destruct (applySignal_through env sg bar r) as (r2 & S & [E|E]);
    unfold result, after; rewrite E.
  - split; [reflexivity | exact S].
  - rewrite place_same_side by (rewrite (s_position _ _ S); exact Hside).
    split; [reflexivity | exact S].
Qed.

Lemma same_side_signal_ignored_witness :
  result (applySignal (Samples.envAt 1600000) (Some (Samples.signalOf Long))
            (Samples.barAt 1600000 101%float)) Samples.youngLong = Normal false
  /\ executor_calls
       (events (after (applySignal (Samples.envAt 1600000) (Some (Samples.signalOf Long))
                         (Samples.barAt 1600000 101%float)) Samples.youngLong))
     = [].
Proof.
  destruct (same_side_signal_ignored (Samples.envAt 1600000) (Samples.signalOf Long)
              (Samples.barAt 1600000 101%float) Samples.youngLong eq_refl) as [Hr Hs].
  split; [exact Hr|]. rewrite (s_calls _ _ Hs). reflexivity.
Defined.

Lemma ceil_div_bounds a b : 0 < b -> 0 < a <= 2 * b -> 1 <= ceil_div a b <= 2.
Proof.
  intros Hb Ha. unfold ceil_div.
  assert (H1 : - a / b < 0).
  { apply Z.div_lt_upper_bound; lia. }
  assert (H2 : -2 <= - a / b).
  { apply Z.div_le_lower_bound; lia. }
  lia.
Qed.

Lemma place_cooling env sg bar r :
  PositionSide_eqb (side (position r)) (sideOf (type sg)) = false ->
  0 < lastPositionCloseTime r ->
  endTime bar - lastPositionCloseTime r < 2 * timeframeMs (config r) ->
  place env sg bar r
  = (Normal false,
     set_events
       (events r ++
        [LogSignal (type sg) SKIPPED
           (Some (CooldownAfterClose
                    (ceil_div (2 * timeframeMs (config r)
                               - (endTime bar - lastPositionCloseTime r))
                              (timeframeMs (config r)))));
         Log "Preventing immediate reversal - 2-bar cooldown required"])%list r).
Proof.
  intros Hside H0 Hd. apply Z.ltb_lt in H0, Hd.
  unfold place. unfold_m. rewrite Hside, H0, Hd. cbn [andb].
  unfold set_events. rsimpl. rewrite <- app_assoc. reflexivity.
Qed.

(** X21: within two bars after a close, no signal opens a position:
    when [lastPositionCloseTime] is set and the bar ends less than
    [2 * timeframeMs] after it, [applySignal] returns false without
    calling the executor and leaves position and flip history alone; the
    signal that reaches this check is logged as skipped with 1 or 2 bars
    remaining. *)
Theorem cooldown_after_close
    (env : Env) (sg : StrategySignal) (bar : SyntheticBar) (r : t) :
  0 < lastPositionCloseTime r ->
  endTime bar - lastPositionCloseTime r < 2 * timeframeMs (config r) ->
  (result (applySignal env (Some sg) bar) r = Normal false
   /\ still r (after (applySignal env (Some sg) bar) r))
  /\ (side (position r) <> sideOf (type sg) ->
      let barsRemaining :=
        ceil_div (2 * timeframeMs (config r) - (endTime bar - lastPositionCloseTime r))
                 (timeframeMs (config r)) in
      skip_reasons (events (after (place env sg bar) r))
      = (skip_reasons (events r) ++ [CooldownAfterClose barsRemaining])%list
      /\ (lastPositionCloseTime r <= endTime bar -> 1 <= barsRemaining <= 2)).
Proof.
  intros H0 Hd. split.
  - destruct (applySignal_through env sg bar r) as (r2 & S & [E|E]);
      unfold result, after; rewrite E; [split; [reflexivity | exact S]|].
    destruct (PositionSide_eqb (side (position r2)) (sideOf (type sg))) eqn:Es.
    + apply side_eqb_eq in Es. rewrite (place_same_side _ _ _ _ Es).
      split; [reflexivity | exact S].
    + rewrite place_cooling;
        [| exact Es
         | rewrite (s_closeTime _ _ S); exact H0
         | rewrite (s_closeTime _ _ S), (s_config _ _ S); exact Hd].
      cbn [fst snd]. split; [reflexivity|].
      destruct S. constructor; xsimpl; assumption.
  - intros Hside. apply side_eqb_neq in Hside. cbv zeta.
    unfold after. rewrite (place_cooling env sg bar r Hside H0 Hd). cbn [snd].
    rsimpl. rewrite skip_reasons_app. cbn [skip_reasons app].
    split; [reflexivity|].
    intros Hle. apply ceil_div_bounds; lia.
Qed.

Lemma cooldown_after_close_witness :
  let r := BotRunner.set_lastPositionCloseTime 1000000 Samples.peachRunner in
  result (applySignal (Samples.envAt 1030000) (Some (Samples.signalOf Long))
            (Samples.barAt 1030000 100%float)) r = Normal false
  /\ skip_reasons (events (after (place (Samples.envAt 1030000) (Samples.signalOf Long)
                                    (Samples.barAt 1030000 100%float)) r))
     = [CooldownAfterClose 1].
Proof.
  cbv zeta.
  destruct (cooldown_after_close (Samples.envAt 1030000) (Samples.signalOf Long)
              (Samples.barAt 1030000 100%float)
              (BotRunner.set_lastPositionCloseTime 1000000 Samples.peachRunner))
    as [[Hr _] Hs]; [vm_compute; reflexivity | vm_compute; reflexivity |].
  split; [exact Hr|].
  destruct Hs as [Hs _]; [vm_compute; discriminate|].
  rewrite Hs. vm_compute. reflexivity.
Defined.

Lemma opposite_not_same d : PositionSide_eqb (opposite d) (sideOf d) = false.
Proof. destruct d; reflexivity. Qed.

Lemma place_young env sg bar r :
  side (position r) = opposite (type sg) ->
  endTime bar - lastPositionEntryTime r < minHoldTimeMs ->
  result (place env sg bar) r = Normal false
  /\ position (after (place env sg bar) r) = position r
  /\ executor_calls (events (after (place env sg bar) r)) = executor_calls (events r)
  /\ (((0 <? lastPositionCloseTime r)
       && (endTime bar - lastPositionCloseTime r <? 2 * timeframeMs (config r)))%bool
      = false ->
      flipsInWindow (endTime bar) r < maxFlipsPerHour (risk (config r)) ->
      skip_reasons (events (after (place env sg bar) r))
      = (skip_reasons (events r) ++
         [MinimumHoldTime
            (ceil_div (minHoldTimeMs - (endTime bar - lastPositionEntryTime r)) 1000)])%list).
Proof.
  intros Hopp Hheld. apply Z.ltb_lt in Hheld.
  unfold place, canFlip. unfold_m.
  rewrite Hopp, opposite_not_same. rewrite Hheld.
  replace (PositionSide_eqb (opposite (type sg)) (opposite (type sg))) with true
    by (destruct (type sg); reflexivity).
  cbn [andb].
  destruct ((0 <? lastPositionCloseTime r)
            && (endTime bar - lastPositionCloseTime r <? 2 * timeframeMs (config r)))%bool.
  { xsimpl. repeat split; try reflexivity. discriminate. }
  unfold flipsInWindow, inWindow.
  destruct (maxFlipsPerHour (risk (config r)) <=? _) eqn:Eb.
  - xsimpl. repeat split; try reflexivity.
    intros _ Hlt. apply Z.leb_le in Eb. lia.
  - xsimpl. repeat split; try reflexivity.
    intros _ _. rewrite !skip_reasons_app. cbn [skip_reasons app].
    rewrite app_nil_r. reflexivity.
Qed.

(** X22: a position is not flipped before it is five minutes old:
    when the runner holds the side opposite to the signal and the bar
    ends less than 300000 ms after the entry, [applySignal] returns
    false, calls the executor neither to close nor to enter, and keeps
    the position; the signal that reaches this check with budget left is
    logged as skipped with the seconds that remain. *)
Theorem minimum_hold_time
    (env : Env) (sg : StrategySignal) (bar : SyntheticBar) (r : t) :
  side (position r) = opposite (type sg) ->
  endTime bar - lastPositionEntryTime r < minHoldTimeMs ->
  (result (applySignal env (Some sg) bar) r = Normal false
   /\ position (after (applySignal env (Some sg) bar) r) = position r
   /\ executor_calls (events (after (applySignal env (Some sg) bar) r))
      = executor_calls (events r))
  /\ (((0 <? lastPositionCloseTime r)
       && (endTime bar - lastPositionCloseTime r <? 2 * timeframeMs (config r)))%bool
      = false ->
      flipsInWindow (endTime bar) r < maxFlipsPerHour (risk (config r)) ->
      skip_reasons (events (after (place env sg bar) r))
      = (skip_reasons (events r) ++
         [MinimumHoldTime
            (ceil_div (minHoldTimeMs - (endTime bar - lastPositionEntryTime r)) 1000)])%list).
Proof.
  intros Hopp Hheld. split; [|apply (place_young env sg bar r Hopp Hheld)].
  destruct (applySignal_through env sg bar r) as (r2 & S & [E|E]);
    unfold result, after; rewrite E.
  - cbn [fst snd]. rewrite (s_position _ _ S), (s_calls _ _ S). auto.
  - destruct (place_young env sg bar r2) as (Hr & Hp & Hc & _).
    + rewrite (s_position _ _ S). exact Hopp.
    + rewrite (s_entryTime _ _ S). exact Hheld.
    + unfold result, after in Hr, Hp, Hc.
      rewrite Hr, Hp, Hc, (s_position _ _ S), (s_calls _ _ S). auto.
Qed.

Lemma minimum_hold_time_witness :
  result (applySignal (Samples.envAt 1100000) (Some (Samples.signalOf Short))
            (Samples.barAt 1100000 101%float))
         (set_lastPositionEntryTime 1000000 Samples.youngLong) = Normal false
  /\ skip_reasons
       (events (after (place (Samples.envAt 1100000) (Samples.signalOf Short)
                         (Samples.barAt 1100000 101%float))
                      (set_lastPositionEntryTime 1000000 Samples.youngLong)))
     = [MinimumHoldTime 200].
Proof.
  destruct (minimum_hold_time (Samples.envAt 1100000) (Samples.signalOf Short)
              (Samples.barAt 1100000 101%float)
              (set_lastPositionEntryTime 1000000 Samples.youngLong))
    as [(Hr & _) Hs]; [reflexivity | vm_compute; reflexivity |].
  split; [exact Hr|].
  rewrite Hs; [vm_compute; reflexivity | reflexivity | vm_compute; reflexivity].
Defined.


Lemma closePosition_done env reason meta r :
  side (position r) <> flat ->
  closeResult env = Resolved ->
  let r' := after (closePosition env reason meta) r in
  result (closePosition env reason meta) r = Normal tt
  /\ position r' = flatPosition
  /\ highestPrice r' = None /\ lowestPrice r' = None
  /\ lastPositionCloseTime r' = closeTimestamp r env
  /\ lastPositionEntryTime r' = lastPositionEntryTime r
  /\ executor_calls (events r')
     = (executor_calls (events r) ++ [ExecutorClosePosition reason meta])%list.
Proof.
  intros Hside Hres. apply side_eqb_neq in Hside.
  unfold closePosition. unfold_m. rewrite Hside, Hres.
  destruct (isPeachHybrid r); destruct (lt _ _); xsimpl; repeat split; reflexivity.
Qed.

Lemma closePosition_thrown env reason meta r err :
  side (position r) <> flat ->
  closeResult env = Rejected err ->
  isReduceOnlyRejection err = false ->
  closePosition env reason meta r
  = (Throw err, set_events (events r ++ [ExecutorClosePosition reason meta])%list r).
Proof.
  intros Hside Hres Hro. apply side_eqb_neq in Hside.
  unfold closePosition. unfold_m. rewrite Hside, Hres, Hro. reflexivity.
Qed.

Lemma enterPosition_entered env d o r :
  enterResult env = Resolved ->
  lt (usdtBalance r) (order_size o / leverage o)%float = false ->
  let r' := after (enterPosition env d o) r in
  result (enterPosition env d o) r = Normal tt
  /\ position r'
     = mkPosition (sideOf d) (order_size o) (Some (price o)) (Some (timestamp o))
  /\ executor_calls (events r') = (executor_calls (events r) ++ [enterCall d o])%list.
Proof.
  intros Hr Hb. unfold enterPosition. unfold_m. rewrite Hb, Hr.
  destruct (isPeachHybrid r), d; xsimpl; repeat split; reflexivity.
Qed.

Lemma enterPosition_unfunded env d o r :
  lt (usdtBalance r) (order_size o / leverage o)%float = true ->
  enterPosition env d o r
  = (Normal tt,
     set_events (events r ++ [Log "Checking balance before entering position";
                              Log "Insufficient balance to enter position"])%list r).
Proof.
  intros Hb. unfold enterPosition. unfold_m. rewrite Hb.
  unfold set_events. rsimpl. rewrite <- app_assoc. reflexivity.
Qed.

Lemma enterPosition_refused env d o r err :
  lt (usdtBalance r) (order_size o / leverage o)%float = false ->
  enterResult env = Rejected err ->
  enterPosition env d o r
  = (if isBalanceRejection err then Normal tt else Throw err,
     set_events
       (events r ++
        Log "Checking balance before entering position" :: enterCall d o ::
        (if isBalanceRejection err then [Log "Order failed: Insufficient balance"]
         else []))%list r).
Proof.
  intros Hb Hr. unfold enterPosition. unfold_m. rewrite Hb, Hr.
  destruct (isBalanceRejection err), d; unfold set_events, enterCall; rsimpl;
    rewrite <- ?app_assoc; reflexivity.
Qed.

(** The part of [place] behind its checks: the close of an opposite
    position and the entry. *)
Lemma place_admitted env sg bar r :
  PositionSide_eqb (side (position r)) (sideOf (type sg)) = false ->
  ((0 <? lastPositionCloseTime r)
   && (endTime bar - lastPositionCloseTime r <? 2 * timeframeMs (config r)))%bool
  = false ->
  (PositionSide_eqb (side (position r)) (opposite (type sg))
   && (endTime bar - lastPositionEntryTime r <? minHoldTimeMs))%bool = false ->
  flipsInWindow (endTime bar) r < maxFlipsPerHour (risk (config r)) ->
  place env sg bar r
  = let rc := set_flipHistory (inWindow (endTime bar) (flipHistory r)) r in
    let o := orderFor r sg bar in
    if PositionSide_eqb (side (position r)) (opposite (type sg)) then
      match closePosition env (flipReason (type sg))
              (Some [("price"%string, close bar)]) rc with
      | (Normal _, r1) =>
          match enterPosition env (type sg) o r1 with
          | (Normal _, r2) => (Normal true, r2)
          | (Throw e, r2) => (Throw e, r2)
          end
      | (Throw e, r1) => (Throw e, r1)
      end
    else
      match enterPosition env (type sg) o rc with
      | (Normal _, r2) => (Normal true, r2)
      | (Throw e, r2) => (Throw e, r2)
      end.
Proof.
  intros Hsame Hcool Hhold Hbudget.
  unfold flipsInWindow, inWindow in Hbudget. unfold inWindow. apply Z.leb_gt in Hbudget.
  unfold place, canFlip. unfold_m.
  rewrite Hsame, Hcool, Hbudget. cbn [negb]. rewrite Hhold. cbv zeta.
  unfold flipReason.
  destruct (PositionSide_eqb _ (opposite _)).
  - destruct (closePosition env _ _ _) as [[u|e] r1]; [|reflexivity].
    destruct (enterPosition env _ _ r1) as [[u2|e] r2]; reflexivity.
  - cbn [fst snd].
    destruct (enterPosition env _ _ _) as [[u2|e] r2]; reflexivity.
Qed.

(** X23: how a position is flipped.  With an opposite position that
    is old enough, no cooldown and budget left, [applySignal]'s order path
    first asks the executor to close with reason "flip-long" or
    "flip-short" and the bar's close as price, and only then to enter;
    when both calls resolve the runner holds the new side.  When the close
    is rejected for another reason than reduce-only, the error is
    rethrown, the executor is not asked to enter and the old position is
    kept. *)
Theorem flip_closes_before_entering
    (env : Env) (sg : StrategySignal) (bar : SyntheticBar) (r : t) :
  side (position r) = opposite (type sg) ->
  ((0 <? lastPositionCloseTime r)
   && (endTime bar - lastPositionCloseTime r <? 2 * timeframeMs (config r)))%bool
  = false ->
  minHoldTimeMs <= endTime bar - lastPositionEntryTime r ->
  flipsInWindow (endTime bar) r < maxFlipsPerHour (risk (config r)) ->
  let r' := after (place env sg bar) r in
  let closing :=
    ExecutorClosePosition (flipReason (type sg)) (Some [("price"%string, close bar)]) in
  (closeResult env = Resolved -> enterResult env = Resolved ->
   lt (usdtBalance r)
      (order_size (orderFor r sg bar) / leverage (orderFor r sg bar))%float = false ->
   result (place env sg bar) r = Normal true
   /\ executor_calls (events r')
      = (executor_calls (events r)
         ++ [closing; enterCall (type sg) (orderFor r sg bar)])%list
   /\ position r'
      = mkPosition (sideOf (type sg)) (order_size (orderFor r sg bar))
          (Some (close bar)) (Some (endTime bar)))
  /\ (forall err,
        closeResult env = Rejected err -> isReduceOnlyRejection err = false ->
        result (place env sg bar) r = Throw err
        /\ executor_calls (events r') = (executor_calls (events r) ++ [closing])%list
        /\ position r' = position r).
Proof.
  intros Hopp Hcool Hheld Hbudget. cbv zeta.
  assert (Hsame : PositionSide_eqb (side (position r)) (sideOf (type sg)) = false)
    by (rewrite Hopp; apply opposite_not_same).
  assert (Hhold : (PositionSide_eqb (side (position r)) (opposite (type sg))
                   && (endTime bar - lastPositionEntryTime r <? minHoldTimeMs))%bool = false).
  { apply andb_false_iff. right. apply Z.ltb_ge. exact Hheld. }
  assert (Hisopp : PositionSide_eqb (side (position r)) (opposite (type sg)) = true)
    by (apply side_eqb_eq; exact Hopp).
  assert (Hheld_side : side (position r) <> flat)
    by (rewrite Hopp; destruct (type sg); discriminate).
  unfold result, after.
  rewrite (place_admitted env sg bar r Hsame Hcool Hhold Hbudget). cbv zeta.
  rewrite Hisopp.
  set (rc := set_flipHistory _ r).
  set (meta := Some _). set (o := orderFor r sg bar).
  split.
  - intros Hclose Henter Hbal.
    destruct (closePosition_done env (flipReason (type sg)) meta rc Hheld_side Hclose)
      as (Hres & _ & _ & _ & _ & _ & Hcalls).
    pose proof (closePosition_quiet env (flipReason (type sg)) meta rc) as [_ _ Hqb _ _].
    unfold result, after in Hres, Hcalls, Hqb.
    destruct (closePosition env (flipReason (type sg)) meta rc) as [c r1].
    cbn [fst snd] in Hres, Hcalls, Hqb. subst c.
    assert (Hb1 : lt (usdtBalance r1) (order_size o / leverage o)%float = false)
      by (rewrite Hqb; exact Hbal).
    destruct (enterPosition_entered env (type sg) o r1 Henter Hb1) as (Hres2 & Hpos & Hc2).
    unfold result, after in Hres2, Hpos, Hc2.
    destruct (enterPosition env (type sg) o r1) as [c2 r2].
    cbn [fst snd] in Hres2, Hpos, Hc2. subst c2. cbn [fst snd].
    split; [reflexivity|]. split.
    + rewrite Hc2, Hcalls. rewrite <- app_assoc. reflexivity.
    + rewrite Hpos. reflexivity.
  - intros err Hclose Hro.
    rewrite (closePosition_thrown env (flipReason (type sg)) meta rc err
               Hheld_side Hclose Hro).
    cbn [fst snd]. xsimpl. repeat split; reflexivity.
Qed.

Lemma flip_closes_before_entering_witness :
  let env := Samples.envAt 1600000 in
  let bar := Samples.barAt 1600000 101%float in
  let r := set_lastPositionEntryTime 1000000 Samples.youngLong in
  result (place env (Samples.signalOf Short) bar) r = Normal true
  /\ executor_calls (events (after (place env (Samples.signalOf Short) bar) r))
     = [ExecutorClosePosition "flip-short" (Some [("price"%string, 101%float)]);
        ExecutorEnterShort (orderFor r (Samples.signalOf Short) bar)].
Proof.
  cbv zeta.
  destruct (flip_closes_before_entering (Samples.envAt 1600000) (Samples.signalOf Short)
              (Samples.barAt 1600000 101%float)
              (set_lastPositionEntryTime 1000000 Samples.youngLong))
    as [Hok _]; try reflexivity; try (vm_compute; discriminate).
  destruct Hok as (Hr & Hc & _); try reflexivity.
  split; [exact Hr | exact Hc].
Defined.

(** X24: an order that cannot be funded is dropped, yet the signal
    counts as applied.  When the signal has passed the checks of the order
    path but the balance is below [size / leverage], [applySignal]'s order
    path returns true without calling the executor to enter, and neither
    the position nor the flip count changes; the same holds, after one
    call, when the executor rejects the entry with a balance error. *)
Theorem unfunded_order_still_taken
    (env : Env) (sg : StrategySignal) (bar : SyntheticBar) (r : t) :
  side (position r) = flat ->
  ((0 <? lastPositionCloseTime r)
   && (endTime bar - lastPositionCloseTime r <? 2 * timeframeMs (config r)))%bool
  = false ->
  flipsInWindow (endTime bar) r < maxFlipsPerHour (risk (config r)) ->
  let r' := after (place env sg bar) r in
  let margin := (order_size (orderFor r sg bar) / leverage (orderFor r sg bar))%float in
  (lt (usdtBalance r) margin = true ->
   result (place env sg bar) r = Normal true
   /\ executor_calls (events r') = executor_calls (events r)
   /\ position r' = position r
   /\ flipHistory r' = inWindow (endTime bar) (flipHistory r))
  /\ (forall err,
        lt (usdtBalance r) margin = false ->
        enterResult env = Rejected err -> isBalanceRejection err = true ->
        result (place env sg bar) r = Normal true
        /\ executor_calls (events r')
           = (executor_calls (events r)
              ++ [enterCall (type sg) (orderFor r sg bar)])%list
        /\ position r' = position r
        /\ flipHistory r' = inWindow (endTime bar) (flipHistory r)).
Proof.
  intros Hflat Hcool Hbudget. cbv zeta.
  assert (Hsame : PositionSide_eqb (side (position r)) (sideOf (type sg)) = false)
    by (rewrite Hflat; destruct (type sg); reflexivity).
  assert (Hnopp : PositionSide_eqb (side (position r)) (opposite (type sg)) = false)
    by (rewrite Hflat; destruct (type sg); reflexivity).
  assert (Hhold : (PositionSide_eqb (side (position r)) (opposite (type sg))
                   && (endTime bar - lastPositionEntryTime r <? minHoldTimeMs))%bool = false)
    by (rewrite Hnopp; reflexivity).
  unfold result, after.
  rewrite (place_admitted env sg bar r Hsame Hcool Hhold Hbudget). cbv zeta.
  rewrite Hnopp.
  set (rc := set_flipHistory _ r). set (o := orderFor r sg bar).
  split.
  - intros Hb. rewrite (enterPosition_unfunded env (type sg) o rc Hb).
    cbn [fst snd]. xsimpl. repeat split; reflexivity.
  - intros err Hb Hrej Hbalmsg.
    rewrite (enterPosition_refused env (type sg) o rc err Hb Hrej). rewrite Hbalmsg.
    cbn [fst snd]. xsimpl. destruct (type sg); cbn [enterCall executor_calls app];
      repeat split; reflexivity.
Qed.

Lemma unfunded_order_still_taken_witness :
  let r := set_usdtBalance 0.125%float Samples.peachRunner in
  result (place (Samples.envAt 1600000) (Samples.signalOf Long)
            (Samples.barAt 1600000 100%float)) r = Normal true
  /\ executor_calls
       (events (after (place (Samples.envAt 1600000) (Samples.signalOf Long)
                         (Samples.barAt 1600000 100%float)) r)) = []
  /\ position (after (place (Samples.envAt 1600000) (Samples.signalOf Long)
                        (Samples.barAt 1600000 100%float)) r) = flatPosition.
Proof.
  cbv zeta.
  destruct (unfunded_order_still_taken (Samples.envAt 1600000) (Samples.signalOf Long)
              (Samples.barAt 1600000 100%float)
              (set_usdtBalance 0.125%float Samples.peachRunner))
    as [Hlow _]; try reflexivity.
  destruct Hlow as (Hr & Hc & Hp & _); [vm_compute; reflexivity|].
  split; [exact Hr|]. split; [exact Hc | exact Hp].
Defined.

Lemma leave_calls env x r :
  side (position r) <> flat ->
  executor_calls (events (after (leave env x) r))
  = (executor_calls (events r)
     ++ [ExecutorClosePosition (exit_reason x) (Some (exit_meta x))])%list.
Proof.
  intros Hside. apply side_eqb_neq in Hside.
  unfold leave, closePosition. unfold_m. rsimpl. rewrite Hside.
  destruct (closeResult env) as [|err].
  - destruct (isPeachHybrid r); destruct (lt _ _); xsimpl; reflexivity.
  - destruct (isReduceOnlyRejection err); xsimpl; reflexivity.
Qed.

Lemma exit_reasons_known r env bar entry x :
  rsiExtremityExit r env bar entry = Some x
  \/ watermelonExit r env bar entry = Some x
  \/ trailingStopExit r bar entry = Some x
  \/ emergencyStopExit r bar entry = Some x
  \/ stopLossExit r bar entry = Some x ->
  In (exit_reason x) protectiveReasons.
Proof.
  unfold rsiExtremityExit, watermelonExit, trailingStopExit, emergencyStopExit,
    stopLossExit, protectiveReasons.
  intros [H|[H|[H|[H|H]]]];
    repeat match type of H with
           | (match ?c with _ => _ end) = Some _ => destruct c; try discriminate
           | (if ?c then _ else _) = Some _ => destruct c; try discriminate
           end;
    injection H as <-; cbn [exit_reason In]; auto 12.
Qed.

Lemma evaluateProtectiveExits_unfolded env bar r :
  evaluateProtectiveExits env bar r
  = match entryPrice (position r) with
    | None => (Normal tt, r)
    | Some entry =>
        if (PositionSide_eqb (side (position r)) flat || negb (truthy entry))%bool
        then (Normal tt, r)
        else
          match rsiExtremityExit r env bar entry with
          | Some x => leave env x r
          | None =>
              match watermelonExit r env bar entry with
              | Some x => leave env x r
              | None =>
                  let r1 := trackWaterMarks bar r in
                  match trailingStopExit r1 bar entry with
                  | Some x => leave env x r1
                  | None =>
                      match emergencyStopExit r1 bar entry with
                      | Some x => leave env x r1
                      | None =>
                          match stopLossExit r1 bar entry with
                          | Some x => leave env x r1
                          | None => (Normal tt, r1)
                          end
                      end
                  end
              end
          end
    end.
Proof.
  unfold evaluateProtectiveExits. unfold bind at 1. unfold get.
  destruct (entryPrice (position r)) as [entry|]; [|reflexivity].
  destruct (_ || _)%bool; [reflexivity|].
  destruct (rsiExtremityExit r env bar entry); [reflexivity|].
  destruct (watermelonExit r env bar entry); [reflexivity|].
  unfold bind, modify, get. cbv zeta.
  destruct (trailingStopExit _ bar entry); [reflexivity|].
  destruct (emergencyStopExit _ bar entry); [reflexivity|].
  destruct (stopLossExit _ bar entry); reflexivity.
Qed.

(** X25: [evaluateProtectiveExits] asks the executor for at most one
    close per bar and never for an entry; the reason is one of the eight
    protective reasons; and it does nothing at all while the runner is
    flat or its position has no entry price (or an entry price of 0). *)
Theorem one_close_per_bar (env : Env) (bar : SyntheticBar) (r : t) :
  (side (position r) = flat \/ truthy_opt (entryPrice (position r)) = false ->
   evaluateProtectiveExits env bar r = (Normal tt, r))
  /\ (executor_calls (events (after (evaluateProtectiveExits env bar) r))
      = executor_calls (events r)
      \/ exists reason meta,
           In reason protectiveReasons
           /\ executor_calls (events (after (evaluateProtectiveExits env bar) r))
              = (executor_calls (events r) ++ [ExecutorClosePosition reason meta])%list).
Proof.
  split.
  - rewrite evaluateProtectiveExits_unfolded.
    destruct (entryPrice (position r)) as [entry|]; [|reflexivity].
    cbn [truthy_opt]. intros [H | H].
    + apply side_eqb_eq in H. rewrite H. reflexivity.
    + rewrite H. cbn [negb]. rewrite orb_true_r. reflexivity.
  - unfold after. rewrite evaluateProtectiveExits_unfolded.
    destruct (entryPrice (position r)) as [entry|]; [|left; reflexivity].
    destruct (PositionSide_eqb (side (position r)) flat) eqn:Eflat;
      [left; reflexivity|].
    destruct (truthy entry); cbn [negb orb]; [|left; reflexivity].
    apply side_eqb_neq in Eflat.
    destruct (rsiExtremityExit r env bar entry) as [x|] eqn:E1.
    { right. exists (exit_reason x), (Some (exit_meta x)). split.
      - apply (exit_reasons_known r env bar entry). auto.
      - apply (leave_calls env x r Eflat). }
    destruct (watermelonExit r env bar entry) as [x|] eqn:E2.
    { right. exists (exit_reason x), (Some (exit_meta x)). split.
      - apply (exit_reasons_known r env bar entry). auto.
      - apply (leave_calls env x r Eflat). }
    cbv zeta.
    destruct (trackWaterMarks_frame bar r) as (_ & _ & Hp & _ & He).
    assert (Eflat' : side (position (trackWaterMarks bar r)) <> flat)
      by (rewrite Hp; exact Eflat).
    set (r1 := trackWaterMarks bar r) in *.
    destruct (trailingStopExit r1 bar entry) as [x|] eqn:E3.
    { right. exists (exit_reason x), (Some (exit_meta x)). split.
      - apply (exit_reasons_known r1 env bar entry). auto.
      - change (snd (leave env x r1)) with (after (leave env x) r1).
        rewrite (leave_calls env x r1 Eflat'), He. reflexivity. }
    destruct (emergencyStopExit r1 bar entry) as [x|] eqn:E4.
    { right. exists (exit_reason x), (Some (exit_meta x)). split.
      - apply (exit_reasons_known r1 env bar entry). auto.
      - change (snd (leave env x r1)) with (after (leave env x) r1).
        rewrite (leave_calls env x r1 Eflat'), He. reflexivity. }
    destruct (stopLossExit r1 bar entry) as [x|] eqn:E5.
    { right. exists (exit_reason x), (Some (exit_meta x)). split.
      - apply (exit_reasons_known r1 env bar entry). auto 6.
      - change (snd (leave env x r1)) with (after (leave env x) r1).
        rewrite (leave_calls env x r1 Eflat'), He. reflexivity. }
    left. cbn [snd]. rewrite He. reflexivity.
Qed.



Lemma peachGate_blocks env sg bar r :
  isPeachHybrid r = true ->
  view_adx (view env) = None
  \/ (exists v, view_adx (view env) = Some v
                /\ gt v (match adxThreshold (risk (config r)) with
                         | Some th => th | None => 25%float end) = false)
  \/ (exists x, view_v2Rsi (view env) = Some x /\ rsiTooExtreme (type sg) x = true) ->
  result (peachGate env sg bar) r = Normal true.
Proof.
  intros Hp H. unfold peachGate. unfold_m. rewrite Hp. cbn [negb].
  destruct H as [H | [(v & H & Hv) | (x & H & Hx)]].
  - rewrite H. reflexivity.
  - rewrite H. unfold shouldAllowTrading. rewrite Hv. reflexivity.
  - rewrite H, Hx.
    destruct (view_adx (view env)) as [v|]; [|reflexivity].
    destruct (shouldAllowTrading _ _); cbn [negb]; [|reflexivity].
    destruct (view_atr (view env)) as [atr|]; [|reflexivity].
    destruct (truthy atr && gt atr _)%bool; [|reflexivity].
    destruct (lt _ _); reflexivity.
Qed.

(** X27: the market-regime gate of the dual-system runner.  While
    the engine reports no ADX value, or one that is not above the
    configured threshold (25 when none is configured), or a momentum RSI
    outside 30..75 for a long signal and 25..70 for a short one,
    [applySignal] returns false, never reaches the executor and leaves the
    position and the flip history alone. *)
Theorem regime_gate_blocks
    (env : Env) (sg : StrategySignal) (bar : SyntheticBar) (r : t) :
  isPeachHybrid r = true ->
  view_adx (view env) = None
  \/ (exists v, view_adx (view env) = Some v
                /\ gt v (match adxThreshold (risk (config r)) with
                         | Some th => th | None => 25%float end) = false)
  \/ (exists x, view_v2Rsi (view env) = Some x /\ rsiTooExtreme (type sg) x = true) ->
  result (applySignal env (Some sg) bar) r = Normal false
  /\ still r (after (applySignal env (Some sg) bar) r).
Proof.
  intros Hp H. unfold result, after. rewrite applySignal_unfolded.
  destruct (lossCooldown_still env sg r) as [S1 [b1 R1]].
  unfold result in R1. unfold after in S1.
  destruct (lossCooldown env sg r) as [c1 r1]. cbn [fst snd] in *. subst c1.
  destruct b1; [split; [reflexivity | exact S1]|].
  assert (Hp1 : isPeachHybrid r1 = true) by (rewrite (s_peach _ _ S1); exact Hp).
  assert (H1 : view_adx (view env) = None
               \/ (exists v, view_adx (view env) = Some v
                             /\ gt v (match adxThreshold (risk (config r1)) with
                                      | Some th => th | None => 25%float end) = false)
               \/ (exists x, view_v2Rsi (view env) = Some x
                             /\ rsiTooExtreme (type sg) x = true))
    by (rewrite (s_config _ _ S1); exact H).
  pose proof (peachGate_blocks env sg bar r1 Hp1 H1) as R2.
  destruct (peachGate_still env sg bar r1) as [S2 _].
  unfold result in R2. unfold after in S2.
  destruct (peachGate env sg bar r1) as [c2 r2]. cbn [fst snd] in *. subst c2.
  cbn [fst snd]. split; [reflexivity | exact (still_trans _ _ _ S1 S2)].
Qed.

Lemma regime_gate_blocks_witness :
  result (applySignal
            (mkEnv 1000000 (mkView None None None None None None) Resolved Resolved)
            (Some (Samples.signalOf Long)) (Samples.barAt 1000000 100%float))
         Samples.peachRunner = Normal false.
Proof.
  apply (regime_gate_blocks
           (mkEnv 1000000 (mkView None None None None None None) Resolved Resolved)
           (Samples.signalOf Long) (Samples.barAt 1000000 100%float) Samples.peachRunner).
  - reflexivity.
  - left. reflexivity.
Defined.

Lemma frozenGate_expired now r :
  tradingFrozen r = true -> freezeUntil r <= now ->
  frozenGate now r = (Normal false, set_tradingFrozen false r).
Proof.
  intros Hf Hu. apply Z.ltb_ge in Hu.
  unfold frozenGate. unfold_m. rewrite Hf, Hu. reflexivity.
Qed.

(** X28: a freeze that runs out at the bar gate does not clear the
    failure counter.  When a bar arrives at or after [freezeUntil] while
    the flag is still set, [handleBarClose] clears the flag and lets the
    signal through, but the reconciliation failures stay counted and the
    timer stays pending; so the next report that fails to reconcile
    freezes trading again at once, for another 60 s. *)
Theorem freeze_expiry_keeps_counter (now : Z) (r : t) :
  tradingFrozen r = true ->
  freezeUntil r <= now ->
  let r' := after (frozenGate now) r in
  result (frozenGate now) r = Normal false
  /\ tradingFrozen r' = false
  /\ stateManager r' = stateManager r
  /\ timers r' = timers r
  /\ (forall now' rep,
        snd (PositionStateManager.updateFromRest (stateManager r) rep now') = false ->
        1 <= PositionStateManager.reconciliationFailures (stateManager r) ->
        tradingFrozen (after (onRestPosition now' rep) r') = true
        /\ freezeUntil (after (onRestPosition now' rep) r') = now' + 60000).
Proof.
  intros Hf Hu. cbv zeta. unfold result, after.
  rewrite (frozenGate_expired now r Hf Hu). cbn [fst snd].
  repeat split; try reflexivity.
  - destruct (onRestPosition_failed now' rep (set_tradingFrozen false r) H)
      as (_ & _ & _ & Hfreeze & _).
    apply Hfreeze. rsimpl. lia.
  - destruct (onRestPosition_failed now' rep (set_tradingFrozen false r) H)
      as (_ & _ & _ & Hfreeze & _).
    apply Hfreeze. rsimpl. lia.
Qed.

Lemma freeze_expiry_keeps_counter_witness :
  let r := after (polls [(Samples.shortReport, 10); (Samples.shortReport, 20)])
                 Samples.runnerHoldingLong in
  tradingFrozen r = true
  /\ tradingFrozen (after (frozenGate 70000) r) = false
  /\ tradingFrozen (after (onRestPosition 70010 Samples.shortReport)
                           (after (frozenGate 70000) r)) = true.
Proof.
  cbv zeta.
  destruct (freeze_expiry_keeps_counter 70000
              (after (polls [(Samples.shortReport, 10); (Samples.shortReport, 20)])
                     Samples.runnerHoldingLong))
    as (_ & Hun & _ & _ & Hre); [vm_compute; reflexivity | vm_compute; discriminate |].
  split; [vm_compute; reflexivity|]. split; [exact Hun|].
  apply (Hre 70010 Samples.shortReport); [vm_compute; reflexivity | vm_compute; discriminate].
Defined.

Lemma freezeTrading_state now d r :
  freezeTrading now d r
  = (Normal tt,
     set_timers (timers r ++ [now + d])%list
       (set_events (events r ++ [Log "Trading frozen due to reconciliation failures"])%list
          (set_freezeUntil (now + d) (set_tradingFrozen true r)))).
Proof. reflexivity. Qed.

(** X29: the freeze ends when the first pending timer fires, not at
    [freezeUntil].  Two failing reports at [t1] and [t2] on a runner with
    failures already counted leave trading frozen until [t2 + 60000] with
    two timers pending; when the first one fires, trading is unfrozen and
    the failure counter is zero although [freezeUntil] is still ahead, and
    the bar gate lets signals through from then on. *)
Theorem stale_timer_ends_freeze
    (r : t) (rep1 rep2 : PositionStateManager.RestState) (t1 t2 : Z) :
  1 <= PositionStateManager.reconciliationFailures (stateManager r) ->
  PositionStateManager.genuine_mismatch (stateManager r) rep1 ->
  PositionStateManager.genuine_mismatch (stateManager r) rep2 ->
  timers r = [] ->
  let frozen := after (polls [(rep1, t1); (rep2, t2)]) r in
  let thawed := after unfreeze frozen in
  (tradingFrozen frozen = true /\ freezeUntil frozen = t2 + 60000
   /\ timers frozen = [t1 + 60000; t2 + 60000])
  /\ (tradingFrozen thawed = false /\ freezeUntil thawed = t2 + 60000
      /\ timers thawed = [t2 + 60000]
      /\ PositionStateManager.reconciliationFailures (stateManager thawed) = 0)
  /\ (forall now, result (frozenGate now) thawed = Normal false).
Proof.
  intros H1 M1 M2 Ht. cbv zeta.
  assert (F1 := f_equal snd (PSMFacts.genuine_mismatch_fails _ _ t1 M1)).
  cbn [snd] in F1.
  destruct (onRestPosition_failed t1 rep1 r F1) as (E1 & S1 & _ & Z1 & _).
  destruct Z1 as (Zf1 & Zu1 & Zt1); [lia|].
  set (r1 := after (onRestPosition t1 rep1) r) in *.
  assert (M2' : PositionStateManager.genuine_mismatch (stateManager r1) rep2)
    by (rewrite S1; exact M2).
  assert (F2 := f_equal snd (PSMFacts.genuine_mismatch_fails _ _ t2 M2')).
  cbn [snd] in F2.
  destruct (onRestPosition_failed t2 rep2 r1 F2) as (E2 & S2 & _ & Z2 & _).
  destruct Z2 as (Zf2 & Zu2 & Zt2);
    [rewrite S1; cbn [PositionStateManager.reconciliationFailures]; lia|].
  set (r2 := after (onRestPosition t2 rep2) r1) in *.
  assert (Hpolls : after (polls [(rep1, t1); (rep2, t2)]) r = r2).
  { unfold after, polls. unfold bind at 1. rewrite E1.
    unfold bind at 1. rewrite E2. reflexivity. }
  rewrite Hpolls.
  assert (Htimers : timers r2 = [t1 + 60000; t2 + 60000])
    by (rewrite Zt2, Zt1, Ht; reflexivity).
  split; [auto|].
  unfold unfreeze. unfold_m. rsimpl. rewrite Htimers. cbn [tl].
  split; [auto|].
  intros now. unfold frozenGate. unfold_m. rsimpl. reflexivity.
Qed.

Lemma stale_timer_ends_freeze_witness :
  let r := set_stateManager
             (PositionStateManager.mk (PositionStateManager.state Samples.heldLong) 1)
             Samples.youngLong in
  let thawed := after unfreeze
                  (after (polls [(Samples.shortReport, 10); (Samples.shortReport, 2010)]) r) in
  tradingFrozen thawed = false /\ freezeUntil thawed = 62010
  /\ result (frozenGate 60010) thawed = Normal false.
Proof.
  cbv zeta.
  destruct (stale_timer_ends_freeze
              (set_stateManager
                 (PositionStateManager.mk (PositionStateManager.state Samples.heldLong) 1)
                 Samples.youngLong)
              Samples.shortReport Samples.shortReport 10 2010)
    as (_ & (Hf & Hu & _) & Hgate).
  - vm_compute. discriminate.
  - unfold PositionStateManager.genuine_mismatch. vm_compute. repeat split; discriminate.
  - unfold PositionStateManager.genuine_mismatch. vm_compute. repeat split; discriminate.
  - reflexivity.
  - split; [exact Hf|]. split; [exact Hu | apply Hgate].
Defined.

Lemma onRestPosition_reconciled now rep r :
  snd (PositionStateManager.updateFromRest (stateManager r) rep now) = true ->
  let norm := PositionStateManager.normalize rep in
  let r' := after (onRestPosition now rep) r in
  result (onRestPosition now rep) r = Normal tt
  /\ position r'
     = mkPosition (PositionStateManager.n_side norm) (PositionStateManager.n_size norm)
         (if gt (PositionStateManager.n_avgEntry norm) 0%float
          then Some (PositionStateManager.n_avgEntry norm) else None)
         (Some now)
  /\ lastPositionEntryTime r' = lastPositionEntryTime r
  /\ isPeachHybrid r' = isPeachHybrid r
  /\ highestPrice r' = highestPrice r /\ lowestPrice r' = lowestPrice r
  /\ executor_calls (events r') = executor_calls (events r).
Proof.
  intros H. pose proof (PSMFacts.updateFromRest_true _ _ _ H) as E.
  cbv zeta. unfold onRestPosition. unfold_m. rewrite E. cbn [negb].
  unfold PositionStateManager.getState, PositionStateManager.clearPendingOrder,
    PositionStateManager.with_pending, PositionStateManager.adopt.
  destruct (negb (seq (PositionStateManager.positionAmt rep) _)); rsimpl;
    cbn [PositionStateManager.state PositionStateManager.side PositionStateManager.size
         PositionStateManager.avgEntry PositionStateManager.lastUpdate];
    destruct (negb (PositionSide_eqb _ _) || gt _ _)%bool;
    xsimpl; repeat split; reflexivity.
Qed.

(** X30: every report that reconciles rewrites the runner's position
    from the local state, and with it [openedAt], which becomes the time
    of the report.  The dwell guard of [evaluateProtectiveExits] is
    measured from [openedAt], so it starts again with each such report:
    on a bar that ends less than 30 s after the report, the RSI exit and
    the trailing stop do not fire, however long the position has been
    held. *)
Theorem poll_restarts_dwell
    (now : Z) (rep : PositionStateManager.RestState) (r : t) :
  snd (PositionStateManager.updateFromRest (stateManager r) rep now) = true ->
  now <> 0 ->
  let r' := after (onRestPosition now rep) r in
  openedAt (position r') = Some now
  /\ side (position r') = PositionStateManager.n_side (PositionStateManager.normalize rep)
  /\ size (position r') = PositionStateManager.n_size (PositionStateManager.normalize rep)
  /\ lastPositionEntryTime r' = lastPositionEntryTime r
  /\ (forall bar, timeSinceEntry r' bar = endTime bar - now)
  /\ (forall env bar entry,
        endTime bar - now < minTimeBeforeExit ->
        rsiExtremityExit r' env bar entry = None
        /\ trailingStopExit (trackWaterMarks bar r') bar entry = None).
Proof.
  intros H Hnow. cbv zeta.
  destruct (onRestPosition_reconciled now rep r H) as (_ & Hpos & Hentry & _).
  set (r' := after (onRestPosition now rep) r) in *.
  assert (Htime : forall bar, timeSinceEntry r' bar = endTime bar - now).
  { intros bar. unfold timeSinceEntry. rewrite Hpos. cbn [openedAt].
    unfold truthy_Z. apply Z.eqb_neq in Hnow. rewrite Hnow. reflexivity. }
  rewrite Hpos. cbn [openedAt side size]. repeat split; auto.
  - unfold rsiExtremityExit. rewrite Htime.
    apply Z.leb_gt in H0. rewrite H0. rewrite andb_false_r.
    destruct (view_v2Rsi (view env)); reflexivity.
  - unfold trailingStopExit. rewrite timeSinceEntry_tracked, Htime.
    apply Z.leb_gt in H0. rewrite H0. rewrite andb_false_r. reflexivity.
Qed.

Lemma poll_restarts_dwell_witness :
  let report := Samples.longReport in
  let r' := after (onRestPosition 5000000 report) Samples.runnerHoldingLong in
  openedAt (position Samples.runnerHoldingLong) = Some 1000000
  /\ openedAt (position r') = Some 5000000
  /\ timeSinceEntry r' (Samples.barAt 5010000 100%float) = 10000.
Proof.
  cbv zeta.
  destruct (poll_restarts_dwell 5000000 Samples.longReport
              Samples.runnerHoldingLong)
    as (Ho & _ & _ & _ & Ht & _); [vm_compute; reflexivity | discriminate |].
  split; [reflexivity|]. split; [exact Ho|]. rewrite Ht. reflexivity.
Defined.

End RunnerMore.
